(** * ESP32-CAM WebSocket streaming firmware: connection and streaming loop

    A shallow embedding of [src/main.cpp] (the production sketch) and of the
    inbound-event handler of [test_connection_simple.cpp], followed by the
    rest of that test sketch, [setup] of [main.cpp] and the diagnostic
    sketch [test_connection.cpp].

    The sketches are single-threaded Arduino programs that mutate global
    variables and talk to three external collaborators: the serial port, the
    ArduinoWebsockets client and the esp32-camera driver.  The embedding is a
    state-and-output monad over the record of globals: every call into a
    collaborator is recorded, in program order, as an [Effect], and every
    value a collaborator hands back (the result of [connect] and of the
    sends, the clock reading of [millis], the frame buffer of
    [esp_camera_fb_get], the events that [poll] dispatches to the registered
    callback) is an input of the iteration, collected in a [LoopEnv].

    Conventions of the model:
    - [unsigned long] values are integers reduced modulo 2^32 at every
      operation that can leave the range;
    - the client hands inbound events to the callback while [poll] runs, and
      at no other time;
    - the [float] variable [fps] holds an IEEE 754 binary32 value, computed
      as the C++ expression prescribes: in [double], then rounded;
    - a text is either a literal or a template with the numbers spliced into
      it, and a JSON message is its type field with the spliced values;
    - a loop without a limit of its own (the wait for WiFi in [setup]) is
      followed for a given number of evaluations of its guard, and a run
      that is still in the loop then is reported as such, with the calls
      made so far. *)

From Stdlib Require Import ZArith List String Bool Lia QArith Qpower Lqa SpecFloat.
Import ListNotations.
Open Scope Z_scope.

(** ** Platform integers

  [unsigned long] is 32 bits wide on the ESP32; arithmetic wraps. *)

Definition ULONG_MODULUS : Z := 2 ^ 32.

Definition ulong (z : Z) : Z := z mod ULONG_MODULUS.

(** ** Platform floating point

  [double] is IEEE 754 binary64 and [float] is binary32.  A floating-point
  value is a [spec_float] of the Standard Library's specification of
  IEEE 754 arithmetic, whose operations round to nearest, ties to even. *)

(** Conversion of an [unsigned long] to [double]. *)
Definition double_of_ulong (n : Z) : spec_float := binary_normalize 53 1024 n 0 false.

(** Product and quotient of two [double]s. *)
Definition double_mul : spec_float -> spec_float -> spec_float := SFmul 53 1024.
Definition double_div : spec_float -> spec_float -> spec_float := SFdiv 53 1024.

(** Conversion of a [double] to [float], as in the assignment of a [double]
  expression to a [float] variable. *)
Definition float_of_double (x : spec_float) : spec_float :=
  match x with
  | S754_finite s m e => binary_round 24 128 s m e
  | _ => x
  end.

(** Mantissa times two to the exponent. *)
Definition scaled (m e : Z) : Q := (inject_Z m * 2 ^ e)%Q.

(** The rational number that a finite floating-point value stands for. *)
Definition float_value (x : spec_float) : Q :=
  match x with
  | S754_finite s m e => scaled (cond_Zopp s (Z.pos m)) e
  | _ => 0%Q
  end.

(** A floating-point value that is finite and not negative: neither NaN nor
  an infinity. *)
Definition finite_nonneg (x : spec_float) : bool :=
  match x with
  | S754_zero false | S754_finite false _ _ => true
  | _ => false
  end.

(** ** Values exchanged with the collaborators *)

(** Modelled from the spec: the event enumeration is declared by the
  ArduinoWebsockets library, which is not part of the repository.  The
  handlers name four of its values; the spec lists the alternatives of the
  inbound event as ConnectionOpened, ConnectionClosed, Ping, Pong and
  TextMessage, and the last one is what reaches the final [else] of the
  handler in [test_connection_simple.cpp]. *)
Inductive WebsocketsEvent : Type :=
| ConnectionOpened
| ConnectionClosed
| GotPing
| GotPong
| TextMessage.

(** The fields of the driver's frame buffer that the sketch reads. *)
Record camera_fb_t : Type := mk_fb {
  buf : list Z;
  len : Z;
  width : Z;
  height : Z
}.

(** Text built by the sketch.  Literals keep their characters; the texts
  that splice numbers into a literal keep the numbers.  [FpsText value] is
  the text ["FPS: " + String(value, 2)], the library's rendering of the
  [float] with two decimals. *)
Inductive Text : Type :=
| Lit (s : string)
| Url
| AttemptText (attempt max_attempts : Z)
| FpsText (value : spec_float).

(** The JSON text messages of the sketches, by their type field and the
  values spliced into them; [current_fps] is spliced in as
  [String(fps, 2)]. *)
Inductive Json : Type :=
| JLog (message : Text)
| JConnection
| JHeartbeat (timestamp : Z)
| JFrame (size w h timestamp : Z) (current_fps : spec_float)
| JDeviceInfo.

(** One call into a collaborator.  A send carries the result the transport
  returned for it. *)
Inductive Effect : Type :=
| SerialOut (t : Text)
| WsPoll
| WsAddHeader (key : string)
| WsConnect (ok : bool)
| WsSend (m : Json) (ok : bool)
| WsSendBinary (payload : list Z) (size : Z) (ok : bool)
| WsPong
| FbGet (fb : option camera_fb_t)
| FbReturn (fb : camera_fb_t)
| Delay (ms : Z).

(** An event that [poll] hands to the callback: the event, its data, and the
  result of the send that the callback may perform while handling it. *)
Definition Inbound : Type := (WebsocketsEvent * string * bool)%type.

(** ** The state-and-output monad *)

Section Monad.
Variable G : Type.

Definition M (A : Type) : Type := G -> A * G * list Effect.

Definition ret {A : Type} (a : A) : M A := fun s => (a, s, []).

Definition bind {A B : Type} (m : M A) (k : A -> M B) : M B :=
  fun s =>
    let '(a, s1, t1) := m s in
    let '(b, s2, t2) := k a s1 in
    (b, s2, t1 ++ t2).

Definition emit (e : Effect) : M unit := fun s => (tt, s, [e]).

Definition get {A : Type} (field : G -> A) : M A := fun s => (field s, s, []).

Definition modify (f : G -> G) : M unit := fun s => (tt, f s, []).

Definition value_of {A : Type} (r : A * G * list Effect) : A := fst (fst r).

Definition state_of {A : Type} (r : A * G * list Effect) : G := snd (fst r).

Definition trace_of {A : Type} (r : A * G * list Effect) : list Effect := snd r.
End Monad.

Arguments ret {G A} a.
Arguments bind {G A B} m k.
Arguments emit {G} e.
Arguments get {G A} field.
Arguments modify {G} f.
Arguments value_of {G A} r.
Arguments state_of {G A} r.
Arguments trace_of {G A} r.

Declare Scope monad_scope.
Delimit Scope monad_scope with monad.
Notation "x <- m ;; k" := (bind m (fun x => k))
(at level 61, m at next level, right associativity) : monad_scope.
Notation "m ;; k" := (bind m (fun _ => k))
(at level 61, right associativity) : monad_scope.
Open Scope monad_scope.

(** Calls into the collaborators, shared by both sketches. *)
Section Collaborators.
Context {G : Type}.

Definition Serial_println (t : Text) : M G unit := emit (SerialOut t).
Definition Serial_print (t : Text) : M G unit := emit (SerialOut t).
Definition client_send (m : Json) (ok : bool) : M G unit := emit (WsSend m ok).
Definition client_sendBinary (payload : list Z) (size : Z) (ok : bool) : M G unit :=
  emit (WsSendBinary payload size ok).
Definition client_addHeader (key : string) : M G unit := emit (WsAddHeader key).
Definition client_connect (ok : bool) : M G bool := emit (WsConnect ok) ;; ret ok.
Definition client_pong : M G unit := emit WsPong.
Definition esp_camera_fb_get (fb : option camera_fb_t) : M G (option camera_fb_t) :=
  emit (FbGet fb) ;; ret fb.
Definition esp_camera_fb_return (fb : camera_fb_t) : M G unit := emit (FbReturn fb).
Definition delay (ms : Z) : M G unit := emit (Delay ms).
Definition millis (clock : Z) : M G Z := ret (ulong clock).

(** [client.poll()]: the queued events are handed, in order, to the
    registered callback. *)
Fixpoint dispatch (callback : Inbound -> M G unit) (events : list Inbound) : M G unit :=
  match events with
  | [] => ret tt
  | ev :: rest => callback ev ;; dispatch callback rest
  end.

Definition client_poll (callback : Inbound -> M G unit) (events : list Inbound) : M G unit :=
  emit WsPoll ;; dispatch callback events.
End Collaborators.

(** ** [src/main.cpp] *)

Module Main.

Definition HEARTBEAT_INTERVAL : Z := 30000.
Definition MAX_CONNECTION_ATTEMPTS : Z := 5.

(** The global variables of the sketch. *)
Record Globals : Type := mkGlobals {
  isConnected : bool;
  lastFrameTime : Z;
  frameCount : Z;
  fps : spec_float;
  lastHeartbeat : Z;
  connectionAttempts : Z
}.

(** Their initialisers. *)
Definition initial : Globals :=
  {| isConnected := false; lastFrameTime := 0; frameCount := 0;
     fps := S754_zero false;
     lastHeartbeat := 0; connectionAttempts := 0 |}.

Definition set_isConnected (b : bool) (s : Globals) : Globals :=
  mkGlobals b (lastFrameTime s) (frameCount s) (fps s) (lastHeartbeat s)
    (connectionAttempts s).
Definition set_lastFrameTime (t : Z) (s : Globals) : Globals :=
  mkGlobals (isConnected s) t (frameCount s) (fps s) (lastHeartbeat s)
    (connectionAttempts s).
Definition set_frameCount (n : Z) (s : Globals) : Globals :=
  mkGlobals (isConnected s) (lastFrameTime s) n (fps s) (lastHeartbeat s)
    (connectionAttempts s).
Definition set_fps (f : spec_float) (s : Globals) : Globals :=
  mkGlobals (isConnected s) (lastFrameTime s) (frameCount s) f (lastHeartbeat s)
    (connectionAttempts s).
Definition set_lastHeartbeat (t : Z) (s : Globals) : Globals :=
  mkGlobals (isConnected s) (lastFrameTime s) (frameCount s) (fps s) t
    (connectionAttempts s).
Definition set_connectionAttempts (n : Z) (s : Globals) : Globals :=
  mkGlobals (isConnected s) (lastFrameTime s) (frameCount s) (fps s)
    (lastHeartbeat s) n.

(** What the collaborators hand back during one run of [loop]. *)
Record LoopEnv : Type := mkEnv {
  polled : list Inbound;          (* events dispatched by client.poll() *)
  log_ok : bool;                  (* result of the send made by the loop's own sendLog *)
  connect_ok : bool;              (* result of client.connect(...) *)
  hello_ok : bool;                (* result of sending the connection message *)
  clock_start : Z;                (* millis() read into currentTime *)
  heartbeat_ok : bool;            (* result of sending the heartbeat *)
  captured : option camera_fb_t;  (* result of esp_camera_fb_get() *)
  clock_meta : Z;                 (* millis() spliced into the metadata *)
  meta_ok : bool;                 (* result of sending the metadata *)
  binary_ok : bool;               (* result of client.sendBinary(...) *)
  clock_end : Z                   (* millis() read by the pacing code *)
}.

Definition sendLog (message : Text) (ok : bool) : M Globals unit :=
  Serial_println message ;;
  connected <- get isConnected ;;
  if connected then client_send (JLog message) ok else ret tt.

Definition onEventsCallback (ev : Inbound) : M Globals unit :=
  let '(event, data, ok) := ev in
  match event with
  | ConnectionOpened =>
      sendLog (Lit "Connection opened") ok ;;
      modify (set_isConnected true)
  | ConnectionClosed =>
      sendLog (Lit "Connection closed") ok ;;
      modify (set_isConnected false)
  | _ => ret tt
  end.

Definition connectWebSocket (connected hello : bool) : M Globals unit :=
  Serial_print (Lit "Connecting to ") ;;
  Serial_println Url ;;
  Serial_print (Lit "Using token: ") ;;
  Serial_println (Lit "esp32cam_secure_token_2024") ;;
  client_addHeader "Authorization" ;;
  client_addHeader "X-Device-Type" ;;
  client_addHeader "X-Device-ID" ;;
  client_addHeader "X-Device-Version" ;;
  client_addHeader "X-Connection-Type" ;;
  ok <- client_connect connected ;;
  if ok then
    Serial_println (Lit "WebSocket connected successfully!") ;;
    modify (set_isConnected true) ;;
    client_send JConnection hello
  else
    Serial_println (Lit "WebSocket connection failed.") ;;
    modify (set_isConnected false).

(** The value assigned to [fps]: [frameCount * 1000.0 / (currentTime -
    lastFrameTime)].  The literal is a [double], so both [unsigned long]
    operands are converted to [double], the product and the quotient are
    taken in [double], and the assignment rounds the quotient to [float]. *)
Definition measured_fps (frames elapsed : Z) : spec_float :=
  float_of_double
    (double_div (double_mul (double_of_ulong frames) (double_of_ulong 1000))
                (double_of_ulong elapsed)).

(** The body of [if (!isConnected) { ... return; }]. *)
Definition reconnect (e : LoopEnv) : M Globals unit :=
  attempts <- get connectionAttempts ;;
  if attempts <? MAX_CONNECTION_ATTEMPTS then
    sendLog (AttemptText (ulong (attempts + 1)) MAX_CONNECTION_ATTEMPTS) (log_ok e) ;;
    connectWebSocket (connect_ok e) (hello_ok e) ;;
    modify (fun s => set_connectionAttempts (ulong (connectionAttempts s + 1)) s) ;;
    delay 5000
  else
    sendLog (Lit "Max reconnection attempts reached. Waiting longer before retry...")
      (log_ok e) ;;
    modify (set_connectionAttempts 0) ;;
    delay 30000.

(** The heartbeat block. *)
Definition heartbeat (e : LoopEnv) (currentTime : Z) : M Globals unit :=
  last <- get lastHeartbeat ;;
  if HEARTBEAT_INTERVAL <=? ulong (currentTime - last) then
    client_send (JHeartbeat currentTime) (heartbeat_ok e) ;;
    modify (set_lastHeartbeat currentTime)
  else ret tt.

(** Metadata and binary send of an acquired frame. *)
Definition send_frame (e : LoopEnv) (fb : camera_fb_t) : M Globals unit :=
  connected <- get isConnected ;;
  if connected then
    now <- millis (clock_meta e) ;;
    current <- get fps ;;
    client_send (JFrame (len fb) (width fb) (height fb) now current) (meta_ok e) ;;
    client_sendBinary (buf fb) (len fb) (binary_ok e)
  else ret tt.

(** The frame-rate computation. *)
Definition update_fps (e : LoopEnv) (currentTime : Z) : M Globals unit :=
  modify (fun s => set_frameCount (ulong (frameCount s + 1)) s) ;;
  start <- get lastFrameTime ;;
  if 1000 <=? ulong (currentTime - start) then
    frames <- get frameCount ;;
    modify (set_fps (measured_fps frames (ulong (currentTime - start)))) ;;
    current <- get fps ;;
    sendLog (FpsText current) (log_ok e) ;;
    modify (set_frameCount 0) ;;
    modify (set_lastFrameTime currentTime)
  else ret tt.

(** The frame-rate control at the end of [loop]. *)
Definition pace (e : LoopEnv) (currentTime : Z) : M Globals unit :=
  let frameDuration := 33 in
  now <- millis (clock_end e) ;;
  let elapsed := ulong (now - ulong (currentTime - frameDuration)) in
  if elapsed <? frameDuration then delay (ulong (frameDuration - elapsed))
  else ret tt.

(** The rest of [loop] once the session is known to be connected. *)
Definition stream (e : LoopEnv) : M Globals unit :=
  modify (set_connectionAttempts 0) ;;
  currentTime <- millis (clock_start e) ;;
  heartbeat e currentTime ;;
  fb <- esp_camera_fb_get (captured e) ;;
  match fb with
  | None => Serial_println (Lit "Camera capture failed")
  | Some fb =>
      send_frame e fb ;;
      esp_camera_fb_return fb ;;
      update_fps e currentTime ;;
      pace e currentTime
  end.

Definition loop (e : LoopEnv) : M Globals unit :=
  client_poll onEventsCallback (polled e) ;;
  connected <- get isConnected ;;
  if negb connected then reconnect e else stream e.

(** The globals once [client.poll()] has dispatched the events of the
  iteration: what the test [if (!isConnected)] of [loop] reads. *)
Definition after_poll (e : LoopEnv) (s : Globals) : Globals :=
  state_of (client_poll onEventsCallback (polled e) s).

(** An iteration in which nothing opens the session: the poll delivers no
  ConnectionOpened event and [client.connect] returns false. *)
Definition fails (e : LoopEnv) : bool :=
  negb (connect_ok e) &&
  forallb (fun ev : Inbound =>
             match ev with
             | (ConnectionOpened, _, _) => false
             | _ => true
             end) (polled e).

(** Successive runs of [loop], as the Arduino core calls it. *)
Fixpoint run (envs : list LoopEnv) : M Globals unit :=
  match envs with
  | [] => ret tt
  | e :: rest => loop e ;; run rest
  end.

End Main.

(** ** The event handler of [test_connection_simple.cpp] *)

Module TestSimple.

Record Globals : Type := mkGlobals {
  isConnected : bool;
  isAuthenticated : bool
}.

Definition set_isConnected (b : bool) (s : Globals) : Globals :=
  mkGlobals b (isAuthenticated s).
Definition set_isAuthenticated (b : bool) (s : Globals) : Globals :=
  mkGlobals (isConnected s) b.

(** [String::indexOf]: position of the first occurrence, or -1. *)
Definition indexOf (data needle : string) : Z :=
  match index 0 needle data with
  | Some position => Z.of_nat position
  | None => -1
  end.

Definition onEventsCallback (ev : Inbound) : M Globals unit :=
  let '(event, data, ok) := ev in
  match event with
  | ConnectionOpened =>
      Serial_println (Lit "WebSocket connection opened") ;;
      modify (set_isConnected true) ;;
      modify (set_isAuthenticated false)
  | ConnectionClosed =>
      Serial_println (Lit "WebSocket connection closed") ;;
      modify (set_isConnected false) ;;
      modify (set_isAuthenticated false)
  | GotPing =>
      Serial_println (Lit "Received Ping") ;;
      client_pong
  | GotPong =>
      Serial_println (Lit "Received Pong")
  | TextMessage =>
      if (0 <? String.length data)%nat then
        Serial_println (Lit ("Received message: " ++ data)) ;;
        authenticated <- get isAuthenticated ;;
        if negb authenticated then
          if negb (indexOf data "connection_ack" =? -1) then
            modify (set_isAuthenticated true) ;;
            Serial_println (Lit "Authentication successful!") ;;
            client_send JDeviceInfo ok
          else ret tt
        else ret tt
      else ret tt
  end.

End TestSimple.

(** ** Observations on a trace *)

Definition delay_of (e : Effect) : list Z :=
  match e with Delay ms => [ms] | _ => [] end.

Definition connect_of (e : Effect) : list bool :=
  match e with WsConnect ok => [ok] | _ => [] end.

Definition camera_of (e : Effect) : list Effect :=
  match e with FbGet _ | FbReturn _ => [e] | _ => [] end.

Definition heartbeat_of (e : Effect) : list Z :=
  match e with WsSend (JHeartbeat t) _ => [t] | _ => [] end.

Definition frame_of (e : Effect) : list Effect :=
  match e with
  | WsSend (JFrame _ _ _ _ _) _ | WsSendBinary _ _ _ => [e]
  | _ => []
  end.

Definition fps_report_of (e : Effect) : list spec_float :=
  match e with SerialOut (FpsText value) => [value] | _ => [] end.

Definition device_info_of (e : Effect) : list Effect :=
  match e with WsSend JDeviceInfo _ => [e] | _ => [] end.

Definition pong_of (e : Effect) : list Effect :=
  match e with WsPong => [e] | _ => [] end.

(** Calls that reach the WebSocket client. *)
Definition transport_of (e : Effect) : list Effect :=
  match e with
  | SerialOut _ | FbGet _ | FbReturn _ | Delay _ => []
  | _ => [e]
  end.

(** The delays performed, in order. *)
Definition delays : list Effect -> list Z := flat_map delay_of.
(** The results of the connect attempts made, in order. *)
Definition connects : list Effect -> list bool := flat_map connect_of.
(** The acquisitions and releases of frame buffers, in order. *)
Definition camera_events : list Effect -> list Effect := flat_map camera_of.
(** The timestamps of the heartbeat messages sent, in order. *)
Definition heartbeats : list Effect -> list Z := flat_map heartbeat_of.
(** The frame metadata and frame payload sends, in order. *)
Definition frame_sends : list Effect -> list Effect := flat_map frame_of.
(** The frame rates reported, in order. *)
Definition fps_reports : list Effect -> list spec_float := flat_map fps_report_of.
(** The device-info messages sent, in order. *)
Definition device_infos : list Effect -> list Effect := flat_map device_info_of.
(** The pongs sent, in order. *)
Definition pongs : list Effect -> list Effect := flat_map pong_of.
(** All calls that reached the WebSocket client, in order. *)
Definition transport_calls : list Effect -> list Effect := flat_map transport_of.

(** Total time slept. *)
Definition slept (t : list Effect) : Z := fold_right Z.add 0 (delays t).

(** What [poll] and the callback of [main.cpp] may do: poll, print a
    literal, send a literal as a log message. *)
Definition quiet (e : Effect) : bool :=
  match e with
  | WsPoll | SerialOut (Lit _) | WsSend (JLog (Lit _)) _ => true
  | _ => false
  end.

(** The remainder of the frame interval after [elapsed] milliseconds, as the
    pacing step of the streaming loop is specified. *)
Definition remaining_sleep (elapsed : Z) : Z := Z.max 0 (33 - elapsed).

(** Every later element of a list of timestamps is at least [gap] after
    every earlier one. *)
Fixpoint spaced (gap : Z) (ts : list Z) : Prop :=
  match ts with
  | [] => True
  | t :: rest => Forall (fun t' => gap <= t' - t) rest /\ spaced gap rest
  end.

(** Clock readings that never go backwards and stay in the range of
    [unsigned long]. *)
Fixpoint monotone_from (t : Z) (readings : list Z) : Prop :=
  match readings with
  | [] => True
  | r :: rest => t <= r < ULONG_MODULUS /\ monotone_from r rest
  end.

(** ** Observations on runs of [main.cpp] *)

(** What an inbound event tells about the link: opened, closed, or nothing. *)
Definition link_of (ev : Inbound) : option bool :=
  match ev with
  | (ConnectionOpened, _, _) => Some true
  | (ConnectionClosed, _, _) => Some false
  | _ => None
  end.

(** The last thing a batch of events tells about the link. *)
Fixpoint last_link (events : list Inbound) : option bool :=
  match events with
  | [] => None
  | ev :: rest =>
      match last_link rest with
      | Some b => Some b
      | None => link_of ev
      end
  end.

(** The log messages handed to the WebSocket client, in order. *)
Definition log_of (e : Effect) : list Effect :=
  match e with WsSend (JLog _) _ => [e] | _ => [] end.

Definition log_sends : list Effect -> list Effect := flat_map log_of.

(** The session as the client knows it.  A ConnectionOpened or
    ConnectionClosed event tells that the session has been opened or
    closed, so the session is in that state while the callback handles the
    event; any other event leaves it as it was. *)
Definition session_on (open : bool) (ev : Inbound) : bool :=
  match link_of ev with
  | Some b => b
  | None => open
  end.

(** The log messages handed to the client on a closed session while [poll]
    dispatches a batch of events to the callback of [main.cpp]; [open] tells
    whether the session is open when the poll starts. *)
Fixpoint logs_while_closed (open : bool) (events : list Inbound) (s : Main.Globals)
  : list Effect :=
  match events with
  | [] => []
  | ev :: rest =>
      let now := session_on open ev in
      let r := Main.onEventsCallback ev s in
      (if now then [] else log_sends (trace_of r)) ++
      logs_while_closed now rest (state_of r)
  end.

(** Whether the session is open once the batch has been dispatched. *)
Definition session_after_poll (open : bool) (events : list Inbound) : bool :=
  match last_link events with
  | Some b => b
  | None => open
  end.

(** The log messages that one iteration of [loop] hands to the client on a
    closed session: those of the poll, and those of the rest of the
    iteration when the poll leaves the session closed (the rest of the
    iteration logs only before its connect attempt, if it makes one). *)
Definition closed_session_logs (open : bool) (e : Main.LoopEnv) (s : Main.Globals)
  : list Effect :=
  let s1 := Main.after_poll e s in
  logs_while_closed open (Main.polled e) s ++
  (if session_after_poll open (Main.polled e) then []
   else log_sends (trace_of ((if negb (Main.isConnected s1)
                              then Main.reconnect e
                              else Main.stream e) s1))).

(** Whether the session is open at the end of an iteration: the result of
    its connect attempt if it made one, the state after the poll
    otherwise. *)
Definition session_after (open : bool) (e : Main.LoopEnv) (s : Main.Globals) : bool :=
  last (connects (trace_of (Main.loop e s))) (session_after_poll open (Main.polled e)).

(** The claim that no log message reaches a closed session, for one
    iteration of [loop]. *)
Definition no_log_on_closed_session (open : bool) (e : Main.LoopEnv) (s : Main.Globals)
  : Prop :=
  closed_session_logs open e s = [].

(** The log message of the ConnectionClosed branch of the callback. *)
Definition is_close_log (x : Effect) : Prop :=
  exists ok, x = WsSend (JLog (Lit "Connection closed")) ok.

(** The claim that a reported frame rate is the exact quotient
    [frames * 1000 / elapsed], for one iteration of [loop]. *)
Definition reports_exact_quotient (e : Main.LoopEnv) (s : Main.Globals) : Prop :=
  let elapsed := ulong (ulong (Main.clock_start e) - Main.lastFrameTime s) in
  let frames := ulong (Main.frameCount s + 1) in
  Forall (fun value =>
            (float_value value == inject_Z frames * 1000 / inject_Z elapsed)%Q)
         (fps_reports (trace_of (Main.loop e s))).

(** A sequence of camera calls in which every acquired buffer is handed
    back by the very next call, and nothing else is handed back. *)
Fixpoint balanced (calls : list Effect) : Prop :=
  match calls with
  | [] => True
  | FbGet None :: rest => balanced rest
  | FbGet (Some fb) :: FbReturn fb' :: rest => fb = fb' /\ balanced rest
  | _ => False
  end.

(** Frames released since the last frame-rate report, counted as an
    [unsigned long] from [n]. *)
Definition count_step (n : Z) (e : Effect) : Z :=
  match e with
  | FbReturn _ => ulong (n + 1)
  | SerialOut (FpsText _) => 0
  | _ => n
  end.

Definition frames_since_report (n : Z) (t : list Effect) : Z :=
  fold_left count_step t n.

(** ** The rest of [test_connection_simple.cpp] *)

Module TestSimpleSketch.

(** The two flags of the sketch together with the static local
    [lastHeartbeat] of its [loop]. *)
Record State : Type := mkState {
  flags : TestSimple.Globals;
  lastHeartbeat : Z
}.

Definition set_lastHeartbeat (t : Z) (st : State) : State :=
  mkState (flags st) t.

Definition isConnected (st : State) : bool := TestSimple.isConnected (flags st).
Definition isAuthenticated (st : State) : bool := TestSimple.isAuthenticated (flags st).

(** Code that only touches the flags, run on the whole state. *)
Definition on_flags {A : Type} (m : M TestSimple.Globals A) : M State A :=
  fun st =>
    let '(a, g, t) := m (flags st) in
    (a, mkState g (lastHeartbeat st), t).

(** What the collaborators hand back during one run of [loop]. *)
Record LoopEnv : Type := mkEnv {
  polled : list Inbound;   (* events dispatched by client.poll() *)
  wifi_up : bool;          (* WiFi.status() == WL_CONNECTED *)
  connect_ok : bool;       (* result of client.connect(url) *)
  clock_check : Z;         (* millis() in the test of the interval *)
  clock_stamp : Z;         (* millis() spliced into the heartbeat *)
  heartbeat_ok : bool;     (* result of sending the heartbeat *)
  clock_record : Z         (* millis() stored in lastHeartbeat *)
}.

Definition connectWebSocket (wifi connected : bool) : M TestSimple.Globals unit :=
  if negb wifi then
    Serial_println (Lit "WiFi not connected!")
  else
    Serial_println (Lit "Connecting to WebSocket...") ;;
    client_addHeader "Authorization" ;;
    ok <- client_connect connected ;;
    if ok then
      Serial_println (Lit "WebSocket connected!") ;;
      modify (TestSimple.set_isConnected true) ;;
      modify (TestSimple.set_isAuthenticated false)
    else
      Serial_println (Lit "WebSocket connection failed!") ;;
      modify (TestSimple.set_isConnected false).

Definition loop (e : LoopEnv) : M State unit :=
  on_flags (client_poll TestSimple.onEventsCallback (polled e)) ;;
  connected <- get isConnected ;;
  if negb connected then
    Serial_println (Lit "Reconnecting...") ;;
    on_flags (connectWebSocket (wifi_up e) (connect_ok e)) ;;
    delay 5000
  else
    now <- millis (clock_check e) ;;
    last <- get lastHeartbeat ;;
    (if 10000 <? ulong (now - last) then
       authenticated <- get isAuthenticated ;;
       (if authenticated then
          stamp <- millis (clock_stamp e) ;;
          client_send (JHeartbeat stamp) (heartbeat_ok e) ;;
          Serial_println (Lit "Heartbeat sent")
        else ret tt) ;;
       recorded <- millis (clock_record e) ;;
       modify (set_lastHeartbeat recorded)
     else ret tt) ;;
    delay 100.

Fixpoint run (envs : list LoopEnv) : M State unit :=
  match envs with
  | [] => ret tt
  | e :: rest => loop e ;; run rest
  end.

(** The state once [client.poll()] has dispatched the events of the
    iteration. *)
Definition after_poll (e : LoopEnv) (st : State) : State :=
  state_of (on_flags (client_poll TestSimple.onEventsCallback (polled e)) st).

End TestSimpleSketch.

(** A text occurs in another one. *)
Definition occurs_in (token data : string) : Prop :=
  exists before rest : string, data = (before ++ token ++ rest)%string.

(** In a trace, no heartbeat is sent on the transport before a device-info
    message has been sent; [acked] tells whether one was sent before the
    trace starts. *)
Fixpoint heartbeats_follow_ack (acked : bool) (t : list Effect) : bool :=
  match t with
  | [] => true
  | WsSend JDeviceInfo _ :: rest => heartbeats_follow_ack true rest
  | WsSend (JHeartbeat _) _ :: rest => acked && heartbeats_follow_ack acked rest
  | _ :: rest => heartbeats_follow_ack acked rest
  end.

(** Whether a device-info message was sent before or during a trace. *)
Fixpoint ack_after (acked : bool) (t : list Effect) : bool :=
  match t with
  | [] => acked
  | WsSend JDeviceInfo _ :: rest => ack_after true rest
  | _ :: rest => ack_after acked rest
  end.

(** What [poll] and the callback of the test sketch may do: poll, print a
    literal, answer a ping, send the device-info message. *)
Definition handler_effect (e : Effect) : bool :=
  match e with
  | WsPoll | SerialOut (Lit _) | WsPong | WsSend JDeviceInfo _ => true
  | _ => false
  end.

Definition send_of (e : Effect) : list Effect :=
  match e with
  | WsSend _ _ | WsSendBinary _ _ _ => [e]
  | _ => []
  end.

(** The text and binary messages handed to the client, in order. *)
Definition sends : list Effect -> list Effect := flat_map send_of.

(** ** Start-up and diagnostic code

    [setup] of [main.cpp] and the functions of [test_connection.cpp] call
    into collaborators that [loop] never uses.  Their traces are lists of
    [SysEffect]: a call that [loop] also makes, wrapped in [Sketch], or one
    of the calls below. *)

Inductive SysEffect : Type :=
| Sketch (e : Effect)
| SerialBegin (baud : Z)
| SerialPrintf (format : string) (args : list Z)
| SerialPrintfRatio (format : string) (numerator denominator : Z)
| SerialPrintIP
| SerialPrintRSSI
| CameraInit (frame_size : string) (jpeg_quality fb_count : Z) (err : Z)
| SensorSet (setting : string) (value : Z)
| WifiBegin
| WsOnEvent
| WsSendTest (ok : bool)
| WsClose.

Definition ESP_OK : Z := 0.

(** [Serial.println] or [Serial.print] of a literal. *)
Definition say (s : string) : SysEffect := Sketch (SerialOut (Lit s)).

Definition sketch_of (e : SysEffect) : list Effect :=
  match e with Sketch x => [x] | _ => [] end.

(** The calls of a start-up trace that [loop] also knows. *)
Definition sketch_calls : list SysEffect -> list Effect := flat_map sketch_of.

Definition wifi_begin_of (e : SysEffect) : list SysEffect :=
  match e with WifiBegin => [e] | _ => [] end.
Definition on_event_of (e : SysEffect) : list SysEffect :=
  match e with WsOnEvent => [e] | _ => [] end.
Definition close_of (e : SysEffect) : list SysEffect :=
  match e with WsClose => [e] | _ => [] end.
Definition camera_init_of (e : SysEffect) : list SysEffect :=
  match e with CameraInit _ _ _ _ => [e] | _ => [] end.

Definition wifi_begins : list SysEffect -> list SysEffect := flat_map wifi_begin_of.
Definition registrations : list SysEffect -> list SysEffect := flat_map on_event_of.
Definition closes : list SysEffect -> list SysEffect := flat_map close_of.
Definition camera_inits : list SysEffect -> list SysEffect := flat_map camera_init_of.

(** *** [setup] of [main.cpp] *)

Module MainSetup.

(** What the collaborators hand back during [setup].  [wifi_status k] is
    the outcome of the test [WiFi.status() == WL_CONNECTED] the [k]-th time
    the waiting loop evaluates its guard, counted from zero. *)
Record SetupEnv : Type := mkSetupEnv {
  psram : bool;              (* psramFound() *)
  camera_err : Z;            (* result of esp_camera_init(&config) *)
  wifi_status : nat -> bool; (* WiFi.status() == WL_CONNECTED, per evaluation *)
  connect_ok : bool;         (* result of client.connect(...) *)
  hello_ok : bool;           (* result of sending the connection message *)
  log_ok : bool              (* result of the send made by sendLog *)
}.

(** How far a run of [setup] has come: it has returned, with the globals
    it leaves, or it is still in the loop that waits for WiFi.  Either way
    the calls made so far are known. *)
Inductive Run : Type :=
| Returned (s : Main.Globals) (calls : list SysEffect)
| Waiting (calls : list SysEffect).

(** The calls of [rounds] turns of the waiting loop. *)
Fixpoint waits (rounds : nat) : list SysEffect :=
  match rounds with
  | O => []
  | S n => Sketch (Delay 500) :: say "." :: waits n
  end.

(** [while (WiFi.status() != WL_CONNECTED) { delay(500); Serial.print("."); }]

    The loop has no limit of its own.  [wait_for_wifi status k budget]
    follows it from the [k]-th evaluation of its guard for at most [budget]
    evaluations, and tells whether the loop was left and how many turns it
    took. *)
Fixpoint wait_for_wifi (status : nat -> bool) (k budget : nat) : bool * nat :=
  match budget with
  | O => (false, O)
  | S rest =>
      if status k then (true, O)
      else let (left, rounds) := wait_for_wifi status (S k) rest in
           (left, S rounds)
  end.

(** [setup], followed until it returns or until the waiting loop has
    evaluated its guard [budget] times. *)
Definition setup (e : SetupEnv) (budget : nat) (s : Main.Globals) : Run :=
  let init :=
    if psram e
    then CameraInit "FRAMESIZE_SVGA" 15 2 (camera_err e)
    else CameraInit "FRAMESIZE_QVGA" 15 1 (camera_err e) in
  if negb (camera_err e =? ESP_OK) then
    Returned s
      [SerialBegin 9600; say EmptyString; init;
       SerialPrintf "Camera init failed with error 0x%x" [camera_err e]]
  else
    let before :=
      [SerialBegin 9600; say EmptyString; init;
       SensorSet "brightness" 0; SensorSet "contrast" 0; SensorSet "saturation" 0;
       SensorSet "vflip" 0; SensorSet "hmirror" 1;
       WifiBegin; say "Connecting to WiFi"] in
    match wait_for_wifi (wifi_status e) 0 budget with
    | (false, rounds) => Waiting (before ++ waits rounds)
    | (true, rounds) =>
        let r := (Main.connectWebSocket (connect_ok e) (hello_ok e) ;;
                  Main.sendLog (Lit "ESP32CAM initialized successfully") (log_ok e)) s in
        Returned (state_of r)
          (before ++ waits rounds ++
           [say EmptyString; say "WiFi connected"; say "ESP32-CAM IP: "; SerialPrintIP;
            WsOnEvent] ++
           map Sketch (trace_of r))
    end.

(** WiFi is found associated at the [n]-th evaluation of the guard and at
    none before it. *)
Definition associates_at (status : nat -> bool) (n : nat) : bool :=
  status n && forallb (fun k => negb (status k)) (seq 0 n).

End MainSetup.

(** *** [test_connection.cpp]

    The diagnostic sketch waits in two loops that end when the clock has
    advanced far enough.  The clock readings are inputs, one per evaluation
    of the loop test; a computation that needs a reading the input does not
    have yields [None]. *)

Module Diag.

(** The globals the sketch reads or writes ([test_start_time] and
    [test_attempts] are declared and never used). *)
Record Globals : Type := mkGlobals {
  test_connected : bool;
  test_authenticated : bool
}.

Definition initial : Globals :=
  {| test_connected := false; test_authenticated := false |}.

Definition set_connected (b : bool) (s : Globals) : Globals :=
  mkGlobals b (test_authenticated s).
Definition set_authenticated (b : bool) (s : Globals) : Globals :=
  mkGlobals (test_connected s) b.

Definition D (A : Type) : Type := Globals -> option (A * Globals * list SysEffect).

Definition dret {A : Type} (a : A) : D A := fun s => Some (a, s, []).

Definition dbind {A B : Type} (m : D A) (k : A -> D B) : D B :=
  fun s =>
    match m s with
    | None => None
    | Some (a, s1, t1) =>
        match k a s1 with
        | None => None
        | Some (b, s2, t2) => Some (b, s2, t1 ++ t2)
        end
    end.

Definition call (e : SysEffect) : D unit := fun s => Some (tt, s, [e]).
Definition read {A : Type} (field : Globals -> A) : D A := fun s => Some (field s, s, []).
Definition write (f : Globals -> Globals) : D unit := fun s => Some (tt, f s, []).
Definition out_of_readings {A : Type} : D A := fun _ => None.

Declare Scope diag_scope.
Notation "x <- m ;; k" := (dbind m (fun x => k))
  (at level 61, m at next level, right associativity) : diag_scope.
Notation "m ;; k" := (dbind m (fun _ => k))
  (at level 61, right associativity) : diag_scope.
Local Open Scope diag_scope.

Definition println (s : string) : D unit := call (say s).
Definition print (s : string) : D unit := call (say s).
Definition pause (ms : Z) : D unit := call (Sketch (Delay ms)).

(** What the collaborators hand back during [setup]. *)
Record Env : Type := mkEnv {
  wifi_start : Z;                       (* millis() before the wait for WiFi *)
  wifi_rounds : list (bool * Z);        (* per loop test: WiFi associated?, millis() *)
  wifi_final : bool;                    (* WiFi.status() == WL_CONNECTED after the wait *)
  ws_connect_ok : bool;                 (* result of test_client.connect(test_url) *)
  auth_send_ok : bool;                  (* result of sending the test message *)
  auth_start : Z;                       (* millis() before the wait for the reply *)
  auth_rounds : list (Z * list Inbound);(* per loop test: millis(), events of the poll *)
  camera_err : Z;                       (* result of esp_camera_init(&config) *)
  capture : option camera_fb_t;         (* esp_camera_fb_get() of testCamera *)
  free_heap : Z;                        (* ESP.getFreeHeap() *)
  free_internal : Z;                    (* heap_caps_get_free_size(...) *)
  largest_block : Z;                    (* heap_caps_get_largest_free_block(...) *)
  perf_start : Z;                       (* millis() before the ten captures *)
  perf_frames : nat -> option camera_fb_t;  (* esp_camera_fb_get() of capture i *)
  perf_end : Z                          (* millis() after the ten captures *)
}.

(** [while (WiFi.status() != WL_CONNECTED && (millis() - start_time) < 10000)
    { delay(500); Serial.print("."); }].  The clock is not read when WiFi is
    associated. *)
Fixpoint wifi_wait (start_time : Z) (rounds : list (bool * Z)) : D unit :=
  match rounds with
  | [] => out_of_readings
  | (associated, now) :: rest =>
      if negb associated && (ulong (ulong now - start_time) <? 10000) then
        pause 500 ;;
        print "." ;;
        wifi_wait start_time rest
      else dret tt
  end.

Definition testWiFiConnection (e : Env) : D bool :=
  println "=== Testing WiFi Connection ===" ;;
  call WifiBegin ;;
  let start_time := ulong (wifi_start e) in
  wifi_wait start_time (wifi_rounds e) ;;
  if wifi_final e then
    println "\nWiFi connected successfully!" ;;
    print "IP address: " ;;
    call SerialPrintIP ;;
    print "Signal strength: " ;;
    call SerialPrintRSSI ;;
    dret true
  else
    println "\nWiFi connection failed!" ;;
    dret false.

Definition testWebSocketConnection (e : Env) : D bool :=
  println "=== Testing WebSocket Connection ===" ;;
  call (Sketch (WsAddHeader "Authorization")) ;;
  call (Sketch (WsConnect (ws_connect_ok e))) ;;
  if ws_connect_ok e then
    println "WebSocket connected successfully!" ;;
    write (set_connected true) ;;
    dret true
  else
    println "WebSocket connection failed!" ;;
    dret false.

Definition onTestEventsCallback (ev : Inbound) : D unit :=
  let '(event, data, _) := ev in
  match event with
  | ConnectionOpened =>
      println "Test WebSocket connection opened"
  | ConnectionClosed =>
      println "Test WebSocket connection closed" ;;
      write (set_connected false) ;;
      write (set_authenticated false)
  | _ =>
      if (0 <? String.length data)%nat then
        println ("Received: " ++ data) ;;
        if negb (TestSimple.indexOf data "connection_ack" =? -1) then
          write (set_authenticated true)
        else dret tt
      else dret tt
  end.

Fixpoint deliver (events : list Inbound) : D unit :=
  match events with
  | [] => dret tt
  | ev :: rest => onTestEventsCallback ev ;; deliver rest
  end.

(** [test_client.poll()] *)
Definition poll (events : list Inbound) : D unit :=
  call (Sketch WsPoll) ;; deliver events.

(** [while ((millis() - start_time) < 5000) { test_client.poll(); delay(100); }] *)
Fixpoint auth_wait (start_time : Z) (rounds : list (Z * list Inbound)) : D unit :=
  match rounds with
  | [] => out_of_readings
  | (now, events) :: rest =>
      if ulong (ulong now - start_time) <? 5000 then
        poll events ;;
        pause 100 ;;
        auth_wait start_time rest
      else dret tt
  end.

Definition testAuthentication (e : Env) : D bool :=
  println "=== Testing Authentication ===" ;;
  connected <- read test_connected ;;
  if negb connected then
    println "WebSocket not connected!" ;;
    dret false
  else
    call (WsSendTest (auth_send_ok e)) ;;
    let start_time := ulong (auth_start e) in
    auth_wait start_time (auth_rounds e) ;;
    authenticated <- read test_authenticated ;;
    if authenticated then
      println "Authentication successful!" ;;
      dret true
    else
      println "Authentication failed!" ;;
      dret false.

Definition testCamera (e : Env) : D bool :=
  println "=== Testing Camera ===" ;;
  call (CameraInit "FRAMESIZE_VGA" 80 2 (camera_err e)) ;;
  if negb (camera_err e =? ESP_OK) then
    call (SerialPrintf "Camera init failed with error 0x%x\n" [camera_err e]) ;;
    dret false
  else
    println "Camera initialized successfully!" ;;
    call (Sketch (FbGet (capture e))) ;;
    match capture e with
    | None =>
        println "Failed to capture frame!" ;;
        dret false
    | Some fb =>
        call (SerialPrintf "Frame captured: %dx%d %db\n" [width fb; height fb; len fb]) ;;
        call (Sketch (FbReturn fb)) ;;
        dret true
    end.

Definition testMemory (e : Env) : D unit :=
  println "=== Testing Memory ===" ;;
  call (SerialPrintf "Free heap: %d bytes\n" [free_heap e]) ;;
  call (SerialPrintf "Free internal: %d bytes\n" [free_internal e]) ;;
  call (SerialPrintf "Largest free block: %d bytes\n" [largest_block e]) ;;
  (if free_heap e <? 50000 then println "WARNING: Low heap memory!" else dret tt) ;;
  (if largest_block e <? 10000 then println "WARNING: Memory fragmentation detected!"
   else dret tt).

(** [for (int i = 0; i < 10; i++) { ... }], from iteration [i] with
    [remaining] iterations to go. *)
Fixpoint capture_loop (frames : nat -> option camera_fb_t) (i remaining : nat)
    (frame_count : Z) : D Z :=
  match remaining with
  | O => dret frame_count
  | S k =>
      call (Sketch (FbGet (frames i))) ;;
      match frames i with
      | Some fb =>
          call (Sketch (FbReturn fb)) ;;
          pause 100 ;;
          capture_loop frames (S i) k (frame_count + 1)
      | None =>
          pause 100 ;;
          capture_loop frames (S i) k frame_count
      end
  end.

Definition testPerformance (e : Env) : D unit :=
  println "=== Testing Performance ===" ;;
  let start_time := ulong (perf_start e) in
  frame_count <- capture_loop (perf_frames e) 0 10 0 ;;
  let end_time := ulong (perf_end e) in
  call (SerialPrintf "Captured %d frames in %d ms\n"
          [frame_count; ulong (end_time - start_time)]) ;;
  call (SerialPrintfRatio "Average FPS: %.2f\n"
          (frame_count * 1000) (ulong (end_time - start_time))).

Definition setup (e : Env) : D unit :=
  call (SerialBegin 115200) ;;
  println "ESP32CAM Connection Test Starting..." ;;
  call WsOnEvent ;;
  let all_tests_passed := true in
  wifi <- testWiFiConnection e ;;
  let all_tests_passed := if negb wifi then false else all_tests_passed in
  websocket <- testWebSocketConnection e ;;
  let all_tests_passed := if negb websocket then false else all_tests_passed in
  authentication <- testAuthentication e ;;
  let all_tests_passed := if negb authentication then false else all_tests_passed in
  camera <- testCamera e ;;
  let all_tests_passed := if negb camera then false else all_tests_passed in
  testMemory e ;;
  testPerformance e ;;
  println "=== Test Results ===" ;;
  (if all_tests_passed
   then println "ALL TESTS PASSED! ESP32CAM is ready for production."
   else println "SOME TESTS FAILED! Please check the issues above.") ;;
  connected <- read test_connected ;;
  if connected then call WsClose else dret tt.

Definition loop : D unit := pause 1000.

End Diag.

(** Clock readings, one per evaluation of the test of a waiting loop whose
    body delays by [step]: each reading is at least [step] after the one
    before it, and all stay within the range of [unsigned long]. *)
Fixpoint spaced_from (step previous : Z) (readings : list Z) : Prop :=
  match readings with
  | [] => True
  | now :: rest =>
      previous + step <= now < ULONG_MODULUS /\ spaced_from step now rest
  end.

(** The first reading is not before the reading [start] taken ahead of the
    loop. *)
Definition advancing (step start : Z) (readings : list Z) : Prop :=
  match readings with
  | [] => True
  | first :: rest => start <= first < ULONG_MODULUS /\ spaced_from step first rest
  end.

(** The number of captures that deliver a frame, among [count] captures
    from capture [first] on. *)
Definition captured_among (frames : nat -> option camera_fb_t) (first count : nat) : Z :=
  Z.of_nat
    (List.length
       (filter (fun i => match frames i with Some _ => true | None => false end)
          (seq first count))).

Definition acquire_of (e : Effect) : list Effect :=
  match e with FbGet _ => [e] | _ => [] end.

(** The calls of [esp_camera_fb_get], in order. *)
Definition acquisitions : list Effect -> list Effect := flat_map acquire_of.

(** An event that the callback of the diagnostic sketch takes as the
    acknowledgment: any event other than opened and closed whose data is not
    empty and contains the token. *)
Definition carries_ack (ev : Inbound) : bool :=
  match ev with
  | (ConnectionOpened, _, _) | (ConnectionClosed, _, _) => false
  | (_, data, _) =>
      (0 <? String.length data)%nat &&
      negb (TestSimple.indexOf data "connection_ack" =? -1)
  end.

Definition is_close (ev : Inbound) : bool :=
  match ev with
  | (ConnectionClosed, _, _) => true
  | _ => false
  end.

Definition test_send_of (e : SysEffect) : list SysEffect :=
  match e with WsSendTest _ => [e] | _ => [] end.

(** The test messages sent by the authentication test, in order. *)
Definition test_sends : list SysEffect -> list SysEffect := flat_map test_send_of.

Definition poll_of (e : Effect) : list Effect :=
  match e with WsPoll => [e] | _ => [] end.

(** The polls of the client, in order. *)
Definition polls : list Effect -> list Effect := flat_map poll_of.

(** ** Sample inputs *)

Definition sample_fb : camera_fb_t :=
  {| buf := [255; 216; 255; 217]; len := 4; width := 320; height := 240 |}.

(** An iteration in which nothing arrives and [client.connect] fails. *)
Definition env_fail : Main.LoopEnv :=
  Main.mkEnv [] true false true 0 true None 0 true true 0.

(** An iteration in which nothing arrives and [client.connect] succeeds. *)
Definition env_up : Main.LoopEnv :=
  Main.mkEnv [] true true true 0 true None 0 true true 0.

(** An iteration whose poll reports that the session was closed, and in
  which [client.connect] succeeds. *)
Definition env_drop : Main.LoopEnv :=
  Main.mkEnv [(ConnectionClosed, EmptyString, true)] true true true 0 true None 0
    true true 0.

(** An iteration that starts at [start] ms, captures [sample_fb] and reaches
  the pacing code [took] ms later. *)
Definition env_frame (start took : Z) : Main.LoopEnv :=
  Main.mkEnv [] true true true start true (Some sample_fb) (start + 1) true true
    (start + took).

(** A session of the test sketch that is open and not yet acknowledged. *)
Definition awaiting_ack : TestSimple.Globals := TestSimple.mkGlobals true false.

(** The globals of a freshly connected device. *)
Definition connected_state : Main.Globals := Main.set_isConnected true Main.initial.

(** The test sketch before its first connect. *)
Definition ts_boot : TestSimpleSketch.State :=
  TestSimpleSketch.mkState (TestSimple.mkGlobals false false) 0.

(** The test sketch with an open session awaiting the acknowledgment. *)
Definition ts_open : TestSimpleSketch.State :=
  TestSimpleSketch.mkState awaiting_ack 0.

(** An iteration of the test sketch in which nothing arrives, at [t] ms. *)
Definition ts_idle (t : Z) : TestSimpleSketch.LoopEnv :=
  TestSimpleSketch.mkEnv [] true true t (t + 1) true (t + 2).

(** An iteration of the test sketch whose poll delivers the acknowledgment,
    at [t] ms. *)
Definition ts_ack (t : Z) : TestSimpleSketch.LoopEnv :=
  TestSimpleSketch.mkEnv [(TextMessage, "connection_ack"%string, true)] true true
    t (t + 1) true (t + 2).

(** A start-up in which the camera initialises, WiFi associates after three
    turns of the waiting loop and the connect fails. *)
Definition boot_offline : MainSetup.SetupEnv :=
  MainSetup.mkSetupEnv true 0 (fun k => (3 <=? k)%nat) false true true.

(** A start-up in which the camera fails to initialise. *)
Definition boot_no_camera : MainSetup.SetupEnv :=
  MainSetup.mkSetupEnv false 261 (fun k => (3 <=? k)%nat) true true true.

(** A start-up in which the camera initialises and WiFi never associates. *)
Definition boot_no_wifi : MainSetup.SetupEnv :=
  MainSetup.mkSetupEnv true 0 (fun _ => false) true true true.

(** A frame source that fails on every third capture. *)
Definition every_third_fails (i : nat) : option camera_fb_t :=
  if (i mod 3 =? 2)%nat then None else Some sample_fb.

(** A run of the diagnostic sketch: WiFi associates at the third poll, the
    connect succeeds, the acknowledgment arrives in the second poll, the
    clock then jumps past the limit, the camera works. *)
Definition diag_good : Diag.Env :=
  Diag.mkEnv 100 [(false, 100); (false, 600); (true, 1100)] true
    true
    true 2000 [(2000, []); (2100, [(TextMessage, "connection_ack"%string, true)]);
               (7200, [])]
    0 (Some sample_fb)
    120000 100000 60000
    8000 every_third_fails 9050.

(** The same run with a WebSocket connect that fails. *)
Definition diag_no_server : Diag.Env :=
  Diag.mkEnv 100 [(false, 100); (false, 600); (true, 1100)] true
    false
    true 2000 []
    0 (Some sample_fb)
    120000 100000 60000
    8000 every_third_fails 9050.


(** A run of the diagnostic sketch in which the server never answers: the
    clock, read every 100 ms, passes the limit at the fifty-first test. *)
Definition diag_silent_server : Diag.Env :=
  Diag.mkEnv 100 [(true, 100)] true
    true
    true 2000 (map (fun i => (2000 + 100 * Z.of_nat i, [])) (seq 0 51))
    0 (Some sample_fb)
    120000 100000 60000
    8000 every_third_fails 9050.

(** A run of the diagnostic sketch in which both waits run out of time. *)
Definition diag_patient : Diag.Env :=
  Diag.mkEnv 100 (map (fun i => (false, 100 + 500 * Z.of_nat i)) (seq 0 21)) true
    true
    true 12000 (map (fun i => (12000 + 100 * Z.of_nat i, [])) (seq 0 51))
    0 (Some sample_fb)
    120000 100000 60000
    18000 every_third_fails 19050.

(** * Properties *)

Import Main.

(** ** The monad and the observations *)

Lemma bind_state {G A B : Type} (m : M G A) (k : A -> M G B) (s : G) :
  state_of (bind m k s) = state_of (k (value_of (m s)) (state_of (m s))).
Proof.
  unfold bind, state_of, value_of.
  destruct (m s) as [[a s1] t1]; cbn.
  destruct (k a s1) as [[b s2] t2]; reflexivity.
Qed.

Lemma bind_trace {G A B : Type} (m : M G A) (k : A -> M G B) (s : G) :
  trace_of (bind m k s) =
  trace_of (m s) ++ trace_of (k (value_of (m s)) (state_of (m s))).
Proof.
  unfold bind, state_of, trace_of, value_of.
  destruct (m s) as [[a s1] t1]; cbn.
  destruct (k a s1) as [[b s2] t2]; reflexivity.
Qed.

Lemma quiet_flat_map {A : Type} (f : Effect -> list A) (t : list Effect) :
  (forall e, quiet e = true -> f e = []) ->
  Forall (fun e => quiet e = true) t -> flat_map f t = [].
Proof.
  intros Hf Ht; induction Ht as [|e t He _ IH]; cbn; [reflexivity|].
  now rewrite (Hf e He), IH.
Qed.

Ltac quiet_cases :=
  let e := fresh "e" in
  let m := fresh "m" in
  let t := fresh "t" in
  intros e; destruct e as [t| | | |m ?| | | | |];
  try destruct t; try destruct m as [t| | | |]; try destruct t; cbn;
  intros; congruence.

Lemma quiet_delays t : Forall (fun e => quiet e = true) t -> delays t = [].
Proof. apply quiet_flat_map; quiet_cases. Qed.

Lemma quiet_connects t : Forall (fun e => quiet e = true) t -> connects t = [].
Proof. apply quiet_flat_map; quiet_cases. Qed.

Lemma quiet_camera t : Forall (fun e => quiet e = true) t -> camera_events t = [].
Proof. apply quiet_flat_map; quiet_cases. Qed.

Lemma quiet_heartbeats t : Forall (fun e => quiet e = true) t -> heartbeats t = [].
Proof. apply quiet_flat_map; quiet_cases. Qed.

Lemma quiet_frames t : Forall (fun e => quiet e = true) t -> frame_sends t = [].
Proof. apply quiet_flat_map; quiet_cases. Qed.

Lemma quiet_fps_reports t : Forall (fun e => quiet e = true) t -> fps_reports t = [].
Proof. apply quiet_flat_map; quiet_cases. Qed.

Lemma delays_app t1 t2 : delays (t1 ++ t2) = delays t1 ++ delays t2.
Proof. apply flat_map_app. Qed.

Lemma connects_app t1 t2 : connects (t1 ++ t2) = connects t1 ++ connects t2.
Proof. apply flat_map_app. Qed.

Lemma camera_events_app t1 t2 :
  camera_events (t1 ++ t2) = camera_events t1 ++ camera_events t2.
Proof. apply flat_map_app. Qed.

Lemma heartbeats_app t1 t2 : heartbeats (t1 ++ t2) = heartbeats t1 ++ heartbeats t2.
Proof. apply flat_map_app. Qed.

Lemma frame_sends_app t1 t2 :
  frame_sends (t1 ++ t2) = frame_sends t1 ++ frame_sends t2.
Proof. apply flat_map_app. Qed.

Lemma fps_reports_app t1 t2 :
  fps_reports (t1 ++ t2) = fps_reports t1 ++ fps_reports t2.
Proof. apply flat_map_app. Qed.

(** ** [sendLog] and the callback *)

Lemma sendLog_run message ok s :
  sendLog message ok s =
  (tt, s, if isConnected s
          then [SerialOut message; WsSend (JLog message) ok]
          else [SerialOut message]).
Proof. unfold sendLog; cbn. destruct (isConnected s); reflexivity. Qed.

(** States that differ at most in the connected flag. *)
Lemma callback_run ev s :
  exists b, state_of (onEventsCallback ev s) = set_isConnected b s /\
            Forall (fun e => quiet e = true) (trace_of (onEventsCallback ev s)).
Proof.
  destruct ev as [[event data] ok]; destruct event; cbn;
    try (exists (isConnected s); destruct s; cbn; split; [reflexivity|constructor]).
  - exists true. rewrite bind_state, bind_trace, sendLog_run. cbn.
    split; [reflexivity|]. destruct (isConnected s); repeat constructor.
  - exists false. rewrite bind_state, bind_trace, sendLog_run. cbn.
    split; [reflexivity|]. destruct (isConnected s); repeat constructor.
Qed.

Lemma dispatch_run events : forall s,
  exists b, state_of (dispatch onEventsCallback events s) = set_isConnected b s /\
            Forall (fun e => quiet e = true)
                   (trace_of (dispatch onEventsCallback events s)).
Proof.
  induction events as [|ev rest IH]; intros s.
  - exists (isConnected s). destruct s; cbn. split; [reflexivity|constructor].
  - cbn [dispatch]. rewrite bind_state, bind_trace.
    destruct (callback_run ev s) as [b1 [Hs1 Ht1]].
    destruct (IH (state_of (onEventsCallback ev s))) as [b2 [Hs2 Ht2]].
    exists b2. split.
    + rewrite Hs2, Hs1. reflexivity.
    + apply Forall_app; split; assumption.
Qed.

Lemma poll_run e s :
  exists b, after_poll e s = set_isConnected b s /\
            Forall (fun x => quiet x = true)
                   (trace_of (client_poll onEventsCallback (polled e) s)).
Proof.
  unfold after_poll, client_poll. rewrite bind_state, bind_trace.
  destruct (dispatch_run (polled e) (state_of (emit (G:=Globals) WsPoll s)))
    as [b [Hs Ht]].
  exists b. split; [exact Hs|].
  apply Forall_app; split; [repeat constructor|exact Ht].
Qed.

(** The globals after a callback and after a batch of callbacks. *)
Lemma set_isConnected_twice b b' s :
  set_isConnected b (set_isConnected b' s) = set_isConnected b s.
Proof. reflexivity. Qed.

Lemma callback_state ev s :
  state_of (onEventsCallback ev s) =
  match link_of ev with
  | Some b => set_isConnected b s
  | None => s
  end.
Proof.
  destruct ev as [[event data] ok]; destruct event; cbn [onEventsCallback link_of];
    try reflexivity; rewrite bind_state, sendLog_run; reflexivity.
Qed.

Lemma dispatch_state events : forall s,
  state_of (dispatch onEventsCallback events s) =
  match last_link events with
  | Some b => set_isConnected b s
  | None => s
  end.
Proof.
  induction events as [|ev rest IH]; intros s.
  - reflexivity.
  - cbn [dispatch last_link]. rewrite bind_state, IH, callback_state.
    destruct (last_link rest) as [b|]; [|reflexivity].
    destruct (link_of ev); reflexivity.
Qed.

Lemma loop_state e s :
  state_of (loop e s) =
  state_of (if negb (isConnected (after_poll e s))
            then reconnect e (after_poll e s) else stream e (after_poll e s)).
Proof.
  unfold loop. rewrite bind_state. fold (after_poll e s).
  rewrite bind_state. cbn [get state_of value_of fst snd].
  destruct (isConnected (after_poll e s)); reflexivity.
Qed.

Lemma loop_trace e s :
  trace_of (loop e s) =
  trace_of (client_poll onEventsCallback (polled e) s) ++
  trace_of (if negb (isConnected (after_poll e s))
            then reconnect e (after_poll e s) else stream e (after_poll e s)).
Proof.
  unfold loop. rewrite bind_trace. fold (after_poll e s). f_equal.
  rewrite bind_trace. cbn [get state_of value_of trace_of fst snd app].
  destruct (isConnected (after_poll e s)); reflexivity.
Qed.

(** ** The reconnect branch *)

Lemma after_poll_attempts e s :
  connectionAttempts (after_poll e s) = connectionAttempts s.
Proof. destruct (poll_run e s) as [b [Hs _]]. rewrite Hs. reflexivity. Qed.

Lemma reconnect_short e s :
  isConnected s = false ->
  (connectionAttempts s <? MAX_CONNECTION_ATTEMPTS) = true ->
  state_of (reconnect e s) =
    set_connectionAttempts (ulong (connectionAttempts s + 1))
      (set_isConnected (connect_ok e) s) /\
  connects (trace_of (reconnect e s)) = [connect_ok e] /\
  delays (trace_of (reconnect e s)) = [5000] /\
  camera_events (trace_of (reconnect e s)) = [] /\
  heartbeats (trace_of (reconnect e s)) = [] /\
  frame_sends (trace_of (reconnect e s)) = [].
Proof.
  intros Hc Hn. unfold reconnect, bind at 1, get.
  cbn -[connectWebSocket sendLog]. rewrite Hn.
  unfold bind. rewrite sendLog_run, Hc.
  unfold connectWebSocket. cbn.
  destruct (connect_ok e); cbn; repeat split; reflexivity.
Qed.

Lemma reconnect_long e s :
  isConnected s = false ->
  (connectionAttempts s <? MAX_CONNECTION_ATTEMPTS) = false ->
  state_of (reconnect e s) = set_connectionAttempts 0 s /\
  connects (trace_of (reconnect e s)) = [] /\
  delays (trace_of (reconnect e s)) = [30000] /\
  camera_events (trace_of (reconnect e s)) = [] /\
  heartbeats (trace_of (reconnect e s)) = [] /\
  frame_sends (trace_of (reconnect e s)) = [].
Proof.
  intros Hc Hn. unfold reconnect, bind at 1, get.
  cbn -[sendLog]. rewrite Hn.
  unfold bind. rewrite sendLog_run, Hc. cbn.
  repeat split; reflexivity.
Qed.

(** A disconnected iteration below the limit: one connect attempt, counter
  plus one, short wait. *)
Lemma loop_short e s :
  isConnected (after_poll e s) = false ->
  0 <= connectionAttempts s < MAX_CONNECTION_ATTEMPTS ->
  connects (trace_of (loop e s)) = [connect_ok e] /\
  connectionAttempts (state_of (loop e s)) = connectionAttempts s + 1 /\
  isConnected (state_of (loop e s)) = connect_ok e /\
  delays (trace_of (loop e s)) = [5000].
Proof.
  intros Hc Hn. rewrite loop_state, loop_trace, Hc. cbn [negb].
  destruct (poll_run e s) as [b [_ Hq]].
  assert (Hlt : (connectionAttempts (after_poll e s) <? MAX_CONNECTION_ATTEMPTS) = true).
  { rewrite after_poll_attempts. apply Z.ltb_lt. lia. }
  destruct (reconnect_short e _ Hc Hlt) as (Hs & Hcon & Hd & _).
  rewrite connects_app, delays_app, Hcon, Hd, Hs.
  rewrite (quiet_connects _ Hq), (quiet_delays _ Hq). cbn.
  rewrite after_poll_attempts.
  repeat split; try reflexivity.
  unfold ulong, ULONG_MODULUS, MAX_CONNECTION_ATTEMPTS in *.
  apply Z.mod_small. lia.
Qed.

(** A disconnected iteration at the limit: no connect attempt, counter back
  to zero, long wait. *)
Lemma loop_long e s :
  isConnected (after_poll e s) = false ->
  MAX_CONNECTION_ATTEMPTS <= connectionAttempts s ->
  connects (trace_of (loop e s)) = [] /\
  connectionAttempts (state_of (loop e s)) = 0 /\
  isConnected (state_of (loop e s)) = false /\
  delays (trace_of (loop e s)) = [30000].
Proof.
  intros Hc Hn. rewrite loop_state, loop_trace, Hc. cbn [negb].
  destruct (poll_run e s) as [b [_ Hq]].
  assert (Hlt : (connectionAttempts (after_poll e s) <? MAX_CONNECTION_ATTEMPTS) = false).
  { rewrite after_poll_attempts. apply Z.ltb_ge. lia. }
  destruct (reconnect_long e _ Hc Hlt) as (Hs & Hcon & Hd & _).
  rewrite connects_app, delays_app, Hcon, Hd, Hs.
  rewrite (quiet_connects _ Hq), (quiet_delays _ Hq). cbn.
  repeat split; try reflexivity. exact Hc.
Qed.

Lemma dispatch_stays_down events : forall s,
  isConnected s = false ->
  forallb (fun ev : Inbound =>
             match ev with
             | (ConnectionOpened, _, _) => false
             | _ => true
             end) events = true ->
  isConnected (state_of (dispatch onEventsCallback events s)) = false.
Proof.
  induction events as [|[[event data] ok] rest IH]; intros s Hc Hall.
  - exact Hc.
  - cbn [forallb] in Hall. apply andb_true_iff in Hall as [Hev Hrest].
    cbn [dispatch]. rewrite bind_state. apply IH; [|exact Hrest].
    destruct event; try discriminate; try exact Hc.
    cbn [onEventsCallback]. rewrite bind_state. reflexivity.
Qed.

Lemma fails_stays_down e s :
  fails e = true -> isConnected s = false ->
  isConnected (after_poll e s) = false /\ connect_ok e = false.
Proof.
  unfold fails. intros Hf Hc. apply andb_true_iff in Hf as [Hk Hev].
  split; [|now destruct (connect_ok e)].
  unfold after_poll, client_poll. rewrite bind_state.
  apply dispatch_stays_down; assumption.
Qed.

Lemma run_cons_state e rest s :
  state_of (run (e :: rest) s) = state_of (run rest (state_of (loop e s))).
Proof. cbn [run]. rewrite bind_state. reflexivity. Qed.

Lemma run_cons_trace e rest s :
  trace_of (run (e :: rest) s) =
  trace_of (loop e s) ++ trace_of (run rest (state_of (loop e s))).
Proof. cbn [run]. rewrite bind_trace. reflexivity. Qed.

(** Consecutive failures count up while they stay within the limit. *)
Lemma failures_count_up envs : forall s,
  forallb fails envs = true ->
  isConnected s = false ->
  0 <= connectionAttempts s ->
  connectionAttempts s + Z.of_nat (List.length envs) <= MAX_CONNECTION_ATTEMPTS ->
  connects (trace_of (run envs s)) = repeat false (List.length envs) /\
  delays (trace_of (run envs s)) = repeat 5000 (List.length envs) /\
  connectionAttempts (state_of (run envs s)) =
    connectionAttempts s + Z.of_nat (List.length envs) /\
  isConnected (state_of (run envs s)) = false.
Proof.
  induction envs as [|e rest IH]; intros s Hall Hc H0 Hmax.
  - cbn. repeat split; [lia | exact Hc].
  - cbn [forallb] in Hall. apply andb_true_iff in Hall as [Hf Hrest].
    cbn [List.length] in *.
    destruct (fails_stays_down e s Hf Hc) as [Hdown Hko].
    destruct (loop_short e s Hdown ltac:(lia)) as (Hcon & Hn & Hc' & Hd).
    rewrite Hko in *.
    destruct (IH (state_of (loop e s)) Hrest Hc' ltac:(lia) ltac:(lia))
      as (IHcon & IHd & IHn & IHc).
    rewrite run_cons_state, run_cons_trace.
    rewrite connects_app, delays_app.
    rewrite Hcon, Hd, IHcon, IHd, IHn, IHc, Hn.
    repeat split; try reflexivity. lia.
Qed.

(** C1. Reconnect supervision with at most five attempts.  A disconnected
  iteration whose attempt counter is below five makes one connect attempt,
  adds one to the counter and waits 5000 ms.  A disconnected iteration whose
  counter has reached five makes no attempt, resets the counter to zero and
  waits 30000 ms, which is longer than 5000 ms.  Hence after five consecutive
  failures, counted from zero, the counter is five and the next disconnected
  iteration performs the long wait and the reset. *)
Theorem reconnect_backoff :
  (forall e s,
      isConnected (after_poll e s) = false ->
      0 <= connectionAttempts s < MAX_CONNECTION_ATTEMPTS ->
      connects (trace_of (loop e s)) = [connect_ok e] /\
      connectionAttempts (state_of (loop e s)) = connectionAttempts s + 1 /\
      delays (trace_of (loop e s)) = [5000]) /\
  (forall e s,
      isConnected (after_poll e s) = false ->
      MAX_CONNECTION_ATTEMPTS <= connectionAttempts s ->
      connects (trace_of (loop e s)) = [] /\
      connectionAttempts (state_of (loop e s)) = 0 /\
      delays (trace_of (loop e s)) = [30000]) /\
  5000 < 30000 /\
  (forall envs e s,
      isConnected s = false ->
      connectionAttempts s = 0 ->
      List.length envs = 5%nat ->
      forallb fails (envs ++ [e]) = true ->
      let s5 := state_of (run envs s) in
      connects (trace_of (run envs s)) = [false; false; false; false; false] /\
      delays (trace_of (run envs s)) = [5000; 5000; 5000; 5000; 5000] /\
      connectionAttempts s5 = MAX_CONNECTION_ATTEMPTS /\
      connects (trace_of (loop e s5)) = [] /\
      delays (trace_of (loop e s5)) = [30000] /\
      connectionAttempts (state_of (loop e s5)) = 0).
Proof.
  split; [|split; [|split]].
  - intros e s Hc Hn. destruct (loop_short e s Hc Hn) as (? & ? & _ & ?). auto.
  - intros e s Hc Hn. destruct (loop_long e s Hc Hn) as (? & ? & _ & ?). auto.
  - lia.
  - intros envs e s Hc Hn Hlen Hall s5.
    rewrite forallb_app in Hall. apply andb_true_iff in Hall as [Henvs He].
    cbn [forallb] in He. rewrite andb_true_r in He.
    destruct (failures_count_up envs s Henvs Hc) as (Hcon & Hd & Hn5 & Hc5).
    { lia. }
    { rewrite Hn, Hlen. unfold MAX_CONNECTION_ATTEMPTS. lia. }
    rewrite Hlen in *. cbn [repeat] in *. fold s5 in Hn5, Hc5.
    assert (H5 : connectionAttempts s5 = MAX_CONNECTION_ATTEMPTS).
    { rewrite Hn5, Hn. reflexivity. }
    destruct (fails_stays_down e s5 He Hc5) as [Hdown _].
    destruct (loop_long e s5 Hdown ltac:(lia)) as (? & ? & _ & ?).
    repeat split; assumption.
Qed.

Lemma reconnect_backoff_witness :
  connects (trace_of (loop env_fail initial)) = [false] /\
  delays (trace_of (loop env_fail (set_connectionAttempts 5 initial))) = [30000] /\
  connectionAttempts
    (state_of (loop env_fail (state_of (run (repeat env_fail 5) initial)))) = 0.
Proof.
  destruct reconnect_backoff as (Hshort & Hlong & _ & Hfive).
  split; [|split].
  - apply (Hshort env_fail initial);
      [reflexivity | unfold MAX_CONNECTION_ATTEMPTS; cbn; lia].
  - apply (Hlong env_fail (set_connectionAttempts 5 initial));
      [reflexivity | unfold MAX_CONNECTION_ATTEMPTS; cbn; lia].
  - apply (Hfive (repeat env_fail 5) env_fail initial); reflexivity.
Defined.

(** ** A connect that succeeds and a session that drops *)

(** C2. A connect that succeeds leaves the attempt counter one higher, and
  the counter is cleared only by a later iteration that still finds the
  session connected.  From the initial globals, a first iteration connects
  successfully (the flag is set, the counter is 1); the poll of the second
  iteration reports the session closed, and the connect attempt that
  follows is made with the counter at 1 and announced as attempt 2/5.  Five
  successful connects, each dropped before the next iteration, bring the
  counter to 5 and the sixth disconnected iteration into the 30000 ms wait
  without any connect attempt, although no connect ever failed. *)
Theorem successful_connect_keeps_counter :
  let s1 := state_of (loop env_up initial) in
  let r2 := loop env_drop s1 in
  let s5 := state_of (run (env_up :: repeat env_drop 4) initial) in
  connects (trace_of (loop env_up initial)) = [true] /\
  isConnected s1 = true /\
  connectionAttempts s1 = 1 /\
  connectionAttempts (after_poll env_drop s1) = 1 /\
  In (SerialOut (AttemptText 2 5)) (trace_of r2) /\
  connects (trace_of r2) = [true] /\
  connectionAttempts (state_of r2) = 2 /\
  connects (trace_of (run (env_up :: repeat env_drop 4) initial)) =
    [true; true; true; true; true] /\
  connectionAttempts s5 = 5 /\
  connects (trace_of (loop env_drop s5)) = [] /\
  delays (trace_of (loop env_drop s5)) = [30000].
Proof.
  cbv zeta. repeat split; try reflexivity.
  vm_compute. tauto.
Qed.

(** ** The blocks of the streaming branch *)

Lemma heartbeat_run e currentTime s :
  heartbeat e currentTime s =
  if HEARTBEAT_INTERVAL <=? ulong (currentTime - lastHeartbeat s)
  then (tt, set_lastHeartbeat currentTime s,
        [WsSend (JHeartbeat currentTime) (heartbeat_ok e)])
  else (tt, s, []).
Proof.
  unfold heartbeat, bind, get. cbn.
  destruct (HEARTBEAT_INTERVAL <=? ulong (currentTime - lastHeartbeat s));
    reflexivity.
Qed.

Lemma send_frame_run e fb s :
  send_frame e fb s =
  (tt, s,
   if isConnected s
   then [WsSend (JFrame (len fb) (width fb) (height fb) (ulong (clock_meta e)) (fps s))
           (meta_ok e);
         WsSendBinary (buf fb) (len fb) (binary_ok e)]
   else []).
Proof.
  unfold send_frame, bind, get. cbn. destruct (isConnected s); reflexivity.
Qed.

Lemma update_fps_run e currentTime s :
  update_fps e currentTime s =
  let frames := ulong (frameCount s + 1) in
  let elapsed := ulong (currentTime - lastFrameTime s) in
  let value := measured_fps frames elapsed in
  if 1000 <=? elapsed
  then (tt,
        set_lastFrameTime currentTime
          (set_frameCount 0 (set_fps value (set_frameCount frames s))),
        SerialOut (FpsText value) ::
        (if isConnected s then [WsSend (JLog (FpsText value)) (log_ok e)] else []))
  else (tt, set_frameCount frames s, []).
Proof.
  unfold update_fps, bind at 1, modify at 1, get at 1. cbn -[sendLog bind].
  unfold bind at 1, get at 1. cbn -[sendLog bind].
  destruct (1000 <=? ulong (currentTime - lastFrameTime s)); [|reflexivity].
  unfold bind, get. cbn -[sendLog]. rewrite sendLog_run. cbn.
  destruct (isConnected s); reflexivity.
Qed.

Lemma pace_run e currentTime s :
  pace e currentTime s =
  let elapsed := ulong (ulong (clock_end e) - ulong (currentTime - 33)) in
  (tt, s, if elapsed <? 33 then [Delay (ulong (33 - elapsed))] else []).
Proof.
  unfold pace, bind, millis, ret. cbn.
  destruct (ulong (ulong (clock_end e) - ulong (currentTime - 33)) <? 33);
    reflexivity.
Qed.

(** The state in which the frame is captured: counter cleared, heartbeat
  block done. *)
Lemma stream_trace e s :
  let currentTime := ulong (clock_start e) in
  let s1 := state_of (heartbeat e currentTime (set_connectionAttempts 0 s)) in
  trace_of (stream e s) =
  trace_of (heartbeat e currentTime (set_connectionAttempts 0 s)) ++
  FbGet (captured e) ::
  match captured e with
  | None => [SerialOut (Lit "Camera capture failed")]
  | Some fb =>
      trace_of (send_frame e fb s1) ++
      FbReturn fb ::
      trace_of (update_fps e currentTime s1) ++
      trace_of (pace e currentTime (state_of (update_fps e currentTime s1)))
  end.
Proof.
  cbv zeta. unfold stream.
  rewrite bind_trace; cbv beta. cbn [modify trace_of state_of value_of fst snd app].
  rewrite bind_trace; cbv beta. cbn [millis ret trace_of state_of value_of fst snd app].
  rewrite bind_trace; cbv beta. f_equal.
  rewrite (bind_trace (esp_camera_fb_get (captured e))); cbv beta.
  unfold esp_camera_fb_get at 1 2 3.
  cbn [bind emit ret trace_of state_of value_of fst snd app].
  f_equal.
  destruct (captured e) as [fb|]; [|reflexivity].
  cbn [bind emit ret trace_of state_of value_of fst snd app].
  rewrite bind_trace; cbv beta. f_equal.
  rewrite send_frame_run. cbn [trace_of state_of value_of fst snd].
  rewrite bind_trace; cbv beta. cbn [esp_camera_fb_return emit trace_of state_of value_of fst snd app].
  f_equal. rewrite bind_trace; cbv beta. reflexivity.
Qed.

Lemma stream_state e s :
  let currentTime := ulong (clock_start e) in
  let s1 := state_of (heartbeat e currentTime (set_connectionAttempts 0 s)) in
  state_of (stream e s) =
  match captured e with
  | None => s1
  | Some fb => state_of (update_fps e currentTime s1)
  end.
Proof.
  cbv zeta. unfold stream.
  rewrite bind_state; cbv beta. cbn [modify trace_of state_of value_of fst snd app].
  rewrite bind_state; cbv beta. cbn [millis ret trace_of state_of value_of fst snd app].
  rewrite bind_state; cbv beta.
  rewrite (bind_state (esp_camera_fb_get (captured e))); cbv beta.
  unfold esp_camera_fb_get at 1 2.
  cbn [bind emit ret trace_of state_of value_of fst snd app].
  destruct (captured e) as [fb|]; [|reflexivity].
  cbn [bind emit ret trace_of state_of value_of fst snd app].
  rewrite bind_state; cbv beta.
  rewrite send_frame_run. cbn [trace_of state_of value_of fst snd].
  rewrite bind_state; cbv beta. cbn [esp_camera_fb_return emit trace_of state_of value_of fst snd app].
  rewrite bind_state; cbv beta. rewrite pace_run. reflexivity.
Qed.

Lemma after_poll_connected e s :
  isConnected (after_poll e s) = true -> after_poll e s = set_isConnected true s.
Proof.
  intros Hc. destruct (poll_run e s) as [b [Hs _]]. rewrite Hs in *.
  cbn in Hc. now rewrite Hc.
Qed.

(** Case analysis on every test a goal still branches on. *)
Ltac branch :=
  repeat match goal with
         | |- context [if ?c then _ else _] => destruct c eqn:?
         | |- context [match captured ?e with _ => _ end] => destruct (captured e) eqn:?
         end.

Ltac run_blocks :=
  rewrite ?stream_trace, ?stream_state; cbv zeta;
  rewrite ?heartbeat_run; branch; cbn [trace_of state_of value_of fst snd];
  rewrite ?send_frame_run, ?update_fps_run; cbv zeta; branch;
  cbn [trace_of state_of value_of fst snd];
  rewrite ?pace_run; cbv zeta; branch; cbn [trace_of state_of value_of fst snd].

(** An iteration that finds the session connected clears the attempt
    counter. *)
Lemma connected_iteration_clears_counter e s :
  isConnected (after_poll e s) = true ->
  connectionAttempts (state_of (loop e s)) = 0.
Proof.
  intros Hc. rewrite loop_state, Hc. cbn [negb].
  run_blocks; reflexivity.
Qed.

(** ** Logging *)

Lemma log_sends_app t1 t2 : log_sends (t1 ++ t2) = log_sends t1 ++ log_sends t2.
Proof. apply flat_map_app. Qed.

Lemma reconnect_log_sends e s :
  isConnected s = false -> log_sends (trace_of (reconnect e s)) = [].
Proof.
  intros Hc. unfold reconnect, bind at 1, get.
  cbn -[connectWebSocket sendLog].
  destruct (connectionAttempts s <? MAX_CONNECTION_ATTEMPTS);
    unfold bind; rewrite sendLog_run, Hc; unfold connectWebSocket; cbn;
    [destruct (connect_ok e)|]; reflexivity.
Qed.

(** While the callback handles an event on a closed session, the only log
  message it can hand to the client is the one of its ConnectionClosed
  branch. *)
Lemma callback_logs open ev s :
  Forall is_close_log
         (if session_on open ev then []
          else log_sends (trace_of (onEventsCallback ev s))).
Proof.
  destruct ev as [[event data] ok]. unfold session_on.
  destruct event; cbn [link_of onEventsCallback];
    try (destruct open; constructor); try constructor.
  rewrite bind_trace, sendLog_run. cbn.
  destruct (isConnected s); cbn; repeat constructor. exists ok. reflexivity.
Qed.

Lemma logs_while_closed_close events : forall open s,
  Forall is_close_log (logs_while_closed open events s).
Proof.
  induction events as [|ev rest IH]; intros open s; cbn [logs_while_closed].
  - constructor.
  - apply Forall_app. split; [apply callback_logs | apply IH].
Qed.

Lemma after_poll_flag e s :
  isConnected (after_poll e s) = session_after_poll (isConnected s) (polled e).
Proof.
  unfold after_poll, client_poll, session_after_poll.
  rewrite bind_state, dispatch_state.
  destruct (last_link (polled e)); reflexivity.
Qed.

Lemma connected_iteration_stays_up e s :
  isConnected (after_poll e s) = true ->
  connects (trace_of (loop e s)) = [] /\
  isConnected (state_of (loop e s)) = true.
Proof.
  intros Hc. rewrite loop_trace, loop_state, connects_app, Hc. cbn [negb].
  destruct (poll_run e s) as [b [_ Hq]]. rewrite (quiet_connects _ Hq). cbn [app].
  rewrite (after_poll_connected e s Hc).
  run_blocks; repeat split; reflexivity.
Qed.

(** C10, as amended.  [sendLog] always prints the message on the serial
  port and never changes the globals; it hands the message to the WebSocket
  client exactly when the connected flag is set, and with the flag clear no
  call reaches the transport.  The flag is not the session: it lags behind
  while the callback handles a link event.  In an iteration of [loop] that
  starts with the flag telling whether the session is open, every log
  message handed to the client on a closed session is the
  [Connection closed] message of the callback, which logs before it clears
  the flag; the rest of the iteration never logs to a closed session, and
  at the end of the iteration the flag again tells whether the session is
  open. *)
Theorem only_the_close_log_reaches_a_closed_session :
  forall message ok e s open,
    isConnected s = open ->
    (state_of (sendLog message ok s) = s /\
     trace_of (sendLog message ok s) =
       SerialOut message :: (if open then [WsSend (JLog message) ok] else []) /\
     (open = false -> transport_calls (trace_of (sendLog message ok s)) = [])) /\
    Forall is_close_log (closed_session_logs open e s) /\
    isConnected (state_of (loop e s)) = session_after open e s.
Proof.
  intros message ok e s open Hopen. split; [|split].
  - rewrite sendLog_run, Hopen. cbn [state_of trace_of fst snd].
    split; [reflexivity|]. split; [destruct open; reflexivity|].
    intros ->. reflexivity.
  - unfold closed_session_logs. apply Forall_app. split.
    + apply logs_while_closed_close.
    + rewrite <- Hopen, <- after_poll_flag.
      destruct (isConnected (after_poll e s)) eqn:Hc; [constructor|].
      cbn [negb]. rewrite (reconnect_log_sends e _ Hc). constructor.
  - unfold session_after. rewrite <- Hopen, <- after_poll_flag.
    destruct (isConnected (after_poll e s)) eqn:Hc.
    + destruct (connected_iteration_stays_up e s Hc) as [-> ->]. reflexivity.
    + rewrite loop_state, loop_trace, connects_app, Hc. cbn [negb].
      destruct (poll_run e s) as [b [_ Hq]]. rewrite (quiet_connects _ Hq). cbn [app].
      destruct (connectionAttempts (after_poll e s) <? MAX_CONNECTION_ATTEMPTS) eqn:Hn.
      * destruct (reconnect_short e _ Hc Hn) as (-> & -> & _). reflexivity.
      * destruct (reconnect_long e _ Hc Hn) as (-> & -> & _). cbn. exact Hc.
Qed.

Lemma only_the_close_log_reaches_a_closed_session_witness :
  closed_session_logs true env_drop connected_state =
    [WsSend (JLog (Lit "Connection closed")) true] /\
  Forall is_close_log (closed_session_logs true env_drop connected_state) /\
  isConnected (state_of (loop env_drop connected_state)) = true.
Proof.
  split; [reflexivity|].
  destruct (only_the_close_log_reaches_a_closed_session
              (Lit "Connection closed") true env_drop connected_state true)
    as (_ & Hlogs & Hflag).
  - reflexivity.
  - split; [exact Hlogs | exact Hflag].
Defined.

(** C10, the claim as stated fails.  The device is connected and the poll
  delivers ConnectionClosed: the callback runs [sendLog] with the flag still
  set, so the [Connection closed] message is handed to the client on the
  session that has just been closed, before the flag is cleared. *)
Lemma close_log_reaches_closed_session :
  ~ no_log_on_closed_session true env_drop connected_state.
Proof.
  unfold no_log_on_closed_session. vm_compute. discriminate.
Qed.

(** ** Disconnected iterations *)

(** C8. An iteration that finds the session disconnected after the poll
  runs the reconnect branch and nothing else: its trace is the poll followed
  by the reconnect code, it ends in one of the two backoff waits, and it
  acquires no frame and sends no frame metadata, no frame payload and no
  heartbeat. *)
Theorem disconnected_iteration_is_reconnect_only :
  forall e s,
    isConnected (after_poll e s) = false ->
    trace_of (loop e s) =
      trace_of (client_poll onEventsCallback (polled e) s) ++
      trace_of (reconnect e (after_poll e s)) /\
    state_of (loop e s) = state_of (reconnect e (after_poll e s)) /\
    (delays (trace_of (loop e s)) = [5000] \/
     delays (trace_of (loop e s)) = [30000]) /\
    camera_events (trace_of (loop e s)) = [] /\
    frame_sends (trace_of (loop e s)) = [] /\
    heartbeats (trace_of (loop e s)) = [].
Proof.
  intros e s Hc. rewrite loop_trace, loop_state, Hc. cbn [negb].
  destruct (poll_run e s) as [b [_ Hq]].
  rewrite delays_app, camera_events_app, frame_sends_app, heartbeats_app.
  rewrite (quiet_delays _ Hq), (quiet_camera _ Hq), (quiet_frames _ Hq),
    (quiet_heartbeats _ Hq). cbn [app].
  split; [reflexivity|]. split; [reflexivity|].
  destruct (connectionAttempts (after_poll e s) <? MAX_CONNECTION_ATTEMPTS) eqn:Hn.
  - destruct (reconnect_short e _ Hc Hn) as (_ & _ & -> & -> & -> & ->). auto.
  - destruct (reconnect_long e _ Hc Hn) as (_ & _ & -> & -> & -> & ->). auto.
Qed.

Lemma disconnected_iteration_is_reconnect_only_witness :
  camera_events (trace_of (loop env_drop connected_state)) = [] /\
  frame_sends (trace_of (loop env_drop connected_state)) = [] /\
  heartbeats (trace_of (loop env_drop connected_state)) = [].
Proof.
  apply (disconnected_iteration_is_reconnect_only env_drop connected_state).
  reflexivity.
Defined.

(** ** Frame acquisition, send and release *)

(** C4. The camera calls of one iteration are exactly these: none when the
  session is disconnected; one failed acquisition when the capture fails;
  otherwise one acquisition followed by one release of that same buffer.
  The results of the metadata and payload sends do not matter. *)
Theorem frame_released_once :
  forall e s,
    camera_events (trace_of (loop e s)) =
    if isConnected (after_poll e s)
    then match captured e with
         | Some fb => [FbGet (Some fb); FbReturn fb]
         | None => [FbGet None]
         end
    else [].
Proof.
  intros e s. rewrite loop_trace, camera_events_app.
  destruct (poll_run e s) as [b [_ Hq]]. rewrite (quiet_camera _ Hq). cbn [app].
  destruct (isConnected (after_poll e s)) eqn:Hc; cbn [negb].
  - run_blocks; reflexivity.
  - destruct (connectionAttempts (after_poll e s) <? MAX_CONNECTION_ATTEMPTS) eqn:Hn.
    + now destruct (reconnect_short e _ Hc Hn) as (_ & _ & _ & -> & _).
    + now destruct (reconnect_long e _ Hc Hn) as (_ & _ & _ & -> & _).
Qed.

Lemma after_poll_fps e s : fps (after_poll e s) = fps s.
Proof. destruct (poll_run e s) as [b [Hs _]]. rewrite Hs. reflexivity. Qed.

(** C5. In a connected iteration that captures a frame, the metadata
  message carries the size, width and height of that frame and is
  immediately followed, on the same client, by the binary send of the
  frame's buffer with the same size; these two are the only frame sends of
  the iteration.  Iterations that are disconnected or capture nothing send
  neither. *)
Theorem metadata_precedes_binary :
  (forall e s,
      frame_sends (trace_of (loop e s)) =
      if isConnected (after_poll e s)
      then match captured e with
           | Some fb =>
               [WsSend (JFrame (len fb) (width fb) (height fb)
                          (ulong (clock_meta e)) (fps s)) (meta_ok e);
                WsSendBinary (buf fb) (len fb) (binary_ok e)]
           | None => []
           end
      else []) /\
  (forall e s fb,
      isConnected (after_poll e s) = true ->
      captured e = Some fb ->
      exists pre post,
        trace_of (loop e s) =
          pre ++
          [WsSend (JFrame (len fb) (width fb) (height fb)
                     (ulong (clock_meta e)) (fps s)) (meta_ok e);
           WsSendBinary (buf fb) (len fb) (binary_ok e)] ++
          post /\
        frame_sends pre = [] /\ frame_sends post = []).
Proof.
  split.
  - intros e s. rewrite loop_trace, frame_sends_app.
    destruct (poll_run e s) as [b [_ Hq]]. rewrite (quiet_frames _ Hq). cbn [app].
    destruct (isConnected (after_poll e s)) eqn:Hc; cbn [negb].
    + rewrite (after_poll_connected e s Hc).
      run_blocks; try reflexivity; cbn in *; congruence.
    + destruct (connectionAttempts (after_poll e s) <? MAX_CONNECTION_ATTEMPTS) eqn:Hn.
      * now destruct (reconnect_short e _ Hc Hn) as (_ & _ & _ & _ & _ & ->).
      * now destruct (reconnect_long e _ Hc Hn) as (_ & _ & _ & _ & _ & ->).
  - intros e s fb Hc Hfb. rewrite loop_trace, Hc. cbn [negb].
    destruct (poll_run e s) as [b [_ Hq]].
    rewrite stream_trace. cbv zeta. rewrite Hfb, send_frame_run.
    rewrite (after_poll_connected e s Hc).
    set (s0 := set_connectionAttempts 0 (set_isConnected true s)).
    set (currentTime := ulong (clock_start e)).
    assert (Hs1 : isConnected (state_of (heartbeat e currentTime s0)) = true /\
                  fps (state_of (heartbeat e currentTime s0)) = fps s).
    { rewrite heartbeat_run.
      destruct (HEARTBEAT_INTERVAL <=? ulong (currentTime - lastHeartbeat s0));
        split; reflexivity. }
    destruct Hs1 as [Hc1 Hf1]. cbn [trace_of snd]. rewrite Hc1, Hf1.
    exists (trace_of (client_poll onEventsCallback (polled e) s) ++
            trace_of (heartbeat e currentTime s0) ++ [FbGet (Some fb)]).
    exists (FbReturn fb ::
            trace_of (update_fps e currentTime (state_of (heartbeat e currentTime s0))) ++
            trace_of (pace e currentTime
                        (state_of (update_fps e currentTime
                                     (state_of (heartbeat e currentTime s0)))))).
    split; [|split].
    + rewrite <- !app_assoc. reflexivity.
    + rewrite !frame_sends_app, (quiet_frames _ Hq). rewrite heartbeat_run.
      destruct (HEARTBEAT_INTERVAL <=? ulong (currentTime - lastHeartbeat s0));
        reflexivity.
    + change (FbReturn fb :: ?l) with ([FbReturn fb] ++ l).
      rewrite !frame_sends_app. rewrite update_fps_run, pace_run. cbv zeta.
      branch; reflexivity.
Qed.

Lemma metadata_precedes_binary_witness :
  exists pre post,
    trace_of (loop (env_frame 1000 10) connected_state) =
      pre ++
      [WsSend (JFrame 4 320 240 1001 (S754_zero false)) true;
       WsSendBinary [255; 216; 255; 217] 4 true] ++
      post /\
    frame_sends pre = [] /\ frame_sends post = [].
Proof.
  apply (proj2 metadata_precedes_binary (env_frame 1000 10) connected_state sample_fb);
    reflexivity.
Defined.

(** ** Frame pacing *)

Lemma ulong_range z : 0 <= ulong z < ULONG_MODULUS.
Proof. unfold ulong, ULONG_MODULUS. apply Z.mod_pos_bound. lia. Qed.

Lemma ulong_small z : 0 <= z < ULONG_MODULUS -> ulong z = z.
Proof. unfold ulong. apply Z.mod_small. Qed.

Lemma pace_elapsed now currentTime :
  ulong (now - ulong (currentTime - 33)) = ulong (ulong (now - currentTime) + 33).
Proof.
  unfold ulong. rewrite Zminus_mod_idemp_r, Zplus_mod_idemp_l.
  f_equal. lia.
Qed.

(** The value the pacing code compares with the frame duration is the time
  since the start of the iteration plus 33, so the test [elapsed <
  frameDuration] fails and no delay is performed, unless the iteration took
  within 33 ms of the whole range of [unsigned long]. *)
Lemma pace_never_sleeps e currentTime s :
  ulong (ulong (clock_end e) - currentTime) < ULONG_MODULUS - 33 ->
  trace_of (pace e currentTime s) = [].
Proof.
  intros Hsmall. rewrite pace_run. cbv zeta. cbn [trace_of snd].
  rewrite pace_elapsed.
  pose proof (ulong_range (ulong (clock_end e) - currentTime)) as Hr.
  rewrite (ulong_small (_ + 33)) by lia.
  destruct (ulong (ulong (clock_end e) - currentTime) + 33 <? 33) eqn:Hlt;
    [apply Z.ltb_lt in Hlt; lia | reflexivity].
Qed.

(** C3. A connected iteration that starts at 1000 ms, captures a frame and
  reaches the pacing code at 1010 ms has used 10 ms of its 33 ms frame
  interval; the remainder is 23 ms, and the iteration performs no delay at
  all. *)
Theorem pacing_skips_the_remainder :
  let r := loop (env_frame 1000 10) connected_state in
  camera_events (trace_of r) = [FbGet (Some sample_fb); FbReturn sample_fb] /\
  ulong (clock_end (env_frame 1000 10)) - ulong (clock_start (env_frame 1000 10)) = 10 /\
  remaining_sleep 10 = 23 /\
  delays (trace_of r) = [] /\
  slept (trace_of r) = 0.
Proof. cbv zeta. repeat split; reflexivity. Qed.

(** No connected iteration sleeps, whatever it captured. *)
Lemma loop_never_paces e s :
  isConnected (after_poll e s) = true ->
  ulong (ulong (clock_end e) - ulong (clock_start e)) < ULONG_MODULUS - 33 ->
  delays (trace_of (loop e s)) = [].
Proof.
  intros Hc Hsmall. rewrite loop_trace, delays_app, Hc. cbn [negb].
  destruct (poll_run e s) as [b [_ Hq]]. rewrite (quiet_delays _ Hq). cbn [app].
  rewrite stream_trace. cbv zeta.
  rewrite delays_app.
  change (FbGet (captured e) :: ?l) with ([FbGet (captured e)] ++ l).
  rewrite delays_app.
  destruct (captured e) as [fb|].
  - change (FbReturn fb :: ?l) with ([FbReturn fb] ++ l).
    rewrite !delays_app, (pace_never_sleeps _ _ _ Hsmall).
    rewrite heartbeat_run, send_frame_run. branch;
      cbn [trace_of state_of value_of fst snd];
      rewrite update_fps_run; cbv zeta; branch; reflexivity.
  - rewrite heartbeat_run. branch; reflexivity.
Qed.

(** ** Heartbeat *)

Lemma loop_heartbeat e s :
  let due := isConnected (after_poll e s) &&
             (HEARTBEAT_INTERVAL <=? ulong (ulong (clock_start e) - lastHeartbeat s)) in
  heartbeats (trace_of (loop e s)) = (if due then [ulong (clock_start e)] else []) /\
  lastHeartbeat (state_of (loop e s)) =
    (if due then ulong (clock_start e) else lastHeartbeat s).
Proof.
  cbv zeta. rewrite loop_trace, loop_state, heartbeats_app.
  destruct (poll_run e s) as [b [Hs Hq]]. rewrite (quiet_heartbeats _ Hq). cbn [app].
  destruct (isConnected (after_poll e s)) eqn:Hc; cbn [negb andb].
  - rewrite (after_poll_connected e s Hc).
    rewrite stream_trace, stream_state. cbv zeta. rewrite heartbeat_run.
    cbn [lastHeartbeat set_connectionAttempts set_isConnected].
    destruct (HEARTBEAT_INTERVAL <=? ulong (ulong (clock_start e) - lastHeartbeat s));
      cbn [trace_of state_of value_of fst snd];
      rewrite ?send_frame_run, ?update_fps_run; cbv zeta; branch;
      cbn [trace_of state_of value_of fst snd];
      rewrite ?pace_run; cbv zeta; branch; split; reflexivity.
  - rewrite Hs in *.
    destruct (connectionAttempts (set_isConnected b s) <? MAX_CONNECTION_ATTEMPTS) eqn:Hn.
    + destruct (reconnect_short e _ Hc Hn) as (-> & _ & _ & _ & -> & _).
      split; reflexivity.
    + destruct (reconnect_long e _ Hc Hn) as (-> & _ & _ & _ & -> & _).
      split; reflexivity.
Qed.

Lemma Forall_weaken_gap (lh r : Z) (ts : list Z) :
  lh <= r ->
  Forall (fun t => HEARTBEAT_INTERVAL <= t - r) ts ->
  Forall (fun t => HEARTBEAT_INTERVAL <= t - lh) ts.
Proof.
  intros Hle. apply Forall_impl. intros t Ht. lia.
Qed.

(** With a clock that does not go backwards, every heartbeat of a run is at
  least one interval after the timestamp recorded before the run. *)
Lemma run_heartbeats_after envs : forall s t0,
  0 <= lastHeartbeat s <= t0 ->
  monotone_from t0 (map clock_start envs) ->
  Forall (fun t => HEARTBEAT_INTERVAL <= t - lastHeartbeat s)
         (heartbeats (trace_of (run envs s))) /\
  spaced HEARTBEAT_INTERVAL (heartbeats (trace_of (run envs s))).
Proof.
  induction envs as [|e rest IH]; intros s t0 Hlh Hmono.
  - cbn. split; constructor.
  - cbn [map monotone_from] in Hmono. destruct Hmono as [Hr Hrest].
    rewrite run_cons_trace, heartbeats_app.
    destruct (loop_heartbeat e s) as [Hhb Hlast]. cbv zeta in *.
    assert (Hstart : ulong (clock_start e) = clock_start e)
      by (apply ulong_small; lia).
    rewrite Hstart in *.
    assert (Hdiff : ulong (clock_start e - lastHeartbeat s) =
                    clock_start e - lastHeartbeat s)
      by (apply ulong_small; lia).
    rewrite Hdiff in *.
    destruct (isConnected (after_poll e s) &&
              (HEARTBEAT_INTERVAL <=? clock_start e - lastHeartbeat s)) eqn:Hdue.
    + apply andb_true_iff in Hdue as [_ Hge]. apply Z.leb_le in Hge.
      destruct (IH (state_of (loop e s)) (clock_start e)) as [IHa IHs].
      { rewrite Hlast. lia. }
      { exact Hrest. }
      rewrite Hlast in IHa. rewrite Hhb. cbn [app spaced].
      split; [|split; assumption].
      constructor; [exact Hge|].
      apply (Forall_weaken_gap _ (clock_start e)); [lia | exact IHa].
    + destruct (IH (state_of (loop e s)) (clock_start e)) as [IHa IHs].
      { rewrite Hlast. lia. }
      { exact Hrest. }
      rewrite Hlast in IHa. rewrite Hhb. cbn [app]. split; assumption.
Qed.

Lemma run_heartbeats_spaced envs : forall s t0,
  0 <= t0 ->
  monotone_from t0 (map clock_start envs) ->
  spaced HEARTBEAT_INTERVAL (heartbeats (trace_of (run envs s))).
Proof.
  induction envs as [|e rest IH]; intros s t0 H0 Hmono.
  - cbn. constructor.
  - cbn [map monotone_from] in Hmono. destruct Hmono as [Hr Hrest].
    rewrite run_cons_trace, heartbeats_app.
    destruct (loop_heartbeat e s) as [Hhb Hlast]. cbv zeta in *.
    assert (Hstart : ulong (clock_start e) = clock_start e)
      by (apply ulong_small; lia).
    rewrite Hstart in *.
    destruct (isConnected (after_poll e s) &&
              (HEARTBEAT_INTERVAL <=? ulong (clock_start e - lastHeartbeat s))).
    + destruct (run_heartbeats_after rest (state_of (loop e s)) (clock_start e))
        as [IHa IHs].
      { rewrite Hlast. lia. }
      { exact Hrest. }
      rewrite Hlast in IHa. rewrite Hhb. cbn [app spaced]. split; assumption.
    + rewrite Hhb. cbn [app]. apply (IH _ (clock_start e)); [lia | exact Hrest].
Qed.

(** C6. Heartbeat interval of 30000 ms.  An iteration sends a heartbeat
  exactly when the session is connected after the poll and the time since
  the recorded heartbeat timestamp, measured as the sketch measures it (the
  wrap-around difference of two clock readings), is at least 30000 ms; the
  message carries the clock reading, which becomes the recorded timestamp,
  and an iteration that sends none leaves the timestamp alone.  Over any
  run in which the clock does not go backwards, any two heartbeat
  timestamps are at least 30000 ms apart. *)
Theorem heartbeat_at_most_once_per_interval :
  HEARTBEAT_INTERVAL = 30000 /\
  (forall e s,
      let due := isConnected (after_poll e s) &&
                 (HEARTBEAT_INTERVAL <=?
                    ulong (ulong (clock_start e) - lastHeartbeat s)) in
      heartbeats (trace_of (loop e s)) =
        (if due then [ulong (clock_start e)] else []) /\
      lastHeartbeat (state_of (loop e s)) =
        (if due then ulong (clock_start e) else lastHeartbeat s)) /\
  (forall envs s t0,
      0 <= t0 ->
      monotone_from t0 (map clock_start envs) ->
      spaced HEARTBEAT_INTERVAL (heartbeats (trace_of (run envs s)))).
Proof.
  split; [reflexivity|]. split.
  - exact loop_heartbeat.
  - intros envs s t0. apply run_heartbeats_spaced.
Qed.

Lemma heartbeat_at_most_once_per_interval_witness :
  heartbeats
    (trace_of (run [env_frame 30000 10; env_frame 40000 10; env_frame 60000 10]
                 connected_state)) = [30000; 60000] /\
  spaced HEARTBEAT_INTERVAL
    (heartbeats
       (trace_of (run [env_frame 30000 10; env_frame 40000 10; env_frame 60000 10]
                    connected_state))).
Proof.
  split; [reflexivity|].
  apply (proj2 (proj2 heartbeat_at_most_once_per_interval)
           [env_frame 30000 10; env_frame 40000 10; env_frame 60000 10]
           connected_state 0).
  - lia.
  - unfold ULONG_MODULUS. cbn. lia.
Defined.

(** ** Floating point

    Rounding in the normal range, for the operations that compute [fps]. *)

(** *** Digits and shifts *)

Lemma digits2_pos_bounds m :
  2 ^ (Z.pos (digits2_pos m) - 1) <= Z.pos m < 2 ^ Z.pos (digits2_pos m).
Proof.
  induction m as [m IH|m IH|]; cbn [digits2_pos].
  - rewrite Pos2Z.inj_succ.
    replace (Z.succ (Z.pos (digits2_pos m)) - 1) with (Z.succ (Z.pos (digits2_pos m) - 1)) by lia.
    rewrite !Z.pow_succ_r by lia. lia.
  - rewrite Pos2Z.inj_succ.
    replace (Z.succ (Z.pos (digits2_pos m)) - 1) with (Z.succ (Z.pos (digits2_pos m) - 1)) by lia.
    rewrite !Z.pow_succ_r by lia. lia.
  - cbn. lia.
Qed.

Lemma Zdigits2_bounds m : 0 < m -> 2 ^ (Zdigits2 m - 1) <= m < 2 ^ Zdigits2 m.
Proof.
  destruct m as [|m|m]; try lia. intros _. apply digits2_pos_bounds.
Qed.

Lemma Zdigits2_unique m k : 0 < m -> 2 ^ (k - 1) <= m < 2 ^ k -> Zdigits2 m = k.
Proof.
  intros Hm Hk. pose proof (Zdigits2_bounds m Hm) as Hd.
  assert (0 < Zdigits2 m) by (destruct m; cbn; lia).
  assert (0 < k).
  { destruct (Z_lt_le_dec 0 k) as [|Hle]; [assumption|].
    assert (2 ^ k <= 1); [|lia].
    destruct (Z.eq_dec k 0) as [->|]; [cbn; lia|].
    rewrite Z.pow_neg_r by lia. lia. }
  destruct (Z_lt_le_dec (Zdigits2 m) k) as [Hlt|Hge].
  - assert (2 ^ Zdigits2 m <= 2 ^ (k - 1)) by (apply Z.pow_le_mono_r; lia). lia.
  - destruct (Z_lt_le_dec k (Zdigits2 m)) as [Hlt|Hle]; [|lia].
    assert (2 ^ k <= 2 ^ (Zdigits2 m - 1)) by (apply Z.pow_le_mono_r; lia). lia.
Qed.

(** One step of the right shift halves the mantissa. *)
Lemma shr_1_m r : 0 <= shr_m r -> shr_m (shr_1 r) = shr_m r / 2.
Proof.
  destruct r as [m rb sb]; cbn [shr_m shr_1]. intros Hm.
  rewrite <- Z.div2_div.
  destruct m as [|[p|p|]|p]; cbn [shr_m]; try lia; reflexivity.
Qed.

Lemma iter_shr_m n : forall r,
  0 <= shr_m r ->
  shr_m (iter_pos shr_1 n r) = shr_m r / 2 ^ Z.pos n.
Proof.
  assert (Hnn : forall r, 0 <= shr_m r -> 0 <= shr_m (shr_1 r)).
  { intros r Hr. rewrite shr_1_m by assumption. apply Z.div_pos; lia. }
  induction n as [n IH|n IH|]; intros r Hr; cbn [iter_pos].
  - assert (H1 : 0 <= shr_m (shr_1 r)) by auto.
    assert (H2 : 0 <= shr_m (iter_pos shr_1 n (shr_1 r))).
    { rewrite IH by assumption. apply Z.div_pos; lia. }
    rewrite IH, IH, shr_1_m by assumption.
    rewrite !Z.div_div by lia. f_equal.
    assert (E : Z.pos n~1 = 1 + Z.pos n + Z.pos n) by lia.
    rewrite E, !Z.pow_add_r by lia. lia.
  - assert (H2 : 0 <= shr_m (iter_pos shr_1 n r)).
    { rewrite IH by assumption. apply Z.div_pos; lia. }
    rewrite IH, IH by assumption.
    rewrite !Z.div_div by lia. f_equal.
    assert (E : Z.pos n~0 = Z.pos n + Z.pos n) by lia.
    rewrite E, !Z.pow_add_r by lia. lia.
  - rewrite shr_1_m by assumption. reflexivity.
Qed.

Lemma round_nearest_even_near m l :
  round_nearest_even m l = m \/ round_nearest_even m l = m + 1.
Proof.
  destruct l as [|[]]; cbn; auto. destruct (Z.even m); auto.
Qed.

(** *** Rounding a mantissa *)

Section Rounding.
Variables prec emax : Z.
Hypothesis prec_pos : 0 < prec.

Lemma shr_record_of_loc_m m l : shr_m (shr_record_of_loc m l) = m.
Proof. destruct l as [|[]]; reflexivity. Qed.

Lemma shr_fexp_spec m e l :
  0 <= m ->
  let n := Z.max 0 (fexp prec emax (Zdigits2 m + e) - e) in
  exists r, shr_fexp prec emax m e l = (r, e + n) /\ shr_m r = m / 2 ^ n.
Proof.
  intros Hm n. unfold shr_fexp, shr. subst n.
  destruct (fexp prec emax (Zdigits2 m + e) - e) as [|p|p] eqn:Hn.
  - eexists. rewrite Z.add_0_r. split; [reflexivity|].
    rewrite shr_record_of_loc_m. cbn. now rewrite Z.div_1_r.
  - eexists. split; [reflexivity|].
    rewrite iter_shr_m by (rewrite shr_record_of_loc_m; exact Hm).
    rewrite shr_record_of_loc_m. reflexivity.
  - eexists. rewrite Z.add_0_r. split; [reflexivity|].
    rewrite shr_record_of_loc_m. cbn. now rewrite Z.div_1_r.
Qed.

Lemma binary_round_aux_normal s mx ex lx :
  0 < mx ->
  prec <= Zdigits2 mx ->
  emin prec emax <= Zdigits2 mx + ex - prec ->
  Zdigits2 mx + ex + 1 <= emax ->
  exists m n,
    binary_round_aux prec emax s mx ex lx = S754_finite s m (ex + n) /\
    (Z.pos m = mx / 2 ^ n \/ Z.pos m = mx / 2 ^ n + 1) /\
    2 ^ (prec - 1) <= Z.pos m < 2 ^ prec /\
    (n = Zdigits2 mx - prec \/ n = Zdigits2 mx - prec + 1).
Proof.
  intros Hmx Hd Hlow Hhigh.
  pose proof (Zdigits2_bounds mx Hmx) as Hb.
  set (d := Zdigits2 mx) in *.
  set (n0 := d - prec).
  assert (Hn0 : 0 <= n0) by (unfold n0; lia).
  unfold binary_round_aux.
  destruct (shr_fexp_spec mx ex lx ltac:(lia)) as (r1 & Hr1 & Hm1).
  fold d in Hr1, Hm1.
  assert (Hfexp : fexp prec emax (d + ex) = d + ex - prec) by (unfold fexp; lia).
  rewrite Hfexp in Hr1, Hm1.
  replace (Z.max 0 (d + ex - prec - ex)) with n0 in Hr1, Hm1 by (unfold n0; lia).
  rewrite Hr1.
  assert (Hpow : 2 ^ (d - 1) = 2 ^ (prec - 1) * 2 ^ n0).
  { rewrite <- Z.pow_add_r by lia. f_equal. unfold n0. lia. }
  assert (Hpow' : 2 ^ d = 2 ^ prec * 2 ^ n0).
  { rewrite <- Z.pow_add_r by lia. f_equal. unfold n0. lia. }
  assert (H2n : 0 < 2 ^ n0) by (apply Z.pow_pos_nonneg; lia).
  assert (Hm' : 2 ^ (prec - 1) <= shr_m r1 < 2 ^ prec).
  { rewrite Hm1. split.
    - apply Z.div_le_lower_bound; lia.
    - apply Z.div_lt_upper_bound; lia. }
  assert (H2p : 0 < 2 ^ (prec - 1)) by (apply Z.pow_pos_nonneg; lia).
  assert (Hpp : 2 ^ prec = 2 * 2 ^ (prec - 1)).
  { replace prec with (Z.succ (prec - 1)) at 1 by lia. apply Z.pow_succ_r. lia. }
  set (m1 := round_nearest_even (shr_m r1) (loc_of_shr_record r1)).
  assert (Hm1' : m1 = shr_m r1 \/ m1 = shr_m r1 + 1) by apply round_nearest_even_near.
  destruct (shr_fexp_spec m1 (ex + n0) loc_Exact ltac:(lia)) as (r2 & Hr2 & Hm2).
  rewrite Hr2.
  destruct (Z_lt_le_dec m1 (2 ^ prec)) as [Hlt|Hge].
  - (* no carry *)
    assert (Hd1 : Zdigits2 m1 = prec) by (apply Zdigits2_unique; lia).
    rewrite Hd1 in Hm2 |- *.
    assert (Hf : fexp prec emax (prec + (ex + n0)) = ex + n0) by (unfold fexp, n0; lia).
    rewrite Hf in Hm2 |- *.
    replace (Z.max 0 (ex + n0 - (ex + n0))) with 0 in * by lia.
    cbn in Hm2. rewrite Z.div_1_r in Hm2. rewrite Hm2.
    destruct m1 as [|m|m]; try lia.
    rewrite Z.add_0_r.
    replace (ex + n0 <=? emax - prec) with true
      by (symmetry; apply Z.leb_le; unfold n0; lia).
    exists m, n0. split; [reflexivity|]. split; [|split; [lia|left; reflexivity]].
    rewrite <- Hm1. exact Hm1'.
  - (* carry: the mantissa has grown to 2 ^ prec *)
    assert (Hm1e : m1 = 2 ^ prec) by lia.
    assert (Hd1 : Zdigits2 m1 = prec + 1).
    { apply Zdigits2_unique; [lia|]. rewrite Hm1e.
      replace (prec + 1 - 1) with prec by lia.
      replace (prec + 1) with (Z.succ prec) by lia. rewrite Z.pow_succ_r by lia. lia. }
    rewrite Hd1 in Hm2 |- *.
    assert (Hf : fexp prec emax (prec + 1 + (ex + n0)) = ex + n0 + 1) by (unfold fexp, n0; lia).
    rewrite Hf in Hm2 |- *.
    replace (Z.max 0 (ex + n0 + 1 - (ex + n0))) with 1 in * by lia.
    change (2 ^ 1) with 2 in Hm2.
    assert (Hhalf : m1 / 2 = 2 ^ (prec - 1)).
    { rewrite Hm1e, Hpp. rewrite Z.mul_comm. apply Z.div_mul. lia. }
    rewrite Hhalf in Hm2. rewrite Hm2.
    destruct (2 ^ (prec - 1)) as [|m|m] eqn:Hp2; try lia.
    replace (ex + n0 + 1 <=? emax - prec) with true
      by (symmetry; apply Z.leb_le; unfold n0; lia).
    exists m, (n0 + 1). split; [f_equal; lia|].
    split; [|split; [lia|right; reflexivity]].
    right.
    assert (Hs : shr_m r1 = 2 ^ prec - 1) by lia.
    rewrite Z.pow_add_r by lia. change (2 ^ 1) with 2.
    rewrite <- Z.div_div by lia. rewrite <- Hm1, Hs.
    assert (Hq : (2 ^ prec - 1) / 2 = Z.pos m - 1).
    { symmetry. apply (Z.div_unique _ _ _ 1); lia. }
    lia.
Qed.


Lemma binary_round_aux_exact s mx ex :
  0 < mx ->
  Zdigits2 mx = prec ->
  emin prec emax <= ex <= emax - prec ->
  binary_round_aux prec emax s mx ex loc_Exact = S754_finite s (Z.to_pos mx) ex.
Proof.
  intros Hmx Hd Hex. unfold binary_round_aux, shr_fexp.
  rewrite Hd.
  assert (Hf : fexp prec emax (prec + ex) = ex) by (unfold fexp; lia).
  rewrite Hf, Z.sub_diag. cbn [shr shr_record_of_loc shr_m loc_of_shr_record round_nearest_even].
  rewrite Hd, Hf, Z.sub_diag. cbn [shr shr_record_of_loc shr_m].
  destruct mx as [|m|m]; try lia.
  replace (ex <=? emax - prec) with true by (symmetry; apply Z.leb_le; lia).
  reflexivity.
Qed.

Lemma iter_xO m k : Z.pos (Pos.iter xO m k) = Z.pos m * 2 ^ Z.pos k.
Proof.
  induction k as [|k IH] using Pos.peano_ind.
  - cbn. lia.
  - rewrite Pos.iter_succ, Pos2Z.inj_xO, IH, Pos2Z.inj_succ, Z.pow_succ_r by lia. lia.
Qed.

(** A mantissa with fewer than [prec] digits is first aligned, exactly. *)
Lemma binary_round_short s m e :
  Z.pos (digits2_pos m) < prec ->
  emin prec emax <= Z.pos (digits2_pos m) + e - prec ->
  Z.pos (digits2_pos m) + e <= emax ->
  let k := prec - Z.pos (digits2_pos m) in
  binary_round prec emax s m e =
  S754_finite s (Z.to_pos (Z.pos m * 2 ^ k)) (e - k) /\
  2 ^ (prec - 1) <= Z.pos m * 2 ^ k < 2 ^ prec.
Proof.
  intros Hd Hlow Hhigh k. unfold binary_round, shl_align.
  pose proof (digits2_pos_bounds m) as Hb.
  set (d := Z.pos (digits2_pos m)) in *.
  assert (Hf : fexp prec emax (d + e) = d + e - prec) by (unfold fexp; lia).
  rewrite Hf.
  assert (H2k : 0 < 2 ^ k) by (apply Z.pow_pos_nonneg; unfold k; lia).
  assert (Hr : 2 ^ (prec - 1) <= Z.pos m * 2 ^ k < 2 ^ prec).
  { assert (E1 : 2 ^ (prec - 1) = 2 ^ (d - 1) * 2 ^ k).
    { rewrite <- Z.pow_add_r by (unfold k; lia). f_equal. unfold k. lia. }
    assert (E2 : 2 ^ prec = 2 ^ d * 2 ^ k).
    { rewrite <- Z.pow_add_r by (unfold k; lia). f_equal. unfold k. lia. }
    rewrite E1, E2. nia. }
  destruct (d + e - prec - e) as [|p|p] eqn:Hn; try lia.
  assert (Hk : Z.pos p = k) by (unfold k; lia).
  split; [|exact Hr].
  rewrite binary_round_aux_exact.
  - rewrite iter_xO, Hk. f_equal. lia.
  - lia.
  - apply Zdigits2_unique; [lia|]. rewrite iter_xO, Hk. exact Hr.
  - lia.
Qed.

(** A mantissa with at least [prec] digits is rounded as it is. *)
Lemma binary_round_long s m e :
  prec <= Z.pos (digits2_pos m) ->
  binary_round prec emax s m e = binary_round_aux prec emax s (Z.pos m) e loc_Exact.
Proof.
  intros Hd. unfold binary_round, shl_align.
  assert (e <= fexp prec emax (Z.pos (digits2_pos m) + e)) by (unfold fexp; lia).
  destruct (fexp prec emax (Z.pos (digits2_pos m) + e) - e) eqn:Hn; try lia; reflexivity.
Qed.

End Rounding.

(** *** Values *)

Lemma pow2_pos e : (0 < 2 ^ e)%Q.
Proof. apply Qpower_0_lt. reflexivity. Qed.

Lemma pow2_add a b : (2 ^ (a + b) == 2 ^ a * 2 ^ b)%Q.
Proof. apply Qpower_plus. discriminate. Qed.

Lemma pow2_Z k : 0 <= k -> (inject_Z (2 ^ k) == 2 ^ k)%Q.
Proof. intros Hk. rewrite Zpower_Qpower by exact Hk. reflexivity. Qed.

(** The value of a rounded mantissa is within one unit in the last place of
    whatever lies between the mantissa and its successor. *)
Lemma round_value mx ex m n (x : Q) :
  0 <= n -> 0 <= mx ->
  (m = mx / 2 ^ n \/ m = mx / 2 ^ n + 1) ->
  (scaled mx ex <= x)%Q -> (x < scaled (mx + 1) ex)%Q ->
  (scaled m (ex + n) - 2 ^ (ex + n) <= x <= scaled m (ex + n) + 2 ^ (ex + n))%Q.
Proof.
  intros Hn Hmx Hm Hlo Hhi. unfold scaled in *.
  assert (H2n : 0 < 2 ^ n) by (apply Z.pow_pos_nonneg; lia).
  pose proof (Z.mul_div_le mx (2 ^ n) H2n) as Hd1.
  pose proof (Z.mul_succ_div_gt mx (2 ^ n) H2n) as Hd2.
  set (m' := mx / 2 ^ n) in *.
  rewrite pow2_add, <- (pow2_Z n Hn).
  pose proof (pow2_pos ex) as Hp.
  set (p := (2 ^ ex)%Q) in *.
  assert (H1 : (inject_Z (2 ^ n * m') * p <= inject_Z mx * p)%Q).
  { apply Qmult_le_compat_r; [|lra]. rewrite <- Zle_Qle. exact Hd1. }
  assert (H2 : (inject_Z (mx + 1) * p <= inject_Z (2 ^ n * Z.succ m') * p)%Q).
  { apply Qmult_le_compat_r; [|lra]. rewrite <- Zle_Qle. lia. }
  rewrite inject_Z_mult in H1, H2.
  replace (Z.succ m') with (m' + 1) in H2 by lia.
  rewrite !inject_Z_plus in H2. rewrite inject_Z_plus in Hhi.
  assert (HK : (0 < inject_Z (2 ^ n))%Q).
  { replace 0%Q with (inject_Z 0) by reflexivity. rewrite <- Zlt_Qlt. exact H2n. }
  assert (HpK : (0 < p * inject_Z (2 ^ n))%Q) by (apply Qmult_lt_0_compat; assumption).
  set (K := inject_Z (2 ^ n)) in *. set (M := inject_Z m') in *.
  set (X := inject_Z mx) in *. change (inject_Z 1) with 1%Q in *.
  destruct Hm as [-> | ->].
  - fold M. split; lra.
  - rewrite inject_Z_plus. fold M. change (inject_Z 1) with 1%Q. split; lra.
Qed.

(** *** The operations of the frame-rate computation *)

Lemma pow2_lt_inv a b : 0 <= b -> 2 ^ a < 2 ^ b -> a < b.
Proof.
  intros Hb H. destruct (Z_lt_le_dec a b) as [|Hge]; [assumption|].
  assert (2 ^ b <= 2 ^ a) by (apply Z.pow_le_mono_r; lia). lia.
Qed.

Lemma double_of_ulong_normal a :
  0 < a < 2 ^ 32 ->
  exists m e,
    double_of_ulong a = S754_finite false m e /\
    2 ^ 52 <= Z.pos m < 2 ^ 53 /\
    -52 <= e <= -21 /\
    (scaled (Z.pos m) e == inject_Z a)%Q.
Proof.
  intros Ha. unfold double_of_ulong, binary_normalize.
  destruct a as [|a|a]; try lia.
  pose proof (digits2_pos_bounds a) as Hb.
  set (d := Z.pos (digits2_pos a)) in *.
  assert (Hd : 1 <= d <= 32).
  { split; [unfold d; lia|].
    assert (d - 1 < 32); [|lia]. apply pow2_lt_inv; lia. }
  destruct (binary_round_short 53 1024 ltac:(lia) false a 0) as [Hr Hm];
    fold d; try (unfold emin; lia).
  fold d in Hr, Hm. cbv zeta in Hr, Hm. rewrite Hr.
  assert (Hpos : 0 < Z.pos a * 2 ^ (53 - d)) by lia.
  eexists _, _. split; [reflexivity|].
  rewrite Z2Pos.id by exact Hpos.
  split; [exact Hm|]. split; [lia|].
  unfold scaled. rewrite inject_Z_mult, pow2_Z by lia.
  rewrite <- Qmult_assoc, <- pow2_add.
  replace (53 - d + (0 - (53 - d))) with 0 by lia.
  change (2 ^ 0)%Q with 1%Q. ring.
Qed.

Lemma scaled_succ m e : (scaled (m + 1) e == scaled m e + 2 ^ e)%Q.
Proof. unfold scaled. rewrite inject_Z_plus. change (inject_Z 1) with 1%Q. ring. Qed.

Lemma scaled_mul m1 e1 m2 e2 : (scaled (m1 * m2) (e1 + e2) == scaled m1 e1 * scaled m2 e2)%Q.
Proof. unfold scaled. rewrite inject_Z_mult, pow2_add. ring. Qed.

Lemma scaled_pos m e : 0 < m -> (0 < scaled m e)%Q.
Proof.
  intros Hm. unfold scaled. apply Qmult_lt_0_compat; [|apply pow2_pos].
  replace 0%Q with (inject_Z 0) by reflexivity. rewrite <- Zlt_Qlt. exact Hm.
Qed.

(** Rounding in the normal range: the result is a normal number within one
    unit in the last place of the rounded quantity. *)
Lemma round_normal prec emax s mx ex lx (x : Q) :
  0 < prec -> 0 < mx -> prec <= Zdigits2 mx ->
  emin prec emax <= Zdigits2 mx + ex - prec ->
  Zdigits2 mx + ex + 1 <= emax ->
  (scaled mx ex <= x)%Q -> (x < scaled (mx + 1) ex)%Q ->
  exists m e,
    binary_round_aux prec emax s mx ex lx = S754_finite s m e /\
    2 ^ (prec - 1) <= Z.pos m < 2 ^ prec /\
    Zdigits2 mx - prec <= e - ex <= Zdigits2 mx - prec + 1 /\
    (scaled (Z.pos m) e - 2 ^ e <= x <= scaled (Z.pos m) e + 2 ^ e)%Q.
Proof.
  intros Hp Hmx Hd Hlow Hhigh Hlo Hhi.
  destruct (binary_round_aux_normal prec emax Hp s mx ex lx Hmx Hd Hlow Hhigh)
    as (m & n & Hr & Hm & Hb & Hn).
  exists m, (ex + n). split; [exact Hr|]. split; [exact Hb|]. split; [lia|].
  apply (round_value mx ex (Z.pos m) n x); try assumption; lia.
Qed.

(** The same bound, relative to the result. *)
Lemma ulp_le_value prec m e :
  0 < prec -> 2 ^ (prec - 1) <= m ->
  (inject_Z (2 ^ (prec - 1)) * 2 ^ e <= scaled m e)%Q.
Proof.
  intros Hp Hm. unfold scaled. apply Qmult_le_compat_r.
  - rewrite <- Zle_Qle. exact Hm.
  - apply Qlt_le_weak, pow2_pos.
Qed.

Lemma digits_between m lo hi :
  0 <= lo -> 2 ^ lo <= m < 2 ^ hi -> lo + 1 <= Zdigits2 m <= hi.
Proof.
  intros Hlo Hm.
  assert (0 < 2 ^ lo) by (apply Z.pow_pos_nonneg; lia).
  pose proof (Zdigits2_bounds m ltac:(lia)) as Hb.
  assert (0 < Zdigits2 m) by (destruct m; cbn; lia).
  assert (0 <= hi).
  { destruct (Z_lt_le_dec hi 0); [|assumption]. rewrite (Z.pow_neg_r 2 hi) in Hm by lia. lia. }
  split.
  - assert (lo < Zdigits2 m); [|lia]. apply pow2_lt_inv; lia.
  - assert (Zdigits2 m - 1 < hi); [|lia]. apply pow2_lt_inv; lia.
Qed.

Lemma double_mul_normal ma ea mb eb :
  2 ^ 52 <= Z.pos ma < 2 ^ 53 -> 2 ^ 52 <= Z.pos mb < 2 ^ 53 ->
  -400 <= ea <= 400 -> -400 <= eb <= 400 ->
  exists m e,
    double_mul (S754_finite false ma ea) (S754_finite false mb eb) =
      S754_finite false m e /\
    2 ^ 52 <= Z.pos m < 2 ^ 53 /\
    ea + eb + 52 <= e <= ea + eb + 54 /\
    (scaled (Z.pos m) e - 2 ^ e <= scaled (Z.pos ma) ea * scaled (Z.pos mb) eb
       <= scaled (Z.pos m) e + 2 ^ e)%Q.
Proof.
  intros Ha Hb Hea Heb. unfold double_mul, SFmul. cbn [xorb].
  assert (Hprod : 2 ^ 104 <= Z.pos (ma * mb) < 2 ^ 106).
  { rewrite Pos2Z.inj_mul.
    change (2 ^ 104) with (2 ^ 52 * 2 ^ 52). change (2 ^ 106) with (2 ^ 53 * 2 ^ 53).
    nia. }
  pose proof (digits_between _ 104 106 ltac:(lia) Hprod) as Hd.
  destruct (round_normal 53 1024 false (Z.pos (ma * mb)) (ea + eb) loc_Exact
              (scaled (Z.pos ma) ea * scaled (Z.pos mb) eb))
    as (m & e & Hr & Hm & He & Hv); try (unfold emin; lia).
  - rewrite Pos2Z.inj_mul, scaled_mul. apply Qle_refl.
  - rewrite scaled_succ, Pos2Z.inj_mul, scaled_mul. pose proof (pow2_pos (ea + eb)). lra.
  - exists m, e. split; [exact Hr|]. split; [exact Hm|]. split; [lia|exact Hv].
Qed.

Lemma div_core_normal mx ex my ey :
  2 ^ 52 <= Z.pos mx < 2 ^ 53 -> 2 ^ 52 <= Z.pos my < 2 ^ 53 ->
  -400 <= ex <= 400 -> -400 <= ey <= 400 ->
  exists l,
    SFdiv_core_binary 53 1024 (Z.pos mx) ex (Z.pos my) ey =
    (Z.pos mx * 2 ^ 53 / Z.pos my, ex - ey - 53, l).
Proof.
  intros Hx Hy Hex Hey. unfold SFdiv_core_binary.
  rewrite (Zdigits2_unique (Z.pos mx) 53), (Zdigits2_unique (Z.pos my) 53)
    by (try lia; assumption).
  assert (He : Z.min (fexp 53 1024 (53 + ex - (53 + ey))) (ex - ey) = ex - ey - 53)
    by (unfold fexp, emin; lia).
  rewrite He. replace (ex - ey - (ex - ey - 53)) with 53 by lia.
  rewrite Z.shiftl_mul_pow2 by lia.
  unfold Z.div.
  destruct (Z.div_eucl (Z.pos mx * 2 ^ 53) (Z.pos my)) as [q r].
  eexists. reflexivity.
Qed.

Lemma double_div_normal mx ex my ey :
  2 ^ 52 <= Z.pos mx < 2 ^ 53 -> 2 ^ 52 <= Z.pos my < 2 ^ 53 ->
  -400 <= ex <= 400 -> -400 <= ey <= 400 ->
  exists m e,
    double_div (S754_finite false mx ex) (S754_finite false my ey) =
      S754_finite false m e /\
    2 ^ 52 <= Z.pos m < 2 ^ 53 /\
    ex - ey - 53 <= e <= ex - ey - 51 /\
    (scaled (Z.pos m) e - 2 ^ e <= scaled (Z.pos mx) ex / scaled (Z.pos my) ey
       <= scaled (Z.pos m) e + 2 ^ e)%Q.
Proof.
  intros Hx Hy Hex Hey. unfold double_div, SFdiv. cbn [xorb].
  destruct (div_core_normal mx ex my ey Hx Hy Hex Hey) as [l ->].
  set (q := Z.pos mx * 2 ^ 53 / Z.pos my).
  assert (Hq : 2 ^ 52 <= q < 2 ^ 54).
  { unfold q. split.
    - apply Z.div_le_lower_bound; [lia|].
      change (2 ^ 53) with (2 * 2 ^ 52) in *. nia.
    - apply Z.div_lt_upper_bound; [lia|].
      change (2 ^ 54) with (2 * 2 ^ 53). change (2 ^ 53) with (2 * 2 ^ 52) in *. nia. }
  pose proof (digits_between q 52 54 ltac:(lia) Hq) as Hd.
  pose proof (Z.mul_div_le (Z.pos mx * 2 ^ 53) (Z.pos my) ltac:(lia)) as Hd1.
  pose proof (Z.mul_succ_div_gt (Z.pos mx * 2 ^ 53) (Z.pos my) ltac:(lia)) as Hd2.
  fold q in Hd1, Hd2.
  pose proof (scaled_pos (Z.pos my) ey ltac:(lia)) as Hvy.
  assert (Hx53 : (scaled (Z.pos mx * 2 ^ 53) (ex - 53) == scaled (Z.pos mx) ex)%Q).
  { unfold scaled. rewrite inject_Z_mult, pow2_Z by lia.
    rewrite <- Qmult_assoc, <- pow2_add. replace (53 + (ex - 53)) with ex by lia.
    reflexivity. }
  destruct (round_normal 53 1024 false q (ex - ey - 53) l
              (scaled (Z.pos mx) ex / scaled (Z.pos my) ey))
    as (m & e & Hr & Hm & He & Hv); try (unfold emin; lia).
  - (* q * 2^(ex-ey-53) <= x *)
    apply Qle_shift_div_l; [exact Hvy|].
    rewrite <- scaled_mul, <- Hx53.
    replace (ex - ey - 53 + ey) with (ex - 53) by lia.
    unfold scaled. apply Qmult_le_compat_r; [|apply Qlt_le_weak, pow2_pos].
    rewrite <- Zle_Qle. lia.
  - apply Qlt_shift_div_r; [exact Hvy|].
    rewrite <- scaled_mul, <- Hx53.
    replace (ex - ey - 53 + ey) with (ex - 53) by lia.
    unfold scaled. apply Qmult_lt_compat_r; [apply pow2_pos|].
    rewrite <- Zlt_Qlt. lia.
  - exists m, e. split; [exact Hr|]. split; [exact Hm|]. split; [lia|exact Hv].
Qed.

Lemma float_of_double_normal m e :
  2 ^ 52 <= Z.pos m < 2 ^ 53 ->
  -150 <= e <= 70 ->
  exists m' e',
    float_of_double (S754_finite false m e) = S754_finite false m' e' /\
    2 ^ 23 <= Z.pos m' < 2 ^ 24 /\
    (scaled (Z.pos m') e' - 2 ^ e' <= scaled (Z.pos m) e <= scaled (Z.pos m') e' + 2 ^ e')%Q.
Proof.
  intros Hm He. unfold float_of_double.
  assert (Hd : Zdigits2 (Z.pos m) = 53) by (apply Zdigits2_unique; lia).
  rewrite binary_round_long by (cbn [Zdigits2] in Hd; lia).
  destruct (round_normal 24 128 false (Z.pos m) e loc_Exact (scaled (Z.pos m) e))
    as (m' & e' & Hr & Hm' & He' & Hv); try (rewrite ?Hd; unfold emin; lia).
  - apply Qle_refl.
  - rewrite scaled_succ. pose proof (pow2_pos e). lra.
  - exists m', e'. split; [exact Hr|]. split; [exact Hm'|exact Hv].
Qed.

Lemma measured_fps_zero elapsed :
  0 < elapsed < 2 ^ 32 -> measured_fps 0 elapsed = S754_zero false.
Proof.
  intros He. unfold measured_fps.
  destruct (double_of_ulong_normal elapsed He) as (mc & ec & -> & _).
  reflexivity.
Qed.

Lemma measured_fps_accuracy frames elapsed :
  0 < frames < 2 ^ 32 -> 0 < elapsed < 2 ^ 32 ->
  exists m e,
    measured_fps frames elapsed = S754_finite false m e /\
    let q := (inject_Z frames * 1000 / inject_Z elapsed)%Q in
    (q * (4194303 # 4194304) <= float_value (S754_finite false m e)
       <= q * (4194305 # 4194304))%Q.
Proof.
  intros Hf He. unfold measured_fps.
  destruct (double_of_ulong_normal frames Hf) as (ma & ea & -> & Hma & Hea & Hva).
  destruct (double_of_ulong_normal 1000 ltac:(lia)) as (mb & eb & -> & Hmb & Heb & Hvb).
  destruct (double_of_ulong_normal elapsed He) as (mc & ec & -> & Hmc & Hec & Hvc).
  destruct (double_mul_normal ma ea mb eb Hma Hmb ltac:(lia) ltac:(lia))
    as (mp & ep & -> & Hmp & Hep & Hvp).
  destruct (double_div_normal mp ep mc ec Hmp Hmc ltac:(lia) ltac:(lia))
    as (mq & eq & -> & Hmq & Heq & Hvq).
  destruct (float_of_double_normal mq eq Hmq ltac:(lia))
    as (mf & ef & -> & Hmf & Hvf).
  exists mf, ef. split; [reflexivity|].
  cbv zeta. cbn [float_value cond_Zopp].
  pose proof (ulp_le_value 53 (Z.pos mp) ep ltac:(lia) ltac:(lia)) as Up.
  pose proof (ulp_le_value 53 (Z.pos mq) eq ltac:(lia) ltac:(lia)) as Uq.
  pose proof (ulp_le_value 24 (Z.pos mf) ef ltac:(lia) ltac:(lia)) as Uf.
  change (inject_Z (2 ^ (53 - 1))) with (4503599627370496 # 1)%Q in Up, Uq.
  change (inject_Z (2 ^ (24 - 1))) with (8388608 # 1)%Q in Uf.
  rewrite Hva, Hvb in Hvp. rewrite Hvc in Hvq.
  change (inject_Z 1000) with 1000%Q in Hvp.
  assert (Hc : (0 < inject_Z elapsed)%Q).
  { replace 0%Q with (inject_Z 0) by reflexivity. rewrite <- Zlt_Qlt. lia. }
  assert (Ha : (0 <= inject_Z frames)%Q).
  { replace 0%Q with (inject_Z 0) by reflexivity. rewrite <- Zle_Qle. lia. }
  set (vp := scaled (Z.pos mp) ep) in *. set (up := (2 ^ ep)%Q) in *.
  set (vq := scaled (Z.pos mq) eq) in *. set (uq := (2 ^ eq)%Q) in *.
  set (vf := scaled (Z.pos mf) ef) in *. set (uf := (2 ^ ef)%Q) in *.
  set (c := inject_Z elapsed) in *. set (a := inject_Z frames) in *.
  assert (Hic : (0 < / c)%Q) by (apply Qinv_lt_0_compat; exact Hc).
  unfold Qdiv in *. set (ic := (/ c)%Q) in *.
  assert (Hp1 : (vp * ic <= a * 1000 * (4503599627370496 # 4503599627370495) * ic)%Q).
  { apply Qmult_le_compat_r; [lra|lra]. }
  assert (Hp2 : (a * 1000 * (4503599627370496 # 4503599627370497) * ic <= vp * ic)%Q).
  { apply Qmult_le_compat_r; [lra|lra]. }
  assert (Hq0 : (0 <= a * 1000 * ic)%Q).
  { apply Qmult_le_0_compat; [apply Qmult_le_0_compat|]; lra. }
  split; lra.
Qed.

(** ** Frame rate *)

Lemma reconnect_fps_reports e s :
  isConnected s = false -> fps_reports (trace_of (reconnect e s)) = [].
Proof.
  intros Hc. unfold reconnect, bind at 1, get.
  cbn -[connectWebSocket sendLog].
  destruct (connectionAttempts s <? MAX_CONNECTION_ATTEMPTS);
    unfold bind; rewrite sendLog_run, Hc; unfold connectWebSocket; cbn;
    [destruct (connect_ok e)|]; reflexivity.
Qed.

(** The value of [measured_fps] compared with the exact quotient. *)
Lemma measured_fps_near frames elapsed :
  0 <= frames < ULONG_MODULUS -> 1000 <= elapsed < ULONG_MODULUS ->
  let exact := (inject_Z frames * 1000 / inject_Z elapsed)%Q in
  finite_nonneg (measured_fps frames elapsed) = true /\
  (exact * (4194303 # 4194304) <= float_value (measured_fps frames elapsed))%Q /\
  (float_value (measured_fps frames elapsed) <= exact * (4194305 # 4194304))%Q.
Proof.
  unfold ULONG_MODULUS. intros Hf He. cbv zeta.
  destruct (Z.eq_dec frames 0) as [->|Hnz].
  - rewrite measured_fps_zero by lia. cbn [finite_nonneg float_value].
    split; [reflexivity|]. unfold Qdiv. split.
    + setoid_replace (inject_Z 0 * 1000 * / inject_Z elapsed * (4194303 # 4194304))%Q
        with 0%Q by (change (inject_Z 0) with 0%Q; ring).
      apply Qle_refl.
    + setoid_replace (inject_Z 0 * 1000 * / inject_Z elapsed * (4194305 # 4194304))%Q
        with 0%Q by (change (inject_Z 0) with 0%Q; ring).
      apply Qle_refl.
  - destruct (measured_fps_accuracy frames elapsed) as (m & e & -> & Hlo & Hhi);
      [lia | lia |].
    split; [reflexivity|]. split; assumption.
Qed.

(** C7, as amended.  Frame-rate report.  Write [elapsed] for the time since
  the window start, as the sketch measures it, and [frames] for the frame
  count including the frame of this iteration.  An iteration reports a
  frame rate exactly when it is connected, has captured a frame and
  [elapsed] is at least 1000 ms; it then reports once, the [float] that
  results from computing [frames * 1000.0 / elapsed] in [double] and
  rounding the quotient to [float], stores it, resets the frame count to
  zero and moves the window start to the start of the iteration.  An
  iteration that reports nothing leaves the window start and the stored
  value alone.  A reported value is a finite [float] that differs from the
  exact quotient [frames * 1000 / elapsed] by a relative error of at most
  2^-22. *)
Theorem fps_report_once_per_window :
  forall e s,
    let currentTime := ulong (clock_start e) in
    let elapsed := ulong (currentTime - lastFrameTime s) in
    let frames := ulong (frameCount s + 1) in
    let value :=
      float_of_double
        (double_div (double_mul (double_of_ulong frames) (double_of_ulong 1000))
                    (double_of_ulong elapsed)) in
    let exact := (inject_Z frames * 1000 / inject_Z elapsed)%Q in
    let counted := isConnected (after_poll e s) &&
                   match captured e with Some _ => true | None => false end in
    let due := counted && (1000 <=? elapsed) in
    fps_reports (trace_of (loop e s)) = (if due then [value] else []) /\
    fps (state_of (loop e s)) = (if due then value else fps s) /\
    frameCount (state_of (loop e s)) =
      (if due then 0 else if counted then frames else frameCount s) /\
    lastFrameTime (state_of (loop e s)) =
      (if due then currentTime else lastFrameTime s) /\
    (due = true ->
     finite_nonneg value = true /\
     (exact * (4194303 # 4194304) <= float_value value)%Q /\
     (float_value value <= exact * (4194305 # 4194304))%Q).
Proof.
  intros e s. cbv zeta.
  assert (Hnear :
    isConnected (after_poll e s) &&
      match captured e with Some _ => true | None => false end &&
      (1000 <=? ulong (ulong (clock_start e) - lastFrameTime s)) = true ->
    finite_nonneg
      (measured_fps (ulong (frameCount s + 1))
         (ulong (ulong (clock_start e) - lastFrameTime s))) = true /\
    (inject_Z (ulong (frameCount s + 1)) * 1000 /
       inject_Z (ulong (ulong (clock_start e) - lastFrameTime s)) *
       (4194303 # 4194304) <=
     float_value
       (measured_fps (ulong (frameCount s + 1))
          (ulong (ulong (clock_start e) - lastFrameTime s))))%Q /\
    (float_value
       (measured_fps (ulong (frameCount s + 1))
          (ulong (ulong (clock_start e) - lastFrameTime s))) <=
     inject_Z (ulong (frameCount s + 1)) * 1000 /
       inject_Z (ulong (ulong (clock_start e) - lastFrameTime s)) *
       (4194305 # 4194304))%Q).
  { intros Hdue. apply andb_true_iff in Hdue. destruct Hdue as [_ Hdue].
    apply Z.leb_le in Hdue.
    apply measured_fps_near.
    - apply ulong_range.
    - split; [exact Hdue | apply ulong_range]. }
  split; [|split; [|split; [|split; [|exact Hnear]]]]; clear Hnear;
    rewrite ?loop_trace, ?loop_state, ?fps_reports_app;
    destruct (poll_run e s) as [b [Hs Hq]];
    rewrite ?(quiet_fps_reports _ Hq); cbn [app];
    (destruct (isConnected (after_poll e s)) eqn:Hc; cbn [negb andb];
     [ rewrite (after_poll_connected e s Hc);
       rewrite ?stream_trace, ?stream_state; cbv zeta; rewrite ?heartbeat_run;
       destruct (captured e) as [fb|];
       destruct (HEARTBEAT_INTERVAL <=? _);
       cbn [trace_of state_of value_of fst snd andb];
       rewrite ?send_frame_run, ?update_fps_run, ?pace_run; cbv zeta;
       cbn [lastFrameTime frameCount set_lastHeartbeat set_connectionAttempts
              set_isConnected];
       try destruct (1000 <=? ulong (ulong (clock_start e) - lastFrameTime s));
       cbn [trace_of state_of value_of fst snd];
       branch; reflexivity
     | rewrite Hs in *;
       destruct (connectionAttempts (set_isConnected b s) <? MAX_CONNECTION_ATTEMPTS) eqn:Hn;
       [ destruct (reconnect_short e _ Hc Hn) as (Hst & _)
       | destruct (reconnect_long e _ Hc Hn) as (Hst & _) ];
       rewrite ?Hst, ?(reconnect_fps_reports e _ Hc); reflexivity ]).
Qed.

Lemma fps_report_once_per_window_witness :
  fps_reports (trace_of (loop (env_frame 30000 40) connected_state)) =
    [S754_finite false 8947849 (-28)] /\
  (1 * 1000 / 30000 * (4194303 # 4194304) <=
     float_value (S754_finite false 8947849 (-28)))%Q /\
  (float_value (S754_finite false 8947849 (-28)) <=
     1 * 1000 / 30000 * (4194305 # 4194304))%Q.
Proof.
  destruct (fps_report_once_per_window (env_frame 30000 40) connected_state)
    as (Hr & _ & _ & _ & Hnear).
  split; [exact Hr|].
  destruct (Hnear eq_refl) as (_ & Hlo & Hhi).
  split; [exact Hlo | exact Hhi].
Defined.

(** C7, the claim as stated fails.  The first frame is released 30000 ms
  after the start: the window holds one frame and the exact quotient is
  1 * 1000 / 30000 = 1/30, which no [float] holds.  The sketch reports the
  [float] next to it, 8947849 / 2^28. *)
Lemma fps_report_is_rounded :
  ~ reports_exact_quotient (env_frame 30000 40) connected_state.
Proof.
  unfold reports_exact_quotient. cbv zeta.
  assert (Hr : fps_reports (trace_of (loop (env_frame 30000 40) connected_state)) =
               [S754_finite false 8947849 (-28)]) by reflexivity.
  rewrite Hr. intros H. inversion H as [|value rest Hv _]; subst.
  vm_compute in Hv. discriminate.
Qed.

(** ** The event handler of the test sketch *)

Lemma substring_prefix (token rest : string) :
  substring 0 (String.length token) (token ++ rest) = token.
Proof.
  induction token as [|c token IH]; cbn.
  - destruct rest; reflexivity.
  - now rewrite IH.
Qed.

Lemma substring_inside (before token rest : string) :
  substring (String.length before) (String.length token) (before ++ token ++ rest) =
  token.
Proof.
  induction before as [|c before IH]; cbn.
  - apply substring_prefix.
  - exact IH.
Qed.

(** A text that contains the token is found by [indexOf]. *)
Lemma indexOf_found (before token rest : string) :
  token <> EmptyString ->
  TestSimple.indexOf (before ++ token ++ rest) token <> -1.
Proof.
  intros Hne. unfold TestSimple.indexOf.
  destruct (index 0 token (before ++ token ++ rest)) as [position|] eqn:Hidx.
  - lia.
  - exfalso.
    apply (index_correct3 0 (String.length before) _ _ Hidx Hne); [lia|].
    apply substring_inside.
Qed.

Lemma contains_nonempty (before token rest : string) :
  token <> EmptyString ->
  (0 <? String.length (before ++ token ++ rest))%nat = true.
Proof.
  intros Hne. destruct before as [|c before]; [|reflexivity].
  destruct token as [|c token]; [congruence | reflexivity].
Qed.

(** C9. The handler of the test sketch.  ConnectionOpened sets the
  connected flag and clears the authenticated flag.  A text message that
  contains connection_ack, received while the authenticated flag is clear,
  sets the authenticated flag, leaves the connected flag as it was, and
  sends one device-info message and nothing else.  A ping is answered with
  one pong and changes no flag.  ConnectionClosed clears both flags. *)
Theorem handler_state_machine :
  (forall data ok s,
      let r := TestSimple.onEventsCallback (ConnectionOpened, data, ok) s in
      TestSimple.isConnected (state_of r) = true /\
      TestSimple.isAuthenticated (state_of r) = false) /\
  (forall before rest ok s,
      TestSimple.isAuthenticated s = false ->
      let data := (before ++ "connection_ack" ++ rest)%string in
      let r := TestSimple.onEventsCallback (TextMessage, data, ok) s in
      TestSimple.isAuthenticated (state_of r) = true /\
      TestSimple.isConnected (state_of r) = TestSimple.isConnected s /\
      device_infos (trace_of r) = [WsSend JDeviceInfo ok] /\
      transport_calls (trace_of r) = [WsSend JDeviceInfo ok]) /\
  (forall data ok s,
      let r := TestSimple.onEventsCallback (GotPing, data, ok) s in
      pongs (trace_of r) = [WsPong] /\
      transport_calls (trace_of r) = [WsPong] /\
      state_of r = s) /\
  (forall data ok s,
      let r := TestSimple.onEventsCallback (ConnectionClosed, data, ok) s in
      TestSimple.isConnected (state_of r) = false /\
      TestSimple.isAuthenticated (state_of r) = false).
Proof.
  split; [|split; [|split]].
  - intros data ok s. cbn. split; reflexivity.
  - intros before rest ok s Hauth. cbv zeta.
    assert (Hne : "connection_ack"%string <> EmptyString) by discriminate.
    pose proof (indexOf_found before _ rest Hne) as Hfound.
    pose proof (contains_nonempty before _ rest Hne) as Hlen.
    apply Z.eqb_neq in Hfound.
    unfold TestSimple.onEventsCallback. rewrite Hlen.
    unfold bind, get, Serial_println, emit. rewrite Hauth. cbn [negb].
    rewrite Hfound. cbn. repeat split; reflexivity.
  - intros data ok s. cbn. repeat split; reflexivity.
  - intros data ok s. cbn. split; reflexivity.
Qed.

Lemma handler_state_machine_witness :
  TestSimple.isAuthenticated
    (state_of (TestSimple.onEventsCallback
                 (TextMessage, ("type=" ++ "connection_ack" ++ ";status=ok")%string, true)
                 awaiting_ack)) = true /\
  device_infos
    (trace_of (TestSimple.onEventsCallback
                 (TextMessage, ("type=" ++ "connection_ack" ++ ";status=ok")%string, true)
                 awaiting_ack)) = [WsSend JDeviceInfo true].
Proof.
  destruct (proj1 (proj2 handler_state_machine) "type="%string ";status=ok"%string
              true awaiting_ack) as (Hauth & _ & Hinfo & _).
  - reflexivity.
  - split; assumption.
Defined.

(** * Further properties of [main.cpp] *)

(** ** What a poll does to the globals *)

(** X1. After [client.poll()] the connected flag is what the last
    ConnectionOpened or ConnectionClosed event of the batch says, whatever
    came before it in the batch; a batch without such events changes
    nothing.  No other global is touched by a poll. *)
Theorem poll_keeps_last_link_event :
  forall e s,
    after_poll e s =
    match last_link (polled e) with
    | Some b => set_isConnected b s
    | None => s
    end.
Proof.
  intros e s. unfold after_poll, client_poll. rewrite bind_state.
  apply dispatch_state.
Qed.

(** ** The attempt counter over runs *)

Lemma loop_counter e s :
  0 <= connectionAttempts s <= MAX_CONNECTION_ATTEMPTS ->
  connectionAttempts (state_of (loop e s)) =
  if isConnected (after_poll e s) then 0
  else if connectionAttempts s <? MAX_CONNECTION_ATTEMPTS
       then connectionAttempts s + 1 else 0.
Proof.
  intros Hc. destruct (isConnected (after_poll e s)) eqn:Hlink.
  - apply connected_iteration_clears_counter; exact Hlink.
  - destruct (connectionAttempts s <? MAX_CONNECTION_ATTEMPTS) eqn:Hlt.
    + apply Z.ltb_lt in Hlt.
      now destruct (loop_short e s Hlink ltac:(lia)) as (_ & -> & _).
    + apply Z.ltb_ge in Hlt.
      now destruct (loop_long e s Hlink Hlt) as (_ & -> & _).
Qed.

(** X2. The attempt counter never leaves the range 0..5: if it is in the
    range before a run of [loop], it is in the range after it, whatever the
    transport, the clock and the camera do. *)
Theorem attempt_counter_stays_in_range :
  forall envs s,
    0 <= connectionAttempts s <= MAX_CONNECTION_ATTEMPTS ->
    0 <= connectionAttempts (state_of (run envs s)) <= MAX_CONNECTION_ATTEMPTS.
Proof.
  induction envs as [|e rest IH]; intros s Hc.
  - exact Hc.
  - rewrite run_cons_state. apply IH. rewrite (loop_counter e s Hc).
    unfold MAX_CONNECTION_ATTEMPTS in *.
    destruct (isConnected (after_poll e s)); [lia|].
    destruct (connectionAttempts s <? 5) eqn:Hlt; [apply Z.ltb_lt in Hlt|]; lia.
Qed.

Lemma attempt_counter_stays_in_range_witness :
  0 <= connectionAttempts
         (state_of (run [env_up; env_drop; env_fail; env_frame 1000 10] initial))
    <= MAX_CONNECTION_ATTEMPTS.
Proof.
  apply (attempt_counter_stays_in_range
           [env_up; env_drop; env_fail; env_frame 1000 10] initial).
  unfold MAX_CONNECTION_ATTEMPTS. cbn. lia.
Defined.

Lemma slept_app t1 t2 : slept (t1 ++ t2) = slept t1 + slept t2.
Proof.
  unfold slept. rewrite delays_app.
  induction (delays t1) as [|d ds IH]; cbn; [reflexivity | rewrite IH; lia].
Qed.

(** X3. A device that cannot reach the server retries in cycles of six
    iterations: five connect attempts, each followed by 5000 ms, then one
    iteration that only waits 30000 ms.  In closed form, after n consecutive
    failing iterations that start disconnected with the counter at c (0..5):
    the counter is (c + n) mod 6, the long wait was taken (c + n) / 6 times,
    a connect was attempted in each of the other iterations, every attempt
    failed, and the time slept is 5000 ms per attempt plus 30000 ms per long
    wait. *)
Theorem retry_cycle :
  forall envs s,
    forallb fails envs = true ->
    isConnected s = false ->
    0 <= connectionAttempts s <= MAX_CONNECTION_ATTEMPTS ->
    let n := Z.of_nat (List.length envs) in
    let long_waits := (connectionAttempts s + n) / 6 in
    connectionAttempts (state_of (run envs s)) = (connectionAttempts s + n) mod 6 /\
    isConnected (state_of (run envs s)) = false /\
    connects (trace_of (run envs s)) =
      repeat false (Z.to_nat (n - long_waits)) /\
    slept (trace_of (run envs s)) = 5000 * (n - long_waits) + 30000 * long_waits.
Proof.
  unfold MAX_CONNECTION_ATTEMPTS.
  induction envs as [|e rest IH]; intros s Hall Hlink Hc; cbv zeta.
  - cbn [List.length run Z.of_nat]. rewrite Z.add_0_r.
    rewrite Z.mod_small, Z.div_small by lia. cbn. repeat split; trivial; lia.
  - cbn [forallb] in Hall. apply andb_true_iff in Hall as [Hf Hrest].
    destruct (fails_stays_down e s Hf Hlink) as [Hdown Hko].
    rewrite run_cons_state, run_cons_trace, connects_app, slept_app.
    cbn [List.length]. rewrite Nat2Z.inj_succ.
    set (n := Z.of_nat (List.length rest)) in *.
    assert (Hn : 0 <= n) by (subst n; lia).
    destruct (Z.eq_dec (connectionAttempts s) 5) as [Hfive|Hbelow].
    + destruct (loop_long e s Hdown) as (Hcon & Hcount & Hlink' & Hd).
      { unfold MAX_CONNECTION_ATTEMPTS. lia. }
      destruct (IH (state_of (loop e s)) Hrest Hlink' ltac:(lia))
        as (IHc & IHl & IHcon & IHs).
      cbv zeta in *. fold n in IHc, IHcon, IHs.
      rewrite Hcount in *. rewrite Hfive.
      rewrite IHc, IHl, IHcon, IHs, Hcon.
      unfold slept. rewrite Hd. cbn [fold_right app].
      replace (5 + Z.succ n) with (n + 1 * 6) by lia.
      rewrite Z.mod_add, Z.div_add by lia.
      rewrite !Z.add_0_l.
      repeat split; try reflexivity.
      * f_equal. f_equal. lia.
      * lia.
    + destruct (loop_short e s Hdown) as (Hcon & Hcount & Hlink' & Hd).
      { unfold MAX_CONNECTION_ATTEMPTS. lia. }
      rewrite Hko in *.
      destruct (IH (state_of (loop e s)) Hrest Hlink' ltac:(lia))
        as (IHc & IHl & IHcon & IHs).
      cbv zeta in *. fold n in IHc, IHcon, IHs.
      rewrite Hcount in *.
      replace (connectionAttempts s + 1 + n) with (connectionAttempts s + Z.succ n)
        in * by lia.
      rewrite IHc, IHl, IHcon, IHs, Hcon.
      unfold slept. rewrite Hd. cbn [fold_right].
      assert (Hq : (connectionAttempts s + Z.succ n) / 6 <= n).
      { pose proof (Z.div_mod (connectionAttempts s + Z.succ n) 6 ltac:(lia)).
        pose proof (Z.mod_pos_bound (connectionAttempts s + Z.succ n) 6 ltac:(lia)).
        lia. }
      assert (Hq0 : 0 <= (connectionAttempts s + Z.succ n) / 6).
      { apply Z.div_pos; lia. }
      repeat split; try reflexivity.
      * replace (Z.succ n - (connectionAttempts s + Z.succ n) / 6)
          with (Z.succ (n - (connectionAttempts s + Z.succ n) / 6)) by lia.
        rewrite Z2Nat.inj_succ by lia. reflexivity.
      * lia.
Qed.

Lemma retry_cycle_witness :
  connectionAttempts (state_of (run (repeat env_fail 13) initial)) = 1 /\
  connects (trace_of (run (repeat env_fail 13) initial)) = repeat false 11 /\
  slept (trace_of (run (repeat env_fail 13) initial)) = 115000.
Proof.
  destruct (retry_cycle (repeat env_fail 13) initial) as (Hc & _ & Hcon & Hs).
  - reflexivity.
  - reflexivity.
  - unfold MAX_CONNECTION_ATTEMPTS. cbn. lia.
  - split; [exact Hc | split; [exact Hcon | exact Hs]].
Defined.

(** ** Frame buffers over runs *)

Lemma loop_camera_events e s :
  camera_events (trace_of (loop e s)) = [] \/
  camera_events (trace_of (loop e s)) = [FbGet None] \/
  exists fb, camera_events (trace_of (loop e s)) = [FbGet (Some fb); FbReturn fb].
Proof.
  rewrite loop_trace, camera_events_app.
  destruct (poll_run e s) as [b [_ Hq]]. rewrite (quiet_camera _ Hq). cbn [app].
  destruct (isConnected (after_poll e s)) eqn:Hc; cbn [negb].
  - run_blocks; cbn;
      first [ left; reflexivity
            | right; left; reflexivity
            | right; right; eexists; reflexivity ].
  - left.
    destruct (connectionAttempts (after_poll e s) <? MAX_CONNECTION_ATTEMPTS) eqn:Hn.
    + now destruct (reconnect_short e _ Hc Hn) as (_ & _ & _ & -> & _).
    + now destruct (reconnect_long e _ Hc Hn) as (_ & _ & _ & -> & _).
Qed.

(** X4. Over any number of iterations the sketch holds at most one frame
    buffer at a time and hands every buffer back before it asks for the
    next: in the sequence of camera calls of a run, each successful
    acquisition is directly followed by the release of the same buffer, and
    there is no other release. *)
Theorem run_never_leaks_a_frame :
  forall envs s, balanced (camera_events (trace_of (run envs s))).
Proof.
  induction envs as [|e rest IH]; intros s.
  - exact I.
  - rewrite run_cons_trace, camera_events_app.
    destruct (loop_camera_events e s) as [-> | [-> | [fb ->]]]; cbn.
    + apply IH.
    + apply IH.
    + split; [reflexivity | apply IH].
Qed.

(** ** The frame counter over runs *)

Lemma quiet_count t : forall n,
  Forall (fun e => quiet e = true) t -> frames_since_report n t = n.
Proof.
  unfold frames_since_report.
  induction t as [|e t IH]; intros n Hq; [reflexivity|].
  inversion Hq as [|? ? He Ht]; subst. cbn [fold_left].
  rewrite <- (IH n Ht) at 2. f_equal.
  destruct e as [x| | | |m ?| | | | |]; try discriminate; try reflexivity.
  destruct x; try discriminate; reflexivity.
Qed.

Lemma frames_since_report_app n t1 t2 :
  frames_since_report n (t1 ++ t2) =
  frames_since_report (frames_since_report n t1) t2.
Proof. apply fold_left_app. Qed.

Lemma reconnect_count e s n :
  isConnected s = false ->
  frames_since_report n (trace_of (reconnect e s)) = n /\
  frameCount (state_of (reconnect e s)) = frameCount s.
Proof.
  intros Hc. unfold reconnect, bind at 1 3, get.
  cbn -[connectWebSocket sendLog].
  destruct (connectionAttempts s <? MAX_CONNECTION_ATTEMPTS);
    unfold bind; rewrite sendLog_run, Hc; unfold connectWebSocket; cbn;
    [destruct (connect_ok e)|]; split; reflexivity.
Qed.

Lemma loop_count e s :
  frameCount (state_of (loop e s)) =
  frames_since_report (frameCount s) (trace_of (loop e s)).
Proof.
  rewrite loop_trace, loop_state, frames_since_report_app.
  destruct (poll_run e s) as [b [Hs Hq]]. rewrite (quiet_count _ _ Hq).
  destruct (isConnected (after_poll e s)) eqn:Hc; cbn [negb].
  - rewrite (after_poll_connected e s Hc).
    rewrite stream_trace, stream_state. cbv zeta. rewrite heartbeat_run.
    destruct (captured e) as [fb|];
      destruct (HEARTBEAT_INTERVAL <=? _);
      cbn [trace_of state_of value_of fst snd];
      rewrite ?send_frame_run, ?update_fps_run, ?pace_run; cbv zeta;
      cbn [lastFrameTime frameCount set_lastHeartbeat set_connectionAttempts
             set_isConnected isConnected];
      try destruct (1000 <=? ulong (ulong (clock_start e) - lastFrameTime s));
      cbn [trace_of state_of value_of fst snd];
      branch; reflexivity.
  - destruct (reconnect_count e (after_poll e s) (frameCount s) Hc) as [-> ->].
    rewrite Hs. reflexivity.
Qed.

(** X5. [frameCount] counts the frames released since the last frame-rate
    report: after any run, its value is obtained from its value before the
    run by adding one (as an [unsigned long]) at every release of a frame
    buffer and restarting from zero at every report. *)
Theorem frame_count_tracks_releases :
  forall envs s,
    frameCount (state_of (run envs s)) =
    frames_since_report (frameCount s) (trace_of (run envs s)).
Proof.
  induction envs as [|e rest IH]; intros s.
  - reflexivity.
  - rewrite run_cons_state, run_cons_trace, frames_since_report_app.
    rewrite IH, loop_count. reflexivity.
Qed.

(** ** What the two branches leave alone *)

(** X6. An iteration that finds the session disconnected changes only the
    connected flag and the attempt counter: the heartbeat timestamp, the
    window start, the frame count and the stored frame rate are as before,
    so the frame-rate window and the heartbeat schedule run on across an
    outage. *)
Theorem outage_keeps_statistics :
  forall e s,
    isConnected (after_poll e s) = false ->
    lastHeartbeat (state_of (loop e s)) = lastHeartbeat s /\
    lastFrameTime (state_of (loop e s)) = lastFrameTime s /\
    frameCount (state_of (loop e s)) = frameCount s /\
    fps (state_of (loop e s)) = fps s.
Proof.
  intros e s Hc. rewrite loop_state, Hc. cbn [negb].
  destruct (poll_run e s) as [b [Hs _]].
  destruct (connectionAttempts (after_poll e s) <? MAX_CONNECTION_ATTEMPTS) eqn:Hn.
  - destruct (reconnect_short e _ Hc Hn) as (-> & _). rewrite Hs.
    repeat split; reflexivity.
  - destruct (reconnect_long e _ Hc Hn) as (-> & _). rewrite Hs.
    repeat split; reflexivity.
Qed.

Lemma outage_keeps_statistics_witness :
  lastHeartbeat (state_of (loop env_drop connected_state)) = 0 /\
  lastFrameTime (state_of (loop env_drop connected_state)) = 0 /\
  frameCount (state_of (loop env_drop connected_state)) = 0 /\
  fps (state_of (loop env_drop connected_state)) = S754_zero false.
Proof.
  apply (outage_keeps_statistics env_drop connected_state). reflexivity.
Defined.

(** X7. An iteration that finds the session connected ends with the
    attempt counter at zero on every path, also when the capture fails and
    the iteration returns early; a connected iteration never performs a
    connect attempt. *)
Theorem connected_iteration_restores_budget :
  forall e s,
    isConnected (after_poll e s) = true ->
    connectionAttempts (state_of (loop e s)) = 0 /\
    connects (trace_of (loop e s)) = [] /\
    isConnected (state_of (loop e s)) = true.
Proof.
  intros e s Hc. rewrite loop_trace, loop_state, connects_app, Hc. cbn [negb].
  destruct (poll_run e s) as [b [_ Hq]]. rewrite (quiet_connects _ Hq). cbn [app].
  rewrite (after_poll_connected e s Hc).
  run_blocks; repeat split; reflexivity.
Qed.

Lemma connected_iteration_restores_budget_witness :
  connectionAttempts
    (state_of (loop (env_frame 1000 10) (set_connectionAttempts 3 connected_state))) = 0 /\
  connects
    (trace_of (loop (env_frame 1000 10) (set_connectionAttempts 3 connected_state))) = [] /\
  isConnected
    (state_of (loop (env_frame 1000 10) (set_connectionAttempts 3 connected_state))) = true.
Proof.
  apply (connected_iteration_restores_budget (env_frame 1000 10)
           (set_connectionAttempts 3 connected_state)).
  reflexivity.
Defined.

(** ** When the pacing code delays *)

Lemma pace_delay e currentTime s :
  let behind := ULONG_MODULUS - ulong (ulong (clock_end e) - currentTime) in
  trace_of (pace e currentTime s) = if behind <=? 33 then [Delay behind] else [].
Proof.
  cbv zeta. rewrite pace_run. cbv zeta. cbn [trace_of snd]. rewrite pace_elapsed.
  pose proof (ulong_range (ulong (clock_end e) - currentTime)) as Hr.
  set (el := ulong (ulong (clock_end e) - currentTime)) in *.
  unfold ULONG_MODULUS in *.
  destruct (2 ^ 32 - el <=? 33) eqn:Hb.
  - apply Z.leb_le in Hb.
    assert (Hw : ulong (el + 33) = el + 33 - 2 ^ 32).
    { unfold ulong, ULONG_MODULUS. symmetry.
      apply (Z.mod_unique _ _ 1); lia. }
    rewrite Hw.
    destruct (el + 33 - 2 ^ 32 <? 33) eqn:Hlt; [|apply Z.ltb_ge in Hlt; lia].
    f_equal. f_equal. replace (33 - (el + 33 - 2 ^ 32)) with (2 ^ 32 - el) by lia.
    apply ulong_small. unfold ULONG_MODULUS. lia.
  - apply Z.leb_gt in Hb.
    rewrite (ulong_small (el + 33)) by (unfold ULONG_MODULUS; lia).
    destruct (el + 33 <? 33) eqn:Hlt; [apply Z.ltb_lt in Hlt; lia | reflexivity].
Qed.

(** X8. The only delay a connected iteration can perform is the one of the
    pacing code, and the pacing code delays only when the clock reading at
    the end of the iteration is between 1 and 33 ms behind the reading at
    its start (as [unsigned long] values); it then delays by that amount.
    An iteration during which the clock advanced by less than 2^32 - 33 ms
    is not delayed at all, and neither is one whose capture failed. *)
Theorem pacing_delays_only_when_clock_is_behind :
  forall e s,
    isConnected (after_poll e s) = true ->
    let behind :=
      ULONG_MODULUS - ulong (ulong (clock_end e) - ulong (clock_start e)) in
    delays (trace_of (loop e s)) =
    match captured e with
    | Some _ => if behind <=? 33 then [behind] else []
    | None => []
    end.
Proof.
  intros e s Hc. cbv zeta. rewrite loop_trace, delays_app, Hc. cbn [negb].
  destruct (poll_run e s) as [b [_ Hq]]. rewrite (quiet_delays _ Hq). cbn [app].
  rewrite stream_trace. cbv zeta.
  rewrite delays_app.
  change (FbGet (captured e) :: ?l) with ([FbGet (captured e)] ++ l).
  rewrite delays_app.
  destruct (captured e) as [fb|].
  - change (FbReturn fb :: ?l) with ([FbReturn fb] ++ l).
    rewrite !delays_app, pace_delay. cbv zeta.
    rewrite heartbeat_run, send_frame_run.
    destruct (HEARTBEAT_INTERVAL <=? _);
      cbn [trace_of state_of value_of fst snd];
      rewrite update_fps_run; cbv zeta;
      destruct (ULONG_MODULUS - _ <=? 33); branch; reflexivity.
  - rewrite heartbeat_run. branch; reflexivity.
Qed.

Lemma pacing_delays_only_when_clock_is_behind_witness :
  delays (trace_of (loop (env_frame 1000 (-7)) connected_state)) = [7] /\
  delays (trace_of (loop (env_frame 1000 32) connected_state)) = [].
Proof.
  split.
  - apply (pacing_delays_only_when_clock_is_behind (env_frame 1000 (-7)) connected_state).
    reflexivity.
  - apply (pacing_delays_only_when_clock_is_behind (env_frame 1000 32) connected_state).
    reflexivity.
Defined.

(** ** Bounds on the reported frame rate *)

Lemma loop_fps_reports e s :
  let elapsed := ulong (ulong (clock_start e) - lastFrameTime s) in
  fps_reports (trace_of (loop e s)) = [] \/
  (1000 <= elapsed /\
   fps_reports (trace_of (loop e s)) =
     [measured_fps (ulong (frameCount s + 1)) elapsed]).
Proof.
  cbv zeta. rewrite loop_trace, fps_reports_app.
  destruct (poll_run e s) as [b [Hs Hq]]. rewrite (quiet_fps_reports _ Hq). cbn [app].
  destruct (isConnected (after_poll e s)) eqn:Hc; cbn [negb].
  - rewrite (after_poll_connected e s Hc).
    rewrite stream_trace. cbv zeta. rewrite heartbeat_run.
    destruct (captured e) as [fb|];
      destruct (HEARTBEAT_INTERVAL <=? _);
      cbn [trace_of state_of value_of fst snd];
      rewrite ?send_frame_run, ?update_fps_run, ?pace_run; cbv zeta;
      cbn [lastFrameTime frameCount set_lastHeartbeat set_connectionAttempts
             set_isConnected isConnected];
      try (destruct (1000 <=? ulong (ulong (clock_start e) - lastFrameTime s)) eqn:Hdue;
           [apply Z.leb_le in Hdue|]);
      cbn [trace_of state_of value_of fst snd];
      branch; first [left; reflexivity | right; split; [exact Hdue | reflexivity]].
  - left. apply reconnect_fps_reports. exact Hc.
Qed.

(** X9. A reported frame rate is a finite [float] that is not negative,
    never NaN and never an infinity: the sketch divides only when the
    window is at least 1000 ms long.  For the same reason the rate is never
    more than the rounding above the number of frames counted in the
    window: it is at most that number times 1 + 2^-22. *)
Theorem reported_fps_is_bounded_by_frame_count :
  forall e s,
    Forall (fun value =>
              finite_nonneg value = true /\
              (0 <= float_value value)%Q /\
              (float_value value <=
                 inject_Z (ulong (frameCount s + 1)) * (4194305 # 4194304))%Q)
           (fps_reports (trace_of (loop e s))).
Proof.
  intros e s. destruct (loop_fps_reports e s) as [-> | [Hdue ->]].
  - constructor.
  - constructor; [|constructor].
    pose proof (ulong_range (frameCount s + 1)) as Hf.
    pose proof (ulong_range (ulong (clock_start e) - lastFrameTime s)) as He.
    destruct (measured_fps_near (ulong (frameCount s + 1))
                (ulong (ulong (clock_start e) - lastFrameTime s)))
      as (Hfin & Hlo & Hhi); [exact Hf | lia |].
    set (frames := ulong (frameCount s + 1)) in *.
    set (elapsed := ulong (ulong (clock_start e) - lastFrameTime s)) in *.
    set (value := float_value (measured_fps frames elapsed)) in *.
    assert (Ha : (0 <= inject_Z frames)%Q).
    { replace 0%Q with (inject_Z 0) by reflexivity. rewrite <- Zle_Qle. lia. }
    assert (Hc : (0 < inject_Z elapsed)%Q).
    { replace 0%Q with (inject_Z 0) by reflexivity. rewrite <- Zlt_Qlt. lia. }
    assert (Hk : (1000 <= inject_Z elapsed)%Q).
    { change 1000%Q with (inject_Z 1000). rewrite <- Zle_Qle. exact Hdue. }
    assert (Hq : (0 <= inject_Z frames * 1000 / inject_Z elapsed)%Q).
    { apply Qle_shift_div_l; [exact Hc|]. lra. }
    assert (Hq' : (inject_Z frames * 1000 / inject_Z elapsed <= inject_Z frames)%Q).
    { apply Qle_shift_div_r; [exact Hc|]. nra. }
    split; [exact Hfin|]. split; lra.
Qed.

(** * Further properties of [test_connection_simple.cpp] *)

(** ** Text messages *)

Lemma substring_front (size : nat) : forall data token : string,
  substring 0 size data = token ->
  String.length token = size ->
  exists rest : string, data = (token ++ rest)%string.
Proof.
  induction size as [|size IH]; intros data token Hsub Hlen.
  - destruct token; [|discriminate]. exists data. reflexivity.
  - destruct data as [|c data]; cbn in Hsub.
    + subst token. discriminate.
    + destruct token as [|c' token]; [discriminate|].
      injection Hsub as <- Hsub. injection Hlen as Hlen.
      destruct (IH data token Hsub Hlen) as (rest & ->).
      exists rest. reflexivity.
Qed.

Lemma substring_occurs (position : nat) : forall (size : nat) (data token : string),
  substring position size data = token ->
  String.length token = size ->
  occurs_in token data.
Proof.
  induction position as [|position IH]; intros size data token Hsub Hlen.
  - destruct (substring_front size data token Hsub Hlen) as (rest & ->).
    exists EmptyString, rest. reflexivity.
  - destruct data as [|c data]; cbn in Hsub.
    + subst token. destruct size; [|discriminate].
      exists EmptyString, EmptyString. reflexivity.
    + destruct (IH size data token Hsub Hlen) as (before & rest & ->).
      exists (String c before), rest. reflexivity.
Qed.

(** [indexOf] finds a non-empty token exactly when it occurs. *)
Lemma indexOf_occurs (data token : string) :
  token <> EmptyString ->
  TestSimple.indexOf data token <> -1 <-> occurs_in token data.
Proof.
  intros Hne. split.
  - unfold TestSimple.indexOf.
    destruct (index 0 token data) as [position|] eqn:Hidx; [intros _ | congruence].
    apply (substring_occurs position (String.length token)); [|reflexivity].
    apply (index_correct1 0 position); exact Hidx.
  - intros (before & rest & ->). apply indexOf_found; exact Hne.
Qed.

Lemma text_message_run data ok s :
  let hit := (0 <? String.length data)%nat &&
             negb (TestSimple.isAuthenticated s) &&
             negb (TestSimple.indexOf data "connection_ack" =? -1) in
  state_of (TestSimple.onEventsCallback (TextMessage, data, ok) s) =
    (if hit then TestSimple.set_isAuthenticated true s else s) /\
  device_infos (trace_of (TestSimple.onEventsCallback (TextMessage, data, ok) s)) =
    (if hit then [WsSend JDeviceInfo ok] else []) /\
  transport_calls (trace_of (TestSimple.onEventsCallback (TextMessage, data, ok) s)) =
    (if hit then [WsSend JDeviceInfo ok] else []) /\
  Forall (fun e => handler_effect e = true)
         (trace_of (TestSimple.onEventsCallback (TextMessage, data, ok) s)).
Proof.
  cbv zeta. unfold TestSimple.onEventsCallback.
  destruct (0 <? String.length data)%nat; cbn [andb];
    [|repeat split; constructor].
  unfold bind, get, Serial_println, emit.
  destruct (TestSimple.isAuthenticated s) eqn:Hauth; cbn [negb andb];
    [destruct s; cbn in *; subst; repeat split; repeat constructor|].
  destruct (TestSimple.indexOf data "connection_ack" =? -1); cbn;
    destruct s; cbn in *; subst; repeat split; repeat constructor.
Qed.

(** X10. A text message changes the session exactly when the authenticated
    flag is clear and the text contains connection_ack: then the flag is set
    and one device-info message is sent.  In every other case (flag already
    set, token absent, empty text) the handler sends nothing to the
    transport and leaves both flags as they were. *)
Theorem text_message_authenticates_exactly_on_ack :
  forall data ok s,
    let r := TestSimple.onEventsCallback (TextMessage, data, ok) s in
    (device_infos (trace_of r) <> [] <->
     TestSimple.isAuthenticated s = false /\ occurs_in "connection_ack" data) /\
    (device_infos (trace_of r) <> [] ->
     device_infos (trace_of r) = [WsSend JDeviceInfo ok] /\
     state_of r = TestSimple.set_isAuthenticated true s) /\
    (device_infos (trace_of r) = [] ->
     transport_calls (trace_of r) = [] /\ state_of r = s).
Proof.
  intros data ok s. cbv zeta.
  destruct (text_message_run data ok s) as (Hs & Hi & Ht & _). cbv zeta in *.
  assert (Hne : "connection_ack"%string <> EmptyString) by discriminate.
  pose proof (indexOf_occurs data _ Hne) as Hocc.
  rewrite Hs, Hi, Ht.
  destruct (0 <? String.length data)%nat eqn:Hlen; cbn [andb].
  - destruct (TestSimple.isAuthenticated s) eqn:Hauth; cbn [negb andb].
    + repeat split; try congruence. intros [? _]. congruence.
    + destruct (TestSimple.indexOf data "connection_ack" =? -1) eqn:Hidx; cbn [negb].
      * apply Z.eqb_eq in Hidx. repeat split; try congruence.
        intros [_ Hin]. apply Hocc in Hin. congruence.
      * apply Z.eqb_neq in Hidx. repeat split; try congruence.
        apply Hocc. exact Hidx.
  - repeat split; try congruence. intros [_ (before & rest & ->)].
    rewrite (contains_nonempty before _ rest Hne) in Hlen. discriminate.
Qed.

Lemma text_message_authenticates_exactly_on_ack_witness :
  transport_calls
    (trace_of (TestSimple.onEventsCallback (TextMessage, "hello"%string, true)
                 awaiting_ack)) = [] /\
  state_of (TestSimple.onEventsCallback (TextMessage, "hello"%string, true)
              awaiting_ack) = awaiting_ack.
Proof.
  apply (proj2 (proj2 (text_message_authenticates_exactly_on_ack
                         "hello"%string true awaiting_ack))).
  reflexivity.
Defined.

(** ** The handler over a batch of events *)

Lemma device_infos_app t1 t2 :
  device_infos (t1 ++ t2) = device_infos t1 ++ device_infos t2.
Proof. apply flat_map_app. Qed.

Lemma session_event_cases event data ok s :
  link_of (event, data, ok) = None ->
  let r := TestSimple.onEventsCallback (event, data, ok) s in
  (state_of r = s /\ device_infos (trace_of r) = []) \/
  (TestSimple.isAuthenticated s = false /\
   state_of r = TestSimple.set_isAuthenticated true s /\
   device_infos (trace_of r) = [WsSend JDeviceInfo ok]).
Proof.
  intros Hlink. cbv zeta. destruct event; try discriminate.
  - left. split; reflexivity.
  - left. split; reflexivity.
  - destruct (text_message_run data ok s) as (Hs & Hi & _). cbv zeta in *.
    rewrite Hs, Hi.
    destruct (0 <? String.length data)%nat; cbn [andb]; [|left; split; reflexivity].
    destruct (TestSimple.isAuthenticated s) eqn:Hauth; cbn [negb andb];
      [left; split; reflexivity|].
    destruct (TestSimple.indexOf data "connection_ack" =? -1); cbn [negb];
      [left; split; reflexivity|].
    right. repeat split; reflexivity.
Qed.

(** X11. Within one session the device-info message is sent at most once.
    For any batch of events that neither opens nor closes the session, the
    handler sends at most one device-info message and never touches the
    connected flag; if the session was already authenticated it sends none
    and changes nothing; and whenever it sends one, the session ends up
    authenticated. *)
Theorem device_info_at_most_once_per_session :
  forall events s,
    Forall (fun ev => link_of ev = None) events ->
    let r := dispatch TestSimple.onEventsCallback events s in
    (List.length (device_infos (trace_of r)) <= 1)%nat /\
    TestSimple.isConnected (state_of r) = TestSimple.isConnected s /\
    (TestSimple.isAuthenticated s = true ->
     device_infos (trace_of r) = [] /\ state_of r = s) /\
    (device_infos (trace_of r) <> [] ->
     TestSimple.isAuthenticated (state_of r) = true).
Proof.
  induction events as [|[[event data] ok] rest IH]; intros s Hall; cbv zeta.
  - cbn. repeat split; auto; congruence.
  - inversion Hall as [|? ? Hev Hrest]; subst.
    cbn [dispatch]. rewrite bind_state, bind_trace, device_infos_app.
    destruct (session_event_cases event data ok s Hev) as [[Hs Hi] | (Hauth & Hs & Hi)];
      cbv zeta in *; rewrite Hs, Hi.
    + cbn [app]. apply IH. exact Hrest.
    + destruct (IH (TestSimple.set_isAuthenticated true s) Hrest)
        as (_ & Hconn & Hkeep & _).
      cbv zeta in *. destruct (Hkeep eq_refl) as [Hnone Hsame].
      rewrite Hnone, Hsame. cbn.
      repeat split; auto; congruence.
Qed.

Lemma device_info_at_most_once_per_session_witness :
  (List.length
     (device_infos
        (trace_of
           (dispatch TestSimple.onEventsCallback
              [(TextMessage, "connection_ack"%string, true);
               (GotPing, EmptyString, true);
               (TextMessage, "connection_ack again"%string, true)]
              awaiting_ack))) <= 1)%nat.
Proof.
  apply (device_info_at_most_once_per_session
           [(TextMessage, "connection_ack"%string, true);
            (GotPing, EmptyString, true);
            (TextMessage, "connection_ack again"%string, true)]
           awaiting_ack).
  repeat constructor.
Defined.

(** ** The loop of the test sketch *)

Lemma on_flags_state {A : Type} (m : M TestSimple.Globals A) st :
  state_of (TestSimpleSketch.on_flags m st) =
  TestSimpleSketch.mkState (state_of (m (TestSimpleSketch.flags st)))
    (TestSimpleSketch.lastHeartbeat st).
Proof.
  unfold TestSimpleSketch.on_flags.
  destruct (m (TestSimpleSketch.flags st)) as [[a g] t]. reflexivity.
Qed.

Lemma on_flags_trace {A : Type} (m : M TestSimple.Globals A) st :
  trace_of (TestSimpleSketch.on_flags m st) = trace_of (m (TestSimpleSketch.flags st)).
Proof.
  unfold TestSimpleSketch.on_flags.
  destruct (m (TestSimpleSketch.flags st)) as [[a g] t]. reflexivity.
Qed.

Lemma ts_after_poll_clock e st :
  TestSimpleSketch.lastHeartbeat (TestSimpleSketch.after_poll e st) =
  TestSimpleSketch.lastHeartbeat st.
Proof. unfold TestSimpleSketch.after_poll. rewrite on_flags_state. reflexivity. Qed.

Lemma ts_connect_run wifi ok g :
  TestSimpleSketch.connectWebSocket wifi ok g =
  (tt,
   if wifi
   then if ok then TestSimple.mkGlobals true false
        else TestSimple.set_isConnected false g
   else g,
   if wifi
   then [SerialOut (Lit "Connecting to WebSocket..."); WsAddHeader "Authorization";
         WsConnect ok;
         SerialOut (Lit (if ok then "WebSocket connected!"
                         else "WebSocket connection failed!"))]
   else [SerialOut (Lit "WiFi not connected!")]).
Proof. destruct wifi, ok; reflexivity. Qed.

(** The heartbeat block of the test loop, as a trace. *)
Lemma ts_loop_trace e st :
  let st1 := TestSimpleSketch.after_poll e st in
  let due := 10000 <? ulong (ulong (TestSimpleSketch.clock_check e) -
                             TestSimpleSketch.lastHeartbeat st) in
  trace_of (TestSimpleSketch.loop e st) =
  trace_of (client_poll TestSimple.onEventsCallback (TestSimpleSketch.polled e)
              (TestSimpleSketch.flags st)) ++
  (if TestSimpleSketch.isConnected st1
   then (if due && TestSimpleSketch.isAuthenticated st1
         then [WsSend (JHeartbeat (ulong (TestSimpleSketch.clock_stamp e)))
                 (TestSimpleSketch.heartbeat_ok e);
               SerialOut (Lit "Heartbeat sent")]
         else []) ++ [Delay 100]
   else SerialOut (Lit "Reconnecting...") ::
        trace_of (TestSimpleSketch.connectWebSocket (TestSimpleSketch.wifi_up e)
                    (TestSimpleSketch.connect_ok e) (TestSimpleSketch.flags st1)) ++
        [Delay 5000]).
Proof.
  cbv zeta. unfold TestSimpleSketch.loop.
  rewrite bind_trace; cbv beta. rewrite on_flags_trace. f_equal.
  fold (TestSimpleSketch.after_poll e st).
  rewrite <- (ts_after_poll_clock e st).
  set (st1 := TestSimpleSketch.after_poll e st).
  unfold bind at 1, get at 1. cbn [fst snd].
  destruct (TestSimpleSketch.isConnected st1) eqn:Hc; cbn [negb].
  - unfold bind, get, millis, ret, modify, delay, emit, client_send, Serial_println.
    cbn [fst snd trace_of app].
    destruct (10000 <? _); cbn [andb];
      [destruct (TestSimpleSketch.isAuthenticated st1)|]; reflexivity.
  - unfold bind at 1 2. unfold Serial_println at 1, emit at 1. cbn [fst snd].
    destruct (TestSimpleSketch.on_flags _ st1) as [[u st2] t2] eqn:Hrun.
    pose proof (on_flags_trace
                  (TestSimpleSketch.connectWebSocket (TestSimpleSketch.wifi_up e)
                     (TestSimpleSketch.connect_ok e)) st1) as Ht.
    rewrite Hrun in Ht. cbn [trace_of snd] in Ht. rewrite <- Ht.
    reflexivity.
Qed.

Lemma ts_loop_state e st :
  let st1 := TestSimpleSketch.after_poll e st in
  let due := 10000 <? ulong (ulong (TestSimpleSketch.clock_check e) -
                             TestSimpleSketch.lastHeartbeat st) in
  state_of (TestSimpleSketch.loop e st) =
  if TestSimpleSketch.isConnected st1
  then if due
       then TestSimpleSketch.set_lastHeartbeat
              (ulong (TestSimpleSketch.clock_record e)) st1
       else st1
  else TestSimpleSketch.mkState
         (state_of (TestSimpleSketch.connectWebSocket (TestSimpleSketch.wifi_up e)
                      (TestSimpleSketch.connect_ok e) (TestSimpleSketch.flags st1)))
         (TestSimpleSketch.lastHeartbeat st).
Proof.
  cbv zeta. unfold TestSimpleSketch.loop.
  rewrite bind_state; cbv beta.
  fold (TestSimpleSketch.after_poll e st).
  rewrite <- (ts_after_poll_clock e st).
  set (st1 := TestSimpleSketch.after_poll e st).
  unfold bind at 1, get at 1. cbn [fst snd].
  destruct (TestSimpleSketch.isConnected st1) eqn:Hc; cbn [negb].
  - unfold bind, get, millis, ret, modify, delay, emit, client_send, Serial_println.
    cbn [fst snd state_of app].
    destruct (10000 <? _);
      [destruct (TestSimpleSketch.isAuthenticated st1)|]; reflexivity.
  - unfold bind at 1 2. unfold Serial_println at 1, emit at 1. cbn [fst snd].
    destruct (TestSimpleSketch.on_flags _ st1) as [[u st2] t2] eqn:Hrun.
    pose proof (on_flags_state
                  (TestSimpleSketch.connectWebSocket (TestSimpleSketch.wifi_up e)
                     (TestSimpleSketch.connect_ok e)) st1) as Hs.
    rewrite Hrun in Hs. cbn [state_of fst snd] in Hs. rewrite <- Hs.
    reflexivity.
Qed.

Lemma handler_flat_map {A : Type} (f : Effect -> list A) (t : list Effect) :
  (forall e, handler_effect e = true -> f e = []) ->
  Forall (fun e => handler_effect e = true) t -> flat_map f t = [].
Proof.
  intros Hf Ht; induction Ht as [|e t He _ IH]; cbn; [reflexivity|].
  now rewrite (Hf e He), IH.
Qed.

Lemma handler_delays t :
  Forall (fun e => handler_effect e = true) t -> delays t = [].
Proof. apply handler_flat_map; quiet_cases. Qed.

Lemma handler_connects t :
  Forall (fun e => handler_effect e = true) t -> connects t = [].
Proof. apply handler_flat_map; quiet_cases. Qed.

Lemma handler_heartbeats t :
  Forall (fun e => handler_effect e = true) t -> heartbeats t = [].
Proof. apply handler_flat_map; quiet_cases. Qed.

Lemma ts_callback_effects ev s :
  Forall (fun e => handler_effect e = true)
         (trace_of (TestSimple.onEventsCallback ev s)).
Proof.
  destruct ev as [[event data] ok]. destruct event;
    try (cbn; repeat constructor).
  apply (text_message_run data ok s).
Qed.

Lemma ts_dispatch_effects events : forall s,
  Forall (fun e => handler_effect e = true)
         (trace_of (dispatch TestSimple.onEventsCallback events s)).
Proof.
  induction events as [|ev rest IH]; intros s.
  - constructor.
  - cbn [dispatch]. rewrite bind_trace. apply Forall_app. split.
    + apply ts_callback_effects.
    + apply IH.
Qed.

Lemma ts_poll_effects events s :
  Forall (fun e => handler_effect e = true)
         (trace_of (client_poll TestSimple.onEventsCallback events s)).
Proof.
  unfold client_poll. rewrite bind_trace. apply Forall_app. split.
  - repeat constructor.
  - apply ts_dispatch_effects.
Qed.

(** X12. An iteration of the test loop that finds the session disconnected
    prints, calls [connectWebSocket] and waits 5000 ms.  It attempts a
    connect only when WiFi is up; without WiFi the flags stay as the poll
    left them.  It sends no heartbeat and leaves the heartbeat timestamp
    alone.  The session is connected afterwards exactly when WiFi was up and
    the connect succeeded, and a session opened this way is never taken as
    authenticated. *)
Theorem test_loop_reconnects_when_disconnected :
  forall e st,
    TestSimpleSketch.isConnected (TestSimpleSketch.after_poll e st) = false ->
    let r := TestSimpleSketch.loop e st in
    delays (trace_of r) = [5000] /\
    connects (trace_of r) =
      (if TestSimpleSketch.wifi_up e then [TestSimpleSketch.connect_ok e] else []) /\
    heartbeats (trace_of r) = [] /\
    TestSimpleSketch.lastHeartbeat (state_of r) = TestSimpleSketch.lastHeartbeat st /\
    TestSimpleSketch.isConnected (state_of r) =
      TestSimpleSketch.wifi_up e && TestSimpleSketch.connect_ok e /\
    (TestSimpleSketch.wifi_up e = false ->
     TestSimpleSketch.flags (state_of r) =
     TestSimpleSketch.flags (TestSimpleSketch.after_poll e st)) /\
    (TestSimpleSketch.isConnected (state_of r) = true ->
     TestSimpleSketch.isAuthenticated (state_of r) = false).
Proof.
  intros e st Hc. cbv zeta.
  pose proof (ts_loop_trace e st) as Ht. pose proof (ts_loop_state e st) as Hs.
  cbv zeta in Ht, Hs. rewrite Hc in Ht, Hs. rewrite Ht, Hs.
  pose proof (ts_poll_effects (TestSimpleSketch.polled e) (TestSimpleSketch.flags st))
    as Hq.
  rewrite delays_app, connects_app, heartbeats_app.
  rewrite (handler_delays _ Hq), (handler_connects _ Hq), (handler_heartbeats _ Hq).
  rewrite ts_connect_run. cbn [trace_of state_of fst snd app].
  unfold TestSimpleSketch.isConnected, TestSimpleSketch.isAuthenticated in *.
  cbn [TestSimpleSketch.flags TestSimpleSketch.lastHeartbeat].
  destruct (TestSimpleSketch.wifi_up e), (TestSimpleSketch.connect_ok e);
    cbn; repeat split; try reflexivity; try congruence.
Qed.

Lemma test_loop_reconnects_when_disconnected_witness :
  delays (trace_of (TestSimpleSketch.loop (ts_idle 0) ts_boot)) = [5000] /\
  connects (trace_of (TestSimpleSketch.loop (ts_idle 0) ts_boot)) = [true] /\
  heartbeats (trace_of (TestSimpleSketch.loop (ts_idle 0) ts_boot)) = [].
Proof.
  destruct (test_loop_reconnects_when_disconnected (ts_idle 0) ts_boot)
    as (Hd & Hc & Hh & _).
  - reflexivity.
  - split; [exact Hd | split; [exact Hc | exact Hh]].
Defined.

(** X13. An iteration of the test loop that finds the session connected
    makes no connect attempt, changes no flag and ends with a 100 ms delay.
    It sends a heartbeat exactly when more than 10000 ms (not 10000 ms
    itself) have passed since the recorded timestamp, by the wrap-around
    difference, and the session is authenticated.  The timestamp is
    re-recorded whenever the interval has passed, also when the heartbeat is
    withheld because the session is not authenticated; it is taken from a
    later clock reading than the one sent in the message. *)
Theorem test_loop_heartbeat_rule :
  forall e st,
    TestSimpleSketch.isConnected (TestSimpleSketch.after_poll e st) = true ->
    let r := TestSimpleSketch.loop e st in
    let due := 10000 <? ulong (ulong (TestSimpleSketch.clock_check e) -
                               TestSimpleSketch.lastHeartbeat st) in
    heartbeats (trace_of r) =
      (if due && TestSimpleSketch.isAuthenticated (TestSimpleSketch.after_poll e st)
       then [ulong (TestSimpleSketch.clock_stamp e)] else []) /\
    TestSimpleSketch.lastHeartbeat (state_of r) =
      (if due then ulong (TestSimpleSketch.clock_record e)
       else TestSimpleSketch.lastHeartbeat st) /\
    delays (trace_of r) = [100] /\
    connects (trace_of r) = [] /\
    TestSimpleSketch.flags (state_of r) =
      TestSimpleSketch.flags (TestSimpleSketch.after_poll e st).
Proof.
  intros e st Hc. cbv zeta.
  pose proof (ts_loop_trace e st) as Ht. pose proof (ts_loop_state e st) as Hs.
  cbv zeta in Ht, Hs. rewrite Hc in Ht, Hs. rewrite Ht, Hs.
  pose proof (ts_poll_effects (TestSimpleSketch.polled e) (TestSimpleSketch.flags st))
    as Hq.
  rewrite delays_app, connects_app, heartbeats_app.
  rewrite (handler_delays _ Hq), (handler_connects _ Hq), (handler_heartbeats _ Hq).
  pose proof (ts_after_poll_clock e st) as Hclock.
  destruct (10000 <? _); cbn [andb];
    [destruct (TestSimpleSketch.isAuthenticated (TestSimpleSketch.after_poll e st))|];
    cbn; repeat split; try reflexivity; exact Hclock.
Qed.

Lemma test_loop_heartbeat_rule_witness :
  heartbeats
    (trace_of (TestSimpleSketch.loop (ts_ack 10001) ts_open)) = [10002] /\
  heartbeats
    (trace_of (TestSimpleSketch.loop (ts_ack 10000) ts_open)) = [].
Proof.
  split.
  - apply (test_loop_heartbeat_rule (ts_ack 10001) ts_open). reflexivity.
  - apply (test_loop_heartbeat_rule (ts_ack 10000) ts_open). reflexivity.
Defined.

(** ** Heartbeats and the acknowledgment over runs of the test loop *)

Lemma ack_after_app t1 : forall a t2,
  ack_after a (t1 ++ t2) = ack_after (ack_after a t1) t2.
Proof.
  induction t1 as [|e t1 IH]; intros a t2; [reflexivity|].
  destruct e as [| | | |m ?| | | | |]; cbn; try apply IH.
  destruct m; apply IH.
Qed.

Lemma ack_after_true t : ack_after true t = true.
Proof.
  induction t as [|e t IH]; [reflexivity|].
  destruct e as [| | | |m ?| | | | |]; cbn; try exact IH.
  destruct m; exact IH.
Qed.

Lemma follow_app t1 : forall a t2,
  heartbeats_follow_ack a (t1 ++ t2) =
  heartbeats_follow_ack a t1 && heartbeats_follow_ack (ack_after a t1) t2.
Proof.
  induction t1 as [|e t1 IH]; intros a t2; [reflexivity|].
  destruct e as [| | | |m ?| | | | |]; cbn; try apply IH.
  destruct m; cbn; try apply IH.
  rewrite IH. destruct a; reflexivity.
Qed.

Lemma handler_follow t : forall a,
  Forall (fun e => handler_effect e = true) t -> heartbeats_follow_ack a t = true.
Proof.
  induction t as [|e t IH]; intros a Hq; [reflexivity|].
  inversion Hq as [|? ? He Ht]; subst.
  destruct e as [x| | | |m ?| | | | |]; try discriminate; cbn; try (apply IH; exact Ht).
  destruct m; try discriminate. apply IH; exact Ht.
Qed.

Lemma device_info_acks t : forall a,
  device_infos t <> [] -> ack_after a t = true.
Proof.
  induction t as [|e t IH]; intros a Hne; [exfalso; apply Hne; reflexivity|].
  destruct e as [| | | |m ?| | | | |]; cbn in *; try (apply IH; exact Hne).
  destruct m; cbn in *; try (apply IH; exact Hne).
  apply ack_after_true.
Qed.

Lemma ack_after_keeps a t : a = true -> ack_after a t = true.
Proof. intros ->. apply ack_after_true. Qed.

Lemma ts_callback_ack ev s a :
  (TestSimple.isAuthenticated s = true -> a = true) ->
  TestSimple.isAuthenticated (state_of (TestSimple.onEventsCallback ev s)) = true ->
  ack_after a (trace_of (TestSimple.onEventsCallback ev s)) = true.
Proof.
  intros Hinv. destruct ev as [[event data] ok]. destruct event.
  - cbn. discriminate.
  - cbn. discriminate.
  - cbn. exact Hinv.
  - cbn. exact Hinv.
  - destruct (text_message_run data ok s) as (Hs & Hi & _). cbv zeta in *.
    rewrite Hs.
    destruct ((0 <? String.length data)%nat && negb (TestSimple.isAuthenticated s) &&
              negb (TestSimple.indexOf data "connection_ack" =? -1)).
    + intros _. apply device_info_acks. rewrite Hi. discriminate.
    + intros Hauth. apply ack_after_keeps, Hinv, Hauth.
Qed.

Lemma ts_dispatch_ack events : forall s a,
  (TestSimple.isAuthenticated s = true -> a = true) ->
  TestSimple.isAuthenticated
    (state_of (dispatch TestSimple.onEventsCallback events s)) = true ->
  ack_after a (trace_of (dispatch TestSimple.onEventsCallback events s)) = true.
Proof.
  induction events as [|ev rest IH]; intros s a Hinv.
  - cbn. exact Hinv.
  - cbn [dispatch]. rewrite bind_state, bind_trace, ack_after_app.
    apply IH. apply ts_callback_ack. exact Hinv.
Qed.

Lemma ts_loop_ack e st a :
  (TestSimpleSketch.isAuthenticated st = true -> a = true) ->
  heartbeats_follow_ack a (trace_of (TestSimpleSketch.loop e st)) = true /\
  (TestSimpleSketch.isAuthenticated (state_of (TestSimpleSketch.loop e st)) = true ->
   ack_after a (trace_of (TestSimpleSketch.loop e st)) = true).
Proof.
  intros Hinv.
  pose proof (ts_loop_trace e st) as Ht. pose proof (ts_loop_state e st) as Hs.
  cbv zeta in Ht, Hs. rewrite Ht, Hs. clear Ht Hs.
  pose proof (ts_poll_effects (TestSimpleSketch.polled e) (TestSimpleSketch.flags st))
    as Hq.
  rewrite follow_app, ack_after_app, (handler_follow _ _ Hq). cbn [andb].
  assert (Hpoll : TestSimpleSketch.isAuthenticated (TestSimpleSketch.after_poll e st) = true ->
                  ack_after a (trace_of (client_poll TestSimple.onEventsCallback
                                           (TestSimpleSketch.polled e)
                                           (TestSimpleSketch.flags st))) = true).
  { unfold TestSimpleSketch.after_poll, TestSimpleSketch.isAuthenticated.
    rewrite on_flags_state. cbn [TestSimpleSketch.flags].
    unfold client_poll. rewrite bind_state, bind_trace.
    cbn [emit trace_of state_of value_of fst snd app ack_after].
    apply ts_dispatch_ack. exact Hinv. }
  set (a1 := ack_after a _) in *.
  set (st1 := TestSimpleSketch.after_poll e st) in *.
  destruct (TestSimpleSketch.isConnected st1).
  - destruct (10000 <? _); cbn [andb].
    + destruct (TestSimpleSketch.isAuthenticated st1) eqn:Hauth.
      * rewrite (Hpoll eq_refl). cbn. split; reflexivity.
      * cbn. split; [reflexivity|]. unfold TestSimpleSketch.isAuthenticated in *.
        cbn. intros H. congruence.
    + cbn. split; [reflexivity|]. exact Hpoll.
  - rewrite ts_connect_run. cbn [trace_of state_of fst snd].
    unfold TestSimpleSketch.isAuthenticated in *. cbn [TestSimpleSketch.flags].
    destruct (TestSimpleSketch.wifi_up e), (TestSimpleSketch.connect_ok e);
      cbn; split; try reflexivity; try discriminate; exact Hpoll.
Qed.

Lemma ts_run_cons_trace e rest st :
  trace_of (TestSimpleSketch.run (e :: rest) st) =
  trace_of (TestSimpleSketch.loop e st) ++
  trace_of (TestSimpleSketch.run rest (state_of (TestSimpleSketch.loop e st))).
Proof. cbn [TestSimpleSketch.run]. rewrite bind_trace. reflexivity. Qed.

Lemma ts_run_ack envs : forall st a,
  (TestSimpleSketch.isAuthenticated st = true -> a = true) ->
  heartbeats_follow_ack a (trace_of (TestSimpleSketch.run envs st)) = true.
Proof.
  induction envs as [|e rest IH]; intros st a Hinv.
  - reflexivity.
  - rewrite ts_run_cons_trace, follow_app.
    destruct (ts_loop_ack e st a Hinv) as [-> Hnext]. cbn [andb].
    apply IH. exact Hnext.
Qed.

(** X14. The test sketch sends no heartbeat before the server has
    acknowledged the session: in any run of its loop that starts
    unauthenticated, every heartbeat on the transport comes after a
    device-info message, which the handler sends only on receiving the
    acknowledgment. *)
Theorem no_heartbeat_before_acknowledgment :
  forall envs st,
    TestSimpleSketch.isAuthenticated st = false ->
    heartbeats_follow_ack false (trace_of (TestSimpleSketch.run envs st)) = true.
Proof.
  intros envs st Hauth. apply ts_run_ack. congruence.
Qed.

Lemma no_heartbeat_before_acknowledgment_witness :
  heartbeats_follow_ack false
    (trace_of (TestSimpleSketch.run [ts_idle 0; ts_idle 20000; ts_ack 40000] ts_boot))
  = true /\
  heartbeats
    (trace_of (TestSimpleSketch.run [ts_idle 0; ts_idle 20000; ts_ack 40000] ts_boot))
  = [40001].
Proof.
  split; [|reflexivity].
  apply (no_heartbeat_before_acknowledgment
           [ts_idle 0; ts_idle 20000; ts_ack 40000] ts_boot).
  reflexivity.
Defined.

(** * Properties of [setup] of [main.cpp] *)

Lemma sketch_calls_app t1 t2 :
  sketch_calls (t1 ++ t2) = sketch_calls t1 ++ sketch_calls t2.
Proof. apply flat_map_app. Qed.

Lemma sketch_calls_map t : sketch_calls (map Sketch t) = t.
Proof. induction t as [|e t IH]; cbn; [reflexivity | now rewrite IH]. Qed.

Lemma waits_calls n :
  delays (sketch_calls (MainSetup.waits n)) = repeat 500 n /\
  transport_calls (sketch_calls (MainSetup.waits n)) = [] /\
  registrations (MainSetup.waits n) = [].
Proof.
  induction n as [|n (IHd & IHt & IHr)]; cbn; [repeat split|].
  fold sketch_calls delays transport_calls registrations.
  rewrite IHd, IHt, IHr. repeat split.
Qed.

Lemma slept_repeat d n : fold_right Z.add 0 (repeat d n) = d * Z.of_nat n.
Proof.
  induction n as [|n IH]; [cbn; lia|].
  cbn [repeat fold_right]. rewrite IH. lia.
Qed.

Lemma sends_app t1 t2 : sends (t1 ++ t2) = sends t1 ++ sends t2.
Proof. apply flat_map_app. Qed.

Lemma transport_calls_app t1 t2 :
  transport_calls (t1 ++ t2) = transport_calls t1 ++ transport_calls t2.
Proof. apply flat_map_app. Qed.

Lemma waits_quiet n :
  connects (sketch_calls (MainSetup.waits n)) = [] /\
  sends (sketch_calls (MainSetup.waits n)) = [] /\
  wifi_begins (MainSetup.waits n) = [].
Proof.
  induction n as [|n (IHc & IHs & IHw)]; cbn; [repeat split|].
  fold sketch_calls connects sends wifi_begins.
  rewrite IHc, IHs, IHw. repeat split.
Qed.

(** The waiting loop is left at the first evaluation of its guard that
    finds WiFi associated, provided the budget reaches that far. *)
Lemma wait_for_wifi_leaves status : forall n k budget,
  (forall j, (j < n)%nat -> status (k + j)%nat = false) ->
  status (k + n)%nat = true ->
  (n < budget)%nat ->
  MainSetup.wait_for_wifi status k budget = (true, n).
Proof.
  induction n as [|n IH]; intros k budget Hbefore Hat Hlt;
    (destruct budget as [|budget]; [lia|]); cbn [MainSetup.wait_for_wifi].
  - rewrite Nat.add_0_r in Hat. rewrite Hat. reflexivity.
  - pose proof (Hbefore O ltac:(lia)) as H0. rewrite Nat.add_0_r in H0. rewrite H0.
    rewrite (IH (S k) budget); [reflexivity| | |lia].
    + intros j Hj. replace (S k + j)%nat with (k + S j)%nat by lia.
      apply Hbefore. lia.
    + replace (S k + n)%nat with (k + S n)%nat by lia. exact Hat.
Qed.

(** As long as WiFi is not associated, the loop goes on. *)
Lemma wait_for_wifi_stays status : forall budget k,
  (forall j, (j < budget)%nat -> status (k + j)%nat = false) ->
  MainSetup.wait_for_wifi status k budget = (false, budget).
Proof.
  induction budget as [|budget IH]; intros k Hnone; cbn [MainSetup.wait_for_wifi].
  - reflexivity.
  - pose proof (Hnone O ltac:(lia)) as H0. rewrite Nat.add_0_r in H0. rewrite H0.
    rewrite (IH (S k)); [reflexivity|].
    intros j Hj. replace (S k + j)%nat with (k + S j)%nat by lia.
    apply Hnone. lia.
Qed.

Lemma associates_at_spec status n :
  MainSetup.associates_at status n = true ->
  status n = true /\ forall j, (j < n)%nat -> status j = false.
Proof.
  unfold MainSetup.associates_at. intros H.
  apply andb_true_iff in H. destruct H as [Hat Hbefore]. split; [exact Hat|].
  intros j Hj. rewrite forallb_forall in Hbefore.
  apply negb_true_iff. apply Hbefore. apply in_seq. lia.
Qed.

(** The connect and the first log message of [setup]. *)
Lemma setup_tail_run connected hello ok s :
  let r := (connectWebSocket connected hello ;;
            sendLog (Lit "ESP32CAM initialized successfully") ok) s in
  state_of r = set_isConnected connected s /\
  connects (trace_of r) = [connected] /\
  delays (trace_of r) = [] /\
  sends (trace_of r) =
    (if connected
     then [WsSend JConnection hello;
           WsSend (JLog (Lit "ESP32CAM initialized successfully")) ok]
     else []).
Proof.
  cbv zeta. rewrite bind_state, bind_trace, sendLog_run.
  unfold connectWebSocket. destruct connected; cbn; repeat split; reflexivity.
Qed.

(** X15. When the camera fails to initialise, [setup] stops there: it
    reports the error on the serial port and returns with the globals
    untouched, without starting WiFi, without registering the event
    callback, without waiting and without any call to the WebSocket
    client. *)
Theorem setup_stops_when_camera_fails :
  forall e budget s,
    MainSetup.camera_err e <> ESP_OK ->
    exists calls,
      MainSetup.setup e budget s = MainSetup.Returned s calls /\
      wifi_begins calls = [] /\
      registrations calls = [] /\
      delays (sketch_calls calls) = [] /\
      transport_calls (sketch_calls calls) = [].
Proof.
  intros e budget s Herr. unfold MainSetup.setup.
  apply Z.eqb_neq in Herr. rewrite Herr. cbn [negb].
  destruct (MainSetup.psram e); eexists; repeat split; reflexivity.
Qed.

Lemma setup_stops_when_camera_fails_witness :
  exists calls,
    MainSetup.setup boot_no_camera 0 initial = MainSetup.Returned initial calls /\
    wifi_begins calls = [] /\
    registrations calls = [] /\
    delays (sketch_calls calls) = [] /\
    transport_calls (sketch_calls calls) = [].
Proof.
  apply (setup_stops_when_camera_fails boot_no_camera 0 initial).
  unfold ESP_OK. cbn. lia.
Defined.

Lemma wifi_begins_app t1 t2 : wifi_begins (t1 ++ t2) = wifi_begins t1 ++ wifi_begins t2.
Proof. apply flat_map_app. Qed.

Lemma registrations_app t1 t2 :
  registrations (t1 ++ t2) = registrations t1 ++ registrations t2.
Proof. apply flat_map_app. Qed.

Lemma sketch_only t :
  wifi_begins (map Sketch t) = [] /\ registrations (map Sketch t) = [].
Proof. induction t as [|e t [IHw IHr]]; cbn; [split; reflexivity | split; assumption]. Qed.

(** A start-up whose camera initialises and whose WiFi associates at the
    [n]-th evaluation of the guard returns, given the budget for it. *)
Lemma setup_returns e s n budget :
  MainSetup.camera_err e = ESP_OK ->
  MainSetup.associates_at (MainSetup.wifi_status e) n = true ->
  (n < budget)%nat ->
  let r := (connectWebSocket (MainSetup.connect_ok e) (MainSetup.hello_ok e) ;;
            sendLog (Lit "ESP32CAM initialized successfully") (MainSetup.log_ok e)) s in
  exists frame_size fb_count,
    MainSetup.setup e budget s =
    MainSetup.Returned (state_of r)
      ([SerialBegin 9600; say EmptyString;
        CameraInit frame_size 15 fb_count (MainSetup.camera_err e);
        SensorSet "brightness" 0; SensorSet "contrast" 0; SensorSet "saturation" 0;
        SensorSet "vflip" 0; SensorSet "hmirror" 1;
        WifiBegin; say "Connecting to WiFi"] ++
       MainSetup.waits n ++
       [say EmptyString; say "WiFi connected"; say "ESP32-CAM IP: "; SerialPrintIP;
        WsOnEvent] ++
       map Sketch (trace_of r)).
Proof.
  intros Herr Hat Hlt. cbv zeta. unfold MainSetup.setup.
  apply Z.eqb_eq in Herr. rewrite Herr. cbn [negb].
  destruct (associates_at_spec _ _ Hat) as [Hn Hbefore].
  rewrite (wait_for_wifi_leaves (MainSetup.wifi_status e) n 0 budget);
    [|exact Hbefore|exact Hn|exact Hlt].
  destruct (MainSetup.psram e); do 2 eexists; reflexivity.
Qed.

(** A start-up whose camera initialises is in the waiting loop as long as
    WiFi is not associated. *)
Lemma setup_waits e s budget :
  MainSetup.camera_err e = ESP_OK ->
  (forall k, (k < budget)%nat -> MainSetup.wifi_status e k = false) ->
  exists frame_size fb_count,
    MainSetup.setup e budget s =
    MainSetup.Waiting
      ([SerialBegin 9600; say EmptyString;
        CameraInit frame_size 15 fb_count (MainSetup.camera_err e);
        SensorSet "brightness" 0; SensorSet "contrast" 0; SensorSet "saturation" 0;
        SensorSet "vflip" 0; SensorSet "hmirror" 1;
        WifiBegin; say "Connecting to WiFi"] ++
       MainSetup.waits budget).
Proof.
  intros Herr Hnone. unfold MainSetup.setup.
  apply Z.eqb_eq in Herr. rewrite Herr. cbn [negb].
  rewrite (wait_for_wifi_stays (MainSetup.wifi_status e) budget 0 Hnone).
  destruct (MainSetup.psram e); do 2 eexists; reflexivity.
Qed.

(** X16. When the camera initialises, [setup] starts WiFi once and then
    waits for WiFi without limit, 500 ms for every evaluation of the guard
    that finds WiFi not associated.  If WiFi is first found associated at
    the [n]-th evaluation, [setup] returns after [n] waits: it registers the
    event callback once and then makes exactly one connect attempt; the
    connected flag is the result of that attempt and the attempt counter is
    not touched; if the attempt succeeds, the connection message and then
    the initialised log message are sent to the server, and if it fails,
    nothing is sent.  As long as WiFi is not associated, [setup] is still
    in the loop, having slept 500 ms per evaluation, with no callback
    registered and no call made to the WebSocket client; so when WiFi never
    associates, [setup] never returns and never attempts to connect. *)
Theorem setup_connects_once_after_wifi :
  forall e s,
    MainSetup.camera_err e = ESP_OK ->
    (forall n budget,
        MainSetup.associates_at (MainSetup.wifi_status e) n = true ->
        (n < budget)%nat ->
        exists calls,
          MainSetup.setup e budget s =
            MainSetup.Returned (set_isConnected (MainSetup.connect_ok e) s) calls /\
          wifi_begins calls = [WifiBegin] /\
          slept (sketch_calls calls) = 500 * Z.of_nat n /\
          registrations calls = [WsOnEvent] /\
          connects (sketch_calls calls) = [MainSetup.connect_ok e] /\
          sends (sketch_calls calls) =
            (if MainSetup.connect_ok e
             then [WsSend JConnection (MainSetup.hello_ok e);
                   WsSend (JLog (Lit "ESP32CAM initialized successfully"))
                     (MainSetup.log_ok e)]
             else [])) /\
    (forall budget,
        (forall k, (k < budget)%nat -> MainSetup.wifi_status e k = false) ->
        exists calls,
          MainSetup.setup e budget s = MainSetup.Waiting calls /\
          wifi_begins calls = [WifiBegin] /\
          slept (sketch_calls calls) = 500 * Z.of_nat budget /\
          registrations calls = [] /\
          transport_calls (sketch_calls calls) = []).
Proof.
  intros e s Herr. split.
  - intros n budget Hat Hlt.
    destruct (setup_returns e s n budget Herr Hat Hlt) as (fs & fc & Hrun).
    cbv zeta in Hrun.
    destruct (setup_tail_run (MainSetup.connect_ok e) (MainSetup.hello_ok e)
                (MainSetup.log_ok e) s) as (Hs & Hc & Hd & Hm).
    cbv zeta in *.
    destruct (waits_calls n) as (Wd & _ & Wr).
    destruct (waits_quiet n) as (Wc & Ws & Ww).
    destruct (sketch_only
                (trace_of ((connectWebSocket (MainSetup.connect_ok e) (MainSetup.hello_ok e) ;;
                            sendLog (Lit "ESP32CAM initialized successfully")
                              (MainSetup.log_ok e)) s))) as (Kw & Kr).
    rewrite Hs in Hrun. eexists. split; [exact Hrun|].
    unfold slept.
    rewrite !wifi_begins_app, !registrations_app, !sketch_calls_app, sketch_calls_map.
    rewrite !delays_app, !connects_app, !sends_app.
    rewrite Wd, Wr, Wc, Ws, Ww, Hc, Hd, Hm, Kw, Kr.
    rewrite !app_nil_r. cbn. rewrite slept_repeat.
    repeat split; reflexivity.
  - intros budget Hnone.
    destruct (setup_waits e s budget Herr Hnone) as (fs & fc & Hrun).
    destruct (waits_calls budget) as (Wd & Wt & Wr).
    destruct (waits_quiet budget) as (_ & _ & Ww).
    eexists. split; [exact Hrun|].
    unfold slept.
    rewrite !wifi_begins_app, !registrations_app, !sketch_calls_app.
    rewrite !delays_app, !transport_calls_app.
    rewrite Wd, Wt, Wr, Ww. cbn. rewrite slept_repeat.
    repeat split; reflexivity.
Qed.

Lemma setup_connects_once_after_wifi_witness :
  (exists calls,
      MainSetup.setup boot_offline 4 initial = MainSetup.Returned initial calls /\
      slept (sketch_calls calls) = 1500 /\
      connects (sketch_calls calls) = [false] /\
      sends (sketch_calls calls) = []) /\
  (exists calls,
      MainSetup.setup boot_no_wifi 100 initial = MainSetup.Waiting calls /\
      slept (sketch_calls calls) = 50000 /\
      registrations calls = [] /\
      transport_calls (sketch_calls calls) = []).
Proof.
  split.
  - destruct (setup_connects_once_after_wifi boot_offline initial) as [Hret _].
    + reflexivity.
    + destruct (Hret 3%nat 4%nat) as (calls & Hrun & _ & Hs & _ & Hc & Hm).
      * reflexivity.
      * lia.
      * exists calls. repeat split; assumption.
  - destruct (setup_connects_once_after_wifi boot_no_wifi initial) as [_ Hwait].
    + reflexivity.
    + destruct (Hwait 100%nat) as (calls & Hrun & _ & Hs & Hr & Ht).
      * intros k _. reflexivity.
      * exists calls. repeat split; assumption.
Defined.

(** X17. The connect attempt of [setup] is not counted against the limit
    of five.  After a start-up whose connect fails, five further failing
    iterations of [loop] each make an attempt after a short wait only, so
    the server sees six failed attempts in a row before the sketch takes its
    first 30000 ms wait. *)
Theorem setup_attempt_is_not_counted :
  forall e envs n budget,
    MainSetup.camera_err e = ESP_OK ->
    MainSetup.associates_at (MainSetup.wifi_status e) n = true ->
    (n < budget)%nat ->
    MainSetup.connect_ok e = false ->
    forallb fails envs = true ->
    List.length envs = 5%nat ->
    exists boot calls,
      MainSetup.setup e budget initial = MainSetup.Returned boot calls /\
      connectionAttempts boot = 0 /\
      connects (sketch_calls calls) ++ connects (trace_of (run envs boot)) =
        [false; false; false; false; false; false] /\
      delays (trace_of (run envs boot)) = [5000; 5000; 5000; 5000; 5000] /\
      connectionAttempts (state_of (run envs boot)) = MAX_CONNECTION_ATTEMPTS.
Proof.
  intros e envs n budget Herr Hat Hlt Hko Hall Hlen.
  destruct (setup_returns e initial n budget Herr Hat Hlt) as (fs & fc & Hrun).
  cbv zeta in Hrun.
  destruct (setup_tail_run (MainSetup.connect_ok e) (MainSetup.hello_ok e)
              (MainSetup.log_ok e) initial) as (Hs & Hc & _).
  cbv zeta in *.
  destruct (waits_quiet n) as (Wc & _).
  rewrite Hs in Hrun. do 2 eexists. split; [exact Hrun|].
  rewrite !sketch_calls_app, sketch_calls_map, !connects_app, Wc, Hc, Hko.
  change (set_isConnected false initial) with initial.
  destruct (failures_count_up envs initial Hall) as (Hcon & Hd & Hn & _).
  - reflexivity.
  - cbn. lia.
  - rewrite Hlen. unfold MAX_CONNECTION_ATTEMPTS. cbn. lia.
  - rewrite Hcon, Hd, Hn, Hlen. repeat split; reflexivity.
Qed.

Lemma setup_attempt_is_not_counted_witness :
  exists boot calls,
    MainSetup.setup boot_offline 4 initial = MainSetup.Returned boot calls /\
    connects (sketch_calls calls) ++ connects (trace_of (run (repeat env_fail 5) boot)) =
      [false; false; false; false; false; false].
Proof.
  destruct (setup_attempt_is_not_counted boot_offline (repeat env_fail 5) 3 4)
    as (boot & calls & Hrun & _ & Hc & _); try reflexivity.
  - lia.
  - exists boot, calls. split; assumption.
Defined.

(** * Properties of [test_connection.cpp] *)

Lemma dbind_some {A B : Type} (m : Diag.D A) (k : A -> Diag.D B) s r :
  Diag.dbind m k s = Some r ->
  exists a s1 t1 b s2 t2,
    m s = Some (a, s1, t1) /\ k a s1 = Some (b, s2, t2) /\ r = (b, s2, t1 ++ t2).
Proof.
  unfold Diag.dbind. destruct (m s) as [[[a s1] t1]|] eqn:Hm; [|discriminate].
  destruct (k a s1) as [[[b s2] t2]|] eqn:Hk; [|discriminate].
  intros H. injection H as <-.
  exists a, s1, t1, b, s2, t2. repeat split; [exact Hk].
Qed.

Lemma dbind_run {A B : Type} (m : Diag.D A) (k : A -> Diag.D B) s a s1 t1 :
  m s = Some (a, s1, t1) ->
  Diag.dbind m k s =
  match k a s1 with
  | None => None
  | Some (b, s2, t2) => Some (b, s2, t1 ++ t2)
  end.
Proof. unfold Diag.dbind. intros ->. reflexivity. Qed.

Lemma acquisitions_app t1 t2 :
  acquisitions (t1 ++ t2) = acquisitions t1 ++ acquisitions t2.
Proof. apply flat_map_app. Qed.

(** ** The ten captures of the performance test *)

Lemma captured_among_step frames first count :
  captured_among frames first (S count) =
  (match frames first with Some _ => 1 | None => 0 end) +
  captured_among frames (S first) count.
Proof.
  unfold captured_among. cbn [seq filter].
  destruct (frames first); cbn [List.length]; lia.
Qed.



(** ** The camera test *)

(** X19. The camera test always completes and leaves the globals alone.  It
    initialises the camera once.  If the initialisation fails it never asks
    for a frame; otherwise it asks for one frame and, if it gets one, hands
    it back.  It reports success exactly when the initialisation returned
    ESP_OK and the capture delivered a frame. *)
Theorem camera_test_result :
  forall e s,
    exists t,
      Diag.testCamera e s =
        Some ((Diag.camera_err e =? ESP_OK) &&
              match Diag.capture e with Some _ => true | None => false end,
              s, t) /\
      camera_inits t = [CameraInit "FRAMESIZE_VGA" 80 2 (Diag.camera_err e)] /\
      camera_events (sketch_calls t) =
        (if Diag.camera_err e =? ESP_OK
         then match Diag.capture e with
              | Some fb => [FbGet (Some fb); FbReturn fb]
              | None => [FbGet None]
              end
         else []) /\
      transport_calls (sketch_calls t) = [].
Proof.
  intros e s. unfold Diag.testCamera.
  destruct (Diag.camera_err e =? ESP_OK); cbn [negb andb];
    [destruct (Diag.capture e) as [fb|]|];
    eexists; (split; [reflexivity|]); repeat split; reflexivity.
Qed.

Lemma memory_test_run e s :
  exists t, Diag.testMemory e s = Some (tt, s, t) /\
            sketch_calls t =
              SerialOut (Lit "=== Testing Memory ===") ::
              (if Diag.free_heap e <? 50000
               then [SerialOut (Lit "WARNING: Low heap memory!")] else []) ++
              (if Diag.largest_block e <? 10000
               then [SerialOut (Lit "WARNING: Memory fragmentation detected!")]
               else []).
Proof.
  unfold Diag.testMemory.
  destruct (Diag.free_heap e <? 50000), (Diag.largest_block e <? 10000);
    eexists; split; reflexivity.
Qed.

(** ** The callback of the diagnostic sketch *)

(** An event that carries the acknowledgment, as the callback tests it. *)
Lemma test_callback_run event data ok s :
  let acks := match event with
              | ConnectionOpened | ConnectionClosed => false
              | _ => (0 <? String.length data)%nat &&
                     negb (TestSimple.indexOf data "connection_ack" =? -1)
              end in
  exists core,
    Diag.onTestEventsCallback (event, data, ok) s =
      Some (tt,
            match event with
            | ConnectionClosed => Diag.mkGlobals false false
            | _ => if acks then Diag.set_authenticated true s else s
            end, map Sketch core) /\
    transport_calls core = [] /\
    delays core = [].
Proof.
  cbv zeta. destruct event; cbn [Diag.onTestEventsCallback].
  - exists [SerialOut (Lit "Test WebSocket connection opened")]. repeat split.
  - exists [SerialOut (Lit "Test WebSocket connection closed")]. repeat split.
  - destruct (0 <? String.length data)%nat; cbn [andb];
      [|exists []; repeat split].
    destruct (TestSimple.indexOf data "connection_ack" =? -1); cbn [negb];
      exists [SerialOut (Lit ("Received: " ++ data))]; repeat split.
  - destruct (0 <? String.length data)%nat; cbn [andb];
      [|exists []; repeat split].
    destruct (TestSimple.indexOf data "connection_ack" =? -1); cbn [negb];
      exists [SerialOut (Lit ("Received: " ++ data))]; repeat split.
  - destruct (0 <? String.length data)%nat; cbn [andb];
      [|exists []; repeat split].
    destruct (TestSimple.indexOf data "connection_ack" =? -1); cbn [negb];
      exists [SerialOut (Lit ("Received: " ++ data))]; repeat split.
Qed.

Lemma deliver_run events : forall s,
  exists s' core,
    Diag.deliver events s = Some (tt, s', map Sketch core) /\
    transport_calls core = [] /\
    delays core = [] /\
    Diag.test_connected s' = Diag.test_connected s && negb (existsb is_close events) /\
    (existsb is_close events = false ->
     Diag.test_authenticated s' =
       Diag.test_authenticated s || existsb carries_ack events).
Proof.
  induction events as [|[[event data] ok] rest IH]; intros s.
  - exists s, []. cbn. rewrite andb_true_r, orb_false_r. repeat split; reflexivity.
  - destruct (test_callback_run event data ok s) as (t1 & Hrun1 & Ht1 & Hd1).
    cbv zeta in Hrun1.
    match type of Hrun1 with _ = Some (_, ?x, _) => set (s1 := x) in * end.
    destruct (IH s1) as (s' & t2 & Hrun2 & Ht2 & Hd2 & Hconn & Hauth).
    exists s', (t1 ++ t2). split; [|split; [|split; [|split]]].
    + cbn [Diag.deliver]. rewrite (dbind_run _ _ s tt s1 _ Hrun1), Hrun2.
      rewrite map_app. reflexivity.
    + rewrite transport_calls_app, Ht1, Ht2. reflexivity.
    + rewrite delays_app, Hd1, Hd2. reflexivity.
    + rewrite Hconn. cbn [existsb]. subst s1.
      destruct event; cbn [is_close orb negb];
        try (destruct (_ && _); reflexivity);
        try reflexivity.
      cbn. rewrite andb_false_r. reflexivity.
    + cbn [existsb]. intros Hclose. apply orb_false_iff in Hclose as [Hev Hrest].
      rewrite (Hauth Hrest). subst s1.
      destruct event; cbn [carries_ack is_close] in *; try discriminate;
        try (destruct (_ && _); cbn; try reflexivity;
             destruct (Diag.test_authenticated s); reflexivity);
        reflexivity.
Qed.



(** ** The two waiting loops *)

Lemma polls_app t1 t2 : polls (t1 ++ t2) = polls t1 ++ polls t2.
Proof. apply flat_map_app. Qed.

Lemma no_transport_no_polls t : transport_calls t = [] -> polls t = [].
Proof.
  induction t as [|e t IH]; [reflexivity|].
  destruct e; cbn; try discriminate; exact IH.
Qed.

Lemma wifi_wait_cons start associated now rest :
  Diag.wifi_wait start ((associated, now) :: rest) =
  if negb associated && (ulong (ulong now - start) <? 10000)
  then Diag.dbind (Diag.pause 500)
         (fun _ => Diag.dbind (Diag.print ".") (fun _ => Diag.wifi_wait start rest))
  else Diag.dret tt.
Proof. reflexivity. Qed.

Lemma wifi_wait_run start : forall rest associated now s,
  0 <= start <= now -> now < ULONG_MODULUS ->
  spaced_from 500 now (map snd rest) ->
  10500 - (now - start) <= 500 * (1 + Z.of_nat (List.length rest)) ->
  exists k core,
    Diag.wifi_wait start ((associated, now) :: rest) s = Some (tt, s, map Sketch core) /\
    delays core = repeat 500 k /\
    transport_calls core = [] /\
    (now - start < 10000 -> 500 * Z.of_nat k <= 10000 - (now - start) + 499) /\
    (10000 <= now - start -> k = 0%nat).
Proof.
  induction rest as [|[associated' now'] rest IH]; intros associated now s Hs Hn Hsp Hlen.
  - (* the last reading: the loop must stop here *)
    cbn [List.length Z.of_nat] in Hlen.
    exists 0%nat, []. cbn [Diag.wifi_wait].
    rewrite (ulong_small now) by lia. rewrite (ulong_small (now - start)) by lia.
    destruct (ulong_small 0 ltac:(unfold ULONG_MODULUS; lia)).
    assert (Hge : (now - start <? 10000) = false) by (apply Z.ltb_ge; lia).
    rewrite Hge, andb_false_r. repeat split; try reflexivity; lia.
  - cbn [map snd spaced_from] in Hsp. destruct Hsp as [Hnext Hsp].
    cbn [List.length] in Hlen. rewrite Nat2Z.inj_succ in Hlen.
    rewrite (wifi_wait_cons start associated now).
    rewrite (ulong_small now) by lia. rewrite (ulong_small (now - start)) by lia.
    destruct (negb associated && (now - start <? 10000)) eqn:Hgo.
    + apply andb_true_iff in Hgo as [_ Hlt]. apply Z.ltb_lt in Hlt.
      destruct (IH associated' now' s ltac:(lia) ltac:(lia) Hsp ltac:(lia))
        as (k & core & Hrun & Hd & Ht & Hlo & Hhi).
      exists (S k), (Delay 500 :: SerialOut (Lit ".") :: core).
      split; [|split; [|split; [|split]]].
      * rewrite (dbind_run _ _ s tt s [Sketch (Delay 500)]) by reflexivity.
        rewrite (dbind_run _ _ s tt s [say "."]) by reflexivity.
        rewrite Hrun. reflexivity.
      * cbn. fold delays. rewrite Hd. reflexivity.
      * cbn. fold transport_calls. exact Ht.
      * intros _. rewrite Nat2Z.inj_succ.
        destruct (Z_lt_ge_dec (now' - start) 10000) as [Hin|Hout].
        -- specialize (Hlo Hin). lia.
        -- rewrite (Hhi ltac:(lia)). lia.
      * intros Hout. lia.
    + exists 0%nat, []. repeat split; try reflexivity; intros; lia.
Qed.



Lemma auth_wait_cons start now events rest :
  Diag.auth_wait start ((now, events) :: rest) =
  if ulong (ulong now - start) <? 5000
  then Diag.dbind (Diag.poll events)
         (fun _ => Diag.dbind (Diag.pause 100) (fun _ => Diag.auth_wait start rest))
  else Diag.dret tt.
Proof. reflexivity. Qed.

Lemma no_transport_no_connects t : transport_calls t = [] -> connects t = [].
Proof.
  induction t as [|e t IH]; [reflexivity|].
  destruct e; cbn; try discriminate; exact IH.
Qed.

Lemma poll_run_diag events s :
  exists s' core,
    Diag.poll events s = Some (tt, s', map Sketch (WsPoll :: core)) /\
    transport_calls core = [] /\ delays core = [] /\
    Diag.deliver events s = Some (tt, s', map Sketch core).
Proof.
  destruct (deliver_run events s) as (s' & core & Hrun & Ht & Hd & _).
  exists s', core. repeat split; try assumption.
  unfold Diag.poll.
  rewrite (dbind_run _ _ s tt s [Sketch WsPoll]) by reflexivity.
  rewrite Hrun. reflexivity.
Qed.

Lemma auth_wait_run start : forall rest now events s,
  0 <= start <= now -> now < ULONG_MODULUS ->
  spaced_from 100 now (map fst rest) ->
  5100 - (now - start) <= 100 * (1 + Z.of_nat (List.length rest)) ->
  exists k s' core,
    Diag.auth_wait start ((now, events) :: rest) s = Some (tt, s', map Sketch core) /\
    List.length (polls core) = k /\
    delays core = repeat 100 k /\
    connects core = [] /\
    (now - start < 5000 -> 100 * Z.of_nat k <= 5000 - (now - start) + 99) /\
    (5000 <= now - start -> k = 0%nat).
Proof.
  induction rest as [|[now' events'] rest IH]; intros now events s Hs Hn Hsp Hlen.
  - cbn [List.length Z.of_nat] in Hlen.
    exists 0%nat, s, []. rewrite auth_wait_cons.
    rewrite (ulong_small now) by lia. rewrite (ulong_small (now - start)) by lia.
    assert (Hge : (now - start <? 5000) = false) by (apply Z.ltb_ge; lia).
    rewrite Hge. repeat split; try reflexivity; lia.
  - cbn [map fst spaced_from] in Hsp. destruct Hsp as [Hnext Hsp].
    cbn [List.length] in Hlen. rewrite Nat2Z.inj_succ in Hlen.
    rewrite (auth_wait_cons start now events).
    rewrite (ulong_small now) by lia. rewrite (ulong_small (now - start)) by lia.
    destruct (now - start <? 5000) eqn:Hgo.
    + apply Z.ltb_lt in Hgo.
      destruct (poll_run_diag events s) as (s1 & pcore & Hpoll & Hpt & Hpd & _).
      destruct (IH now' events' s1 ltac:(lia) ltac:(lia) Hsp ltac:(lia))
        as (k & s' & core & Hrun & Hp & Hd & Hc & Hlo & Hhi).
      exists (S k), s', ((WsPoll :: pcore) ++ Delay 100 :: core).
      split; [|split; [|split; [|split; [|split]]]].
      * rewrite (dbind_run _ _ s tt s1 _ Hpoll).
        rewrite (dbind_run _ _ s1 tt s1 [Sketch (Delay 100)]) by reflexivity.
        rewrite Hrun. rewrite map_app. reflexivity.
      * rewrite polls_app. cbn [polls flat_map poll_of app List.length].
        fold polls. rewrite (no_transport_no_polls _ Hpt). cbn. rewrite Hp. reflexivity.
      * rewrite delays_app. cbn [delays flat_map delay_of app].
        fold delays. rewrite Hpd, Hd. reflexivity.
      * rewrite connects_app. cbn [connects flat_map connect_of app].
        fold connects. rewrite (no_transport_no_connects _ Hpt), Hc. reflexivity.
      * intros _. rewrite Nat2Z.inj_succ.
        destruct (Z_lt_ge_dec (now' - start) 5000) as [Hin|Hout].
        -- specialize (Hlo Hin). lia.
        -- rewrite (Hhi ltac:(lia)). lia.
      * intros Hout. lia.
    + exists 0%nat, s, []. repeat split; try reflexivity; intros; lia.
Qed.

(** X22. The authentication test.  Without a connected session it fails at
    once: it sends nothing, polls nothing and leaves the globals alone.
    With a connected session it sends the test message once and then polls
    the client and sleeps 100 ms in turns; if the clock advances by at least
    100 ms between two evaluations of the loop test, it returns after at
    most fifty polls and at most 5000 ms of sleep, without any connect
    attempt, and its result is the authenticated flag as the polled events
    left it. *)
Theorem authentication_test_polls_for_five_seconds :
  (forall e s,
      Diag.test_connected s = false ->
      exists t,
        Diag.testAuthentication e s = Some (false, s, t) /\
        test_sends t = [] /\
        transport_calls (sketch_calls t) = []) /\
  (forall e s,
      Diag.test_connected s = true ->
      advancing 100 (ulong (Diag.auth_start e)) (map fst (Diag.auth_rounds e)) ->
      (51 <= List.length (Diag.auth_rounds e))%nat ->
      exists s' t,
        Diag.testAuthentication e s = Some (Diag.test_authenticated s', s', t) /\
        test_sends t = [WsSendTest (Diag.auth_send_ok e)] /\
        (List.length (polls (sketch_calls t)) <= 50)%nat /\
        List.length (delays (sketch_calls t)) = List.length (polls (sketch_calls t)) /\
        slept (sketch_calls t) <= 5000 /\
        connects (sketch_calls t) = []).
Proof.
  split.
  - intros e s Hc. unfold Diag.testAuthentication.
    rewrite (dbind_run _ _ s tt s [say "=== Testing Authentication ==="]) by reflexivity.
    rewrite (dbind_run _ _ s false s []) by (unfold Diag.read; now rewrite Hc).
    cbn. eexists. repeat split.
  - intros e s Hc Hadv Hlen.
    destruct (Diag.auth_rounds e) as [|[now events] rest] eqn:Hrounds;
      [cbn in Hlen; lia|].
    cbn [map fst advancing] in Hadv. destruct Hadv as [Hfirst Hsp].
    pose proof (ulong_range (Diag.auth_start e)) as Hstart.
    cbn [List.length] in Hlen.
    destruct (auth_wait_run (ulong (Diag.auth_start e)) rest now events s)
      as (k & s' & core & Hrun & Hp & Hd & Hcon & Hlo & Hhi); try lia; try exact Hsp.
    assert (Hk : (k <= 50)%nat).
    { destruct (Z_lt_ge_dec (now - ulong (Diag.auth_start e)) 5000) as [Hin|Hout].
      - specialize (Hlo Hin). lia.
      - rewrite (Hhi ltac:(lia)). lia. }
    exists s'.
    exists ([say "=== Testing Authentication ==="] ++ [] ++
            [WsSendTest (Diag.auth_send_ok e)] ++ map Sketch core ++ [] ++
            [say (if Diag.test_authenticated s' then "Authentication successful!"
                  else "Authentication failed!")]).
    split; [|split; [|split; [|split; [|split]]]].
    + unfold Diag.testAuthentication. rewrite Hrounds.
      rewrite (dbind_run _ _ s tt s [say "=== Testing Authentication ==="]) by reflexivity.
      rewrite (dbind_run _ _ s true s []) by (unfold Diag.read; now rewrite Hc).
      cbn [negb].
      rewrite (dbind_run _ _ s tt s [WsSendTest (Diag.auth_send_ok e)]) by reflexivity.
      rewrite (dbind_run _ _ s tt s' (map Sketch core) Hrun).
      rewrite (dbind_run _ _ s' (Diag.test_authenticated s') s' []) by reflexivity.
      destruct (Diag.test_authenticated s'); reflexivity.
    + unfold test_sends. rewrite !flat_map_app.
      assert (Hnone : flat_map test_send_of (map Sketch core) = []).
      { clear. induction core as [|x l IH]; [reflexivity | exact IH]. }
      rewrite Hnone. reflexivity.
    + rewrite !sketch_calls_app, sketch_calls_map, !polls_app. cbn.
      rewrite app_nil_r, Hp. exact Hk.
    + rewrite !sketch_calls_app, sketch_calls_map, !polls_app, !delays_app. cbn.
      rewrite !app_nil_r, Hp, Hd, repeat_length. reflexivity.
    + unfold slept. rewrite !sketch_calls_app, sketch_calls_map, !delays_app. cbn.
      rewrite app_nil_r, Hd, slept_repeat. lia.
    + rewrite !sketch_calls_app, sketch_calls_map, !connects_app. cbn.
      rewrite app_nil_r. exact Hcon.
Qed.

Lemma authentication_test_polls_for_five_seconds_witness :
  (exists t, Diag.testAuthentication diag_silent_server Diag.initial =
             Some (false, Diag.initial, t)) /\
  (exists s' t,
      Diag.testAuthentication diag_silent_server (Diag.set_connected true Diag.initial) =
        Some (Diag.test_authenticated s', s', t) /\
      (List.length (polls (sketch_calls t)) <= 50)%nat).
Proof.
  destruct authentication_test_polls_for_five_seconds as [Hoff Hon]. split.
  - destruct (Hoff diag_silent_server Diag.initial) as (t & Hrun & _).
    + reflexivity.
    + exists t. exact Hrun.
  - destruct (Hon diag_silent_server (Diag.set_connected true Diag.initial))
      as (s' & t & Hrun & _ & Hp & _).
    + reflexivity.
    + unfold ULONG_MODULUS. cbn. lia.
    + cbn. lia.
    + exists s', t. split; [exact Hrun | exact Hp].
Defined.

(** ** The verdict of the diagnostic sketch *)

Lemma closes_app t1 t2 : closes (t1 ++ t2) = closes t1 ++ closes t2.
Proof. apply flat_map_app. Qed.

Lemma camera_inits_app t1 t2 :
  camera_inits (t1 ++ t2) = camera_inits t1 ++ camera_inits t2.
Proof. apply flat_map_app. Qed.

Lemma sketch_inert core :
  closes (map Sketch core) = [] /\ camera_inits (map Sketch core) = [].
Proof. induction core as [|x l IH]; [split; reflexivity | exact IH]. Qed.

Lemma wifi_wait_inv start rounds : forall s r,
  Diag.wifi_wait start rounds s = Some r ->
  exists core, r = (tt, s, map Sketch core) /\ transport_calls core = [].
Proof.
  induction rounds as [|[associated now] rest IH]; intros s r Hrun.
  - discriminate.
  - rewrite wifi_wait_cons in Hrun.
    destruct (negb associated && (ulong (ulong now - start) <? 10000)).
    + rewrite (dbind_run _ _ s tt s [Sketch (Delay 500)]) in Hrun by reflexivity.
      rewrite (dbind_run _ _ s tt s [say "."]) in Hrun by reflexivity.
      destruct (Diag.wifi_wait start rest s) as [r'|] eqn:Hrest; [|discriminate].
      destruct (IH s r' Hrest) as (core & -> & Ht).
      injection Hrun as <-.
      exists (Delay 500 :: SerialOut (Lit ".") :: core). split; [reflexivity|].
      cbn. exact Ht.
    + injection Hrun as <-. exists []. split; reflexivity.
Qed.

Lemma wifi_test_inv e s r :
  Diag.testWiFiConnection e s = Some r ->
  exists t, r = (Diag.wifi_final e, s, t) /\
            closes t = [] /\ camera_inits t = [] /\
            connects (sketch_calls t) = [] /\ wifi_begins t = [WifiBegin].
Proof.
  unfold Diag.testWiFiConnection. intros Hrun.
  rewrite (dbind_run _ _ s tt s [say "=== Testing WiFi Connection ==="]) in Hrun
    by reflexivity.
  rewrite (dbind_run _ _ s tt s [WifiBegin]) in Hrun by reflexivity.
  destruct (Diag.dbind (Diag.wifi_wait _ _) _ s) as [[[b s2] t2]|] eqn:Hwait;
    [|discriminate].
  injection Hrun as <-.
  apply dbind_some in Hwait as (u & s1 & t1 & b' & s2' & t2' & Hw & Hk & Heq).
  destruct (wifi_wait_inv _ _ _ _ Hw) as (core & Hr & Ht).
  injection Hr as -> -> ->. injection Heq as -> -> ->.
  destruct (sketch_inert core) as [Hcl Hci].
  destruct (sketch_only core) as [Hwb _].
  pose proof (no_transport_no_connects _ Ht) as Hco.
  exists ([say "=== Testing WiFi Connection ==="] ++ [WifiBegin] ++ map Sketch core ++
          (if Diag.wifi_final e
           then [say "\nWiFi connected successfully!"; say "IP address: "; SerialPrintIP;
                 say "Signal strength: "; SerialPrintRSSI]
           else [say "\nWiFi connection failed!"])).
  split; [|split; [|split; [|split]]].
  - destruct (Diag.wifi_final e); cbn in Hk; injection Hk as <- <- <-; reflexivity.
  - rewrite !closes_app, Hcl. destruct (Diag.wifi_final e); reflexivity.
  - rewrite !camera_inits_app, Hci. destruct (Diag.wifi_final e); reflexivity.
  - rewrite !sketch_calls_app, !connects_app, sketch_calls_map, Hco.
    destruct (Diag.wifi_final e); reflexivity.
  - rewrite !wifi_begins_app, Hwb. destruct (Diag.wifi_final e); reflexivity.
Qed.

Lemma websocket_test_run e s :
  exists t,
    Diag.testWebSocketConnection e s =
      Some (Diag.ws_connect_ok e,
            if Diag.ws_connect_ok e then Diag.set_connected true s else s, t) /\
    closes t = [] /\ camera_inits t = [] /\
    connects (sketch_calls t) = [Diag.ws_connect_ok e] /\ wifi_begins t = [].
Proof.
  unfold Diag.testWebSocketConnection.
  destruct (Diag.ws_connect_ok e); eexists; (split; [reflexivity|]);
    repeat split; reflexivity.
Qed.

Lemma auth_wait_inv start rounds : forall s r,
  Diag.auth_wait start rounds s = Some r ->
  exists s' core, r = (tt, s', map Sketch core) /\ connects core = [].
Proof.
  induction rounds as [|[now events] rest IH]; intros s r Hrun.
  - discriminate.
  - rewrite auth_wait_cons in Hrun.
    destruct (ulong (ulong now - start) <? 5000).
    + destruct (poll_run_diag events s) as (s1 & pcore & Hpoll & Hpt & _ & _).
      rewrite (dbind_run _ _ s tt s1 _ Hpoll) in Hrun.
      rewrite (dbind_run _ _ s1 tt s1 [Sketch (Delay 100)]) in Hrun by reflexivity.
      destruct (Diag.auth_wait start rest s1) as [r'|] eqn:Hrest; [|discriminate].
      destruct (IH s1 r' Hrest) as (s' & core & -> & Hc).
      injection Hrun as <-.
      exists s', ((WsPoll :: pcore) ++ Delay 100 :: core). split.
      * rewrite map_app. reflexivity.
      * rewrite connects_app. cbn [connects flat_map connect_of app]. fold connects.
        rewrite (no_transport_no_connects _ Hpt), Hc. reflexivity.
    + injection Hrun as <-. exists s, []. split; reflexivity.
Qed.

Lemma auth_test_inv e s r :
  Diag.testAuthentication e s = Some r ->
  exists s' t,
    r = (Diag.test_connected s && Diag.test_authenticated s', s', t) /\
    (Diag.test_connected s = false -> s' = s) /\
    closes t = [] /\ camera_inits t = [] /\
    connects (sketch_calls t) = [] /\ wifi_begins t = [].
Proof.
  unfold Diag.testAuthentication. intros Hrun.
  rewrite (dbind_run _ _ s tt s [say "=== Testing Authentication ==="]) in Hrun
    by reflexivity.
  rewrite (dbind_run _ _ s (Diag.test_connected s) s []) in Hrun by reflexivity.
  destruct (Diag.test_connected s) eqn:Hc; cbn [negb andb] in *.
  - rewrite (dbind_run _ _ s tt s [WsSendTest (Diag.auth_send_ok e)]) in Hrun
      by reflexivity.
    destruct (Diag.dbind (Diag.auth_wait _ _) _ s) as [[[b s2] t2]|] eqn:Hwait;
      [|discriminate].
    apply dbind_some in Hwait as (u & s1 & t1 & b' & s2' & t2' & Hw & Hk & Heq).
    destruct (auth_wait_inv _ _ _ _ Hw) as (s' & core & Hr & Hco).
    injection Hr as -> -> ->. injection Heq as -> -> ->.
    rewrite (dbind_run _ _ s' (Diag.test_authenticated s') s' []) in Hk by reflexivity.
    destruct (sketch_inert core) as [Hcl Hci].
    destruct (sketch_only core) as [Hwb _].
    exists s'.
    exists ([say "=== Testing Authentication ==="] ++ [] ++
            [WsSendTest (Diag.auth_send_ok e)] ++ map Sketch core ++ [] ++
            [say (if Diag.test_authenticated s' then "Authentication successful!"
                  else "Authentication failed!")]).
    split; [|split; [|split; [|split; [|split]]]].
    + destruct (Diag.test_authenticated s'); cbn in Hk; injection Hk as <- <- <-;
        cbn in Hrun; injection Hrun as <-; reflexivity.
    + discriminate.
    + rewrite !closes_app, Hcl. reflexivity.
    + rewrite !camera_inits_app, Hci. reflexivity.
    + rewrite !sketch_calls_app, !connects_app, sketch_calls_map, Hco. reflexivity.
    + rewrite !wifi_begins_app, Hwb. reflexivity.
  - cbn in Hrun. injection Hrun as <-.
    exists s. eexists. split; [reflexivity|]. repeat split; reflexivity.
Qed.

Lemma camera_test_inv e s r :
  Diag.testCamera e s = Some r ->
  exists t,
    r = ((Diag.camera_err e =? ESP_OK) &&
         match Diag.capture e with Some _ => true | None => false end, s, t) /\
    closes t = [] /\
    camera_inits t = [CameraInit "FRAMESIZE_VGA" 80 2 (Diag.camera_err e)] /\
    connects (sketch_calls t) = [] /\ wifi_begins t = [] /\
    delays (sketch_calls t) = [].
Proof.
  unfold Diag.testCamera.
  destruct (Diag.camera_err e =? ESP_OK); cbn [negb andb];
    [destruct (Diag.capture e) as [fb|]|];
    intros Hrun; injection Hrun as <-;
    eexists; (split; [reflexivity|]); repeat split; reflexivity.
Qed.

Lemma memory_test_inv e s r :
  Diag.testMemory e s = Some r ->
  exists t,
    r = (tt, s, t) /\
    closes t = [] /\ camera_inits t = [] /\
    connects (sketch_calls t) = [] /\ wifi_begins t = [] /\
    delays (sketch_calls t) = [].
Proof.
  unfold Diag.testMemory.
  destruct (Diag.free_heap e <? 50000), (Diag.largest_block e <? 10000);
    intros Hrun; injection Hrun as <-;
    eexists; (split; [reflexivity|]); repeat split; reflexivity.
Qed.

Lemma capture_loop_core frames : forall remaining first frame_count s,
  exists core,
    Diag.capture_loop frames first remaining frame_count s =
      Some (frame_count + captured_among frames first remaining, s, map Sketch core) /\
    List.length (acquisitions core) = remaining /\
    delays core = repeat 100 remaining /\
    connects core = [].
Proof.
  induction remaining as [|k IH]; intros first frame_count s.
  - exists []. cbn. unfold captured_among. cbn. rewrite Z.add_0_r.
    repeat split; reflexivity.
  - rewrite captured_among_step. cbn [Diag.capture_loop].
    destruct (frames first) as [fb|].
    + destruct (IH (S first) (frame_count + 1) s) as (core & Hrun & Hacq & Hd & Hc).
      exists (FbGet (Some fb) :: FbReturn fb :: Delay 100 :: core).
      split.
      * unfold Diag.dbind, Diag.call, Diag.pause. cbn -[Z.add captured_among].
        rewrite Hrun. do 3 f_equal; lia.
      * cbn. fold acquisitions delays connects.
        rewrite Hacq, Hd, Hc. repeat split; reflexivity.
    + destruct (IH (S first) frame_count s) as (core & Hrun & Hacq & Hd & Hc).
      exists (FbGet None :: Delay 100 :: core).
      split.
      * unfold Diag.dbind, Diag.call, Diag.pause. cbn -[Z.add captured_among].
        rewrite Hrun. do 3 f_equal; lia.
      * cbn. fold acquisitions delays connects.
        rewrite Hacq, Hd, Hc. repeat split; reflexivity.
Qed.

Lemma performance_test_inv e s r :
  Diag.testPerformance e s = Some r ->
  exists t,
    r = (tt, s, t) /\
    closes t = [] /\ camera_inits t = [] /\
    connects (sketch_calls t) = [] /\ wifi_begins t = [] /\
    List.length (acquisitions (sketch_calls t)) = 10%nat /\
    slept (sketch_calls t) = 1000.
Proof.
  unfold Diag.testPerformance.
  destruct (capture_loop_core (Diag.perf_frames e) 10 0%nat 0 s)
    as (core & Hrun & Hacq & Hd & Hc).
  rewrite (dbind_run _ _ s tt s [say "=== Testing Performance ==="]) by reflexivity.
  rewrite (dbind_run _ _ s _ s (map Sketch core) Hrun).
  cbv beta iota. intros Hr. injection Hr as <-.
  destruct (sketch_inert core) as [Hcl Hci].
  destruct (sketch_only core) as [Hwb _].
  eexists. split; [reflexivity|].
  unfold slept.
  change (say "=== Testing Performance ===" :: ?l)
    with ([say "=== Testing Performance ==="] ++ l).
  rewrite !closes_app, !camera_inits_app, !wifi_begins_app, !sketch_calls_app,
    !connects_app, !acquisitions_app, !delays_app, sketch_calls_map,
    Hcl, Hci, Hwb, Hc, Hd.
  repeat split; try reflexivity.
  - cbn. rewrite app_nil_r. exact Hacq.
Qed.

Lemma websocket_test_delays e s r :
  Diag.testWebSocketConnection e s = Some r -> delays (sketch_calls (snd r)) = [].
Proof.
  unfold Diag.testWebSocketConnection.
  destruct (Diag.ws_connect_ok e); intros Hrun; injection Hrun as <-; reflexivity.
Qed.

Lemma auth_test_off e s :
  Diag.test_connected s = false ->
  Diag.testAuthentication e s =
  Some (false, s, [say "=== Testing Authentication ==="; say "WebSocket not connected!"]).
Proof.
  intros Hc. unfold Diag.testAuthentication.
  rewrite (dbind_run _ _ s tt s [say "=== Testing Authentication ==="]) by reflexivity.
  rewrite (dbind_run _ _ s false s []) by (unfold Diag.read; now rewrite Hc).
  reflexivity.
Qed.

Lemma verdict_run (passed : bool) s :
  Diag.dbind (Diag.println "=== Test Results ===")
    (fun _ =>
       Diag.dbind
         (if passed
          then Diag.println "ALL TESTS PASSED! ESP32CAM is ready for production."
          else Diag.println "SOME TESTS FAILED! Please check the issues above.")
         (fun _ =>
            Diag.dbind (Diag.read Diag.test_connected)
              (fun connected => if connected then Diag.call WsClose else Diag.dret tt))) s =
  Some (tt, s,
        [say "=== Test Results ===";
         say (if passed
              then "ALL TESTS PASSED! ESP32CAM is ready for production."
              else "SOME TESTS FAILED! Please check the issues above.")] ++
        (if Diag.test_connected s then [WsClose] else [])).
Proof.
  unfold Diag.dbind, Diag.println, Diag.call, Diag.read, Diag.dret.
  destruct passed, (Diag.test_connected s); reflexivity.
Qed.

(** The part of [setup] that runs the tests: everything up to the report. *)
Lemma setup_inv e s' t :
  Diag.setup e Diag.initial = Some (tt, s', t) ->
  exists tw tws ta tc tm tp,
    let passed :=
      Diag.wifi_final e && Diag.ws_connect_ok e && Diag.test_authenticated s' &&
      (Diag.camera_err e =? ESP_OK) &&
      match Diag.capture e with Some _ => true | None => false end in
    t = [SerialBegin 115200] ++ [say "ESP32CAM Connection Test Starting..."] ++
        [WsOnEvent] ++ tw ++ tws ++ ta ++ tc ++ tm ++ tp ++
        [say "=== Test Results ===";
         say (if passed
              then "ALL TESTS PASSED! ESP32CAM is ready for production."
              else "SOME TESTS FAILED! Please check the issues above.")] ++
        (if Diag.test_connected s' then [WsClose] else []) /\
    (closes tw = [] /\ camera_inits tw = [] /\
     connects (sketch_calls tw) = [] /\ wifi_begins tw = [WifiBegin]) /\
    (closes tws = [] /\ camera_inits tws = [] /\
     connects (sketch_calls tws) = [Diag.ws_connect_ok e] /\ wifi_begins tws = []) /\
    (closes ta = [] /\ camera_inits ta = [] /\
     connects (sketch_calls ta) = [] /\ wifi_begins ta = []) /\
    (closes tc = [] /\
     camera_inits tc = [CameraInit "FRAMESIZE_VGA" 80 2 (Diag.camera_err e)] /\
     connects (sketch_calls tc) = [] /\ wifi_begins tc = []) /\
    (closes tm = [] /\ camera_inits tm = [] /\
     connects (sketch_calls tm) = [] /\ wifi_begins tm = []) /\
    (closes tp = [] /\ camera_inits tp = [] /\
     connects (sketch_calls tp) = [] /\ wifi_begins tp = [] /\
     List.length (acquisitions (sketch_calls tp)) = 10%nat) /\
    (Diag.ws_connect_ok e = false -> s' = Diag.initial).
Proof.
  unfold Diag.setup. intros H.
  rewrite (dbind_run _ _ Diag.initial tt Diag.initial [SerialBegin 115200]) in H
    by reflexivity.
  rewrite (dbind_run _ _ Diag.initial tt Diag.initial
             [say "ESP32CAM Connection Test Starting..."]) in H by reflexivity.
  rewrite (dbind_run _ _ Diag.initial tt Diag.initial [WsOnEvent]) in H by reflexivity.
  destruct (Diag.dbind (Diag.testWiFiConnection e) _ Diag.initial)
    as [[[u s9] t9]|] eqn:Hrest; [|discriminate].
  injection H as -> -> <-.
  apply dbind_some in Hrest as (w & s1 & tw & u1 & s1' & r1 & Hw & Hrest & Heq).
  injection Heq as <- <- ->.
  destruct (wifi_test_inv _ _ _ Hw) as (tw' & Hr & Pw). injection Hr as -> -> <-.
  cbv beta zeta in Hrest.
  apply dbind_some in Hrest as (ws & s2 & tws & u2 & s2' & r2 & Hws & Hrest & Heq).
  injection Heq as <- <- ->.
  destruct (websocket_test_run e Diag.initial) as (tws' & Hws' & Pws).
  rewrite Hws' in Hws. injection Hws as <- <- <-.
  cbv beta zeta in Hrest.
  apply dbind_some in Hrest as (a & s3 & ta & u3 & s3' & r3 & Ha & Hrest & Heq).
  injection Heq as <- <- ->.
  destruct (auth_test_inv _ _ _ Ha) as (s3'' & ta' & Hr & Hoff & Pa).
  injection Hr as -> <- <-.
  cbv beta zeta in Hrest.
  apply dbind_some in Hrest as (c & s4 & tc & u4 & s4' & r4 & Hc & Hrest & Heq).
  injection Heq as <- <- ->.
  destruct (camera_test_inv _ _ _ Hc) as (tc' & Hr & Pc). injection Hr as -> <- <-.
  cbv beta zeta in Hrest.
  apply dbind_some in Hrest as (m & s5 & tm & u5 & s5' & r5 & Hm & Hrest & Heq).
  injection Heq as <- <- ->.
  destruct (memory_test_inv _ _ _ Hm) as (tm' & Hr & Pm). injection Hr as -> <- <-.
  cbv beta zeta in Hrest.
  apply dbind_some in Hrest as (p & s6 & tp & u6 & s6' & r6 & Hp & Hrest & Heq).
  injection Heq as <- <- ->.
  destruct (performance_test_inv _ _ _ Hp) as (tp' & Hr & Pp). injection Hr as -> <- <-.
  cbv beta zeta in Hrest.
  rewrite verdict_run in Hrest. injection Hrest as <- <-.
  exists tw, tws', ta, tc, tm, tp. cbv zeta.
  destruct Pp as (P1 & P2 & P3 & P4 & P5 & _).
  destruct Pc as (C1 & C2 & C3 & C4 & _).
  destruct Pm as (M1 & M2 & M3 & M4 & _).
  split; [|repeat split; try tauto].
  - do 9 f_equal.
    assert (Hconn : Diag.test_connected
                      (if Diag.ws_connect_ok e
                       then Diag.set_connected true Diag.initial
                       else Diag.initial) = Diag.ws_connect_ok e)
      by (destruct (Diag.ws_connect_ok e); reflexivity).
    rewrite Hconn.
    destruct (Diag.wifi_final e), (Diag.ws_connect_ok e), (Diag.test_authenticated s6),
      (Diag.camera_err e =? ESP_OK), (Diag.capture e); reflexivity.
  - intros Hko. rewrite Hko in Hoff. apply Hoff. reflexivity.
Qed.

(** X23. The verdict of the diagnostic sketch.  Whenever [setup] returns,
    every test has been run once, whatever the earlier tests returned: WiFi
    was started once, one WebSocket connect was attempted, the camera was
    initialised once and the ten captures of the performance test were
    made.  The report printed last says that all tests passed exactly when
    WiFi was associated after the wait, the connect succeeded, the session
    ended up authenticated, the camera initialised and the capture delivered
    a frame.  The client is closed exactly when the session is still marked
    connected at the end, and closing is the last thing [setup] does.  When
    the connect fails, the authentication test cannot pass and both flags
    stay clear. *)
Theorem diagnostic_verdict :
  forall e s' t,
    Diag.setup e Diag.initial = Some (tt, s', t) ->
    let passed :=
      Diag.wifi_final e && Diag.ws_connect_ok e && Diag.test_authenticated s' &&
      (Diag.camera_err e =? ESP_OK) &&
      match Diag.capture e with Some _ => true | None => false end in
    (exists before,
        t = before ++
            [say "=== Test Results ===";
             say (if passed
                  then "ALL TESTS PASSED! ESP32CAM is ready for production."
                  else "SOME TESTS FAILED! Please check the issues above.")] ++
            (if Diag.test_connected s' then [WsClose] else [])) /\
    closes t = (if Diag.test_connected s' then [WsClose] else []) /\
    wifi_begins t = [WifiBegin] /\
    connects (sketch_calls t) = [Diag.ws_connect_ok e] /\
    camera_inits t = [CameraInit "FRAMESIZE_VGA" 80 2 (Diag.camera_err e)] /\
    (10 <= List.length (acquisitions (sketch_calls t)))%nat /\
    (Diag.ws_connect_ok e = false -> s' = Diag.initial).
Proof.
  intros e s' t Hrun. cbv zeta.
  destruct (setup_inv e s' t Hrun)
    as (tw & tws & ta & tc & tm & tp & Ht & Pw & Pws & Pa & Pc & Pm & Pp & Hko).
  cbv zeta in Ht.
  destruct Pw as (W1 & W2 & W3 & W4). destruct Pws as (S1 & S2 & S3 & S4).
  destruct Pa as (A1 & A2 & A3 & A4). destruct Pc as (C1 & C2 & C3 & C4).
  destruct Pm as (M1 & M2 & M3 & M4). destruct Pp as (P1 & P2 & P3 & P4 & P5).
  split; [|split; [|split; [|split; [|split; [|split]]]]].
  - exists ([SerialBegin 115200] ++ [say "ESP32CAM Connection Test Starting..."] ++
            [WsOnEvent] ++ tw ++ tws ++ ta ++ tc ++ tm ++ tp).
    rewrite Ht. rewrite <- !app_assoc. reflexivity.
  - rewrite Ht, !closes_app, W1, S1, A1, C1, M1, P1.
    destruct (Diag.test_connected s'), (_ && _); reflexivity.
  - rewrite Ht, !wifi_begins_app, W4, S4, A4, C4, M4, P4.
    destruct (Diag.test_connected s'), (_ && _); reflexivity.
  - rewrite Ht, !sketch_calls_app, !connects_app, W3, S3, A3, C3, M3, P3.
    destruct (Diag.test_connected s'), (_ && _); reflexivity.
  - rewrite Ht, !camera_inits_app, W2, S2, A2, C2, M2, P2.
    destruct (Diag.test_connected s'), (_ && _); reflexivity.
  - rewrite Ht, !sketch_calls_app, !acquisitions_app, !length_app, P5. lia.
  - exact Hko.
Qed.

Lemma diagnostic_verdict_witness :
  exists s' t before,
    Diag.setup diag_good Diag.initial = Some (tt, s', t) /\
    t = before ++
        [say "=== Test Results ===";
         say "ALL TESTS PASSED! ESP32CAM is ready for production."] ++ [WsClose].
Proof.
  destruct (Diag.setup diag_good Diag.initial) as [[[u s'] t]|] eqn:Hrun;
    [|vm_compute in Hrun; discriminate].
  destruct u.
  destruct (diagnostic_verdict diag_good s' t Hrun) as ((before & Ht) & _).
  exists s', t, before. split; [reflexivity|].
  assert (Hs : s' = Diag.mkGlobals true true).
  { vm_compute in Hrun. injection Hrun as <- _. reflexivity. }
  rewrite Hs in Ht. exact Ht.
Defined.

Lemma slept_sketch_app t1 t2 :
  slept (sketch_calls (t1 ++ t2)) = slept (sketch_calls t1) + slept (sketch_calls t2).
Proof. rewrite sketch_calls_app. apply slept_app. Qed.

Lemma slept_no_delays t : delays t = [] -> slept t = 0.
Proof. unfold slept. intros ->. reflexivity. Qed.

Lemma camera_test_some e s : exists r, Diag.testCamera e s = Some r.
Proof.
  unfold Diag.testCamera.
  destruct (Diag.camera_err e =? ESP_OK); cbn [negb];
    [destruct (Diag.capture e)|]; eexists; reflexivity.
Qed.

Lemma memory_test_some e s : exists r, Diag.testMemory e s = Some r.
Proof. destruct (memory_test_run e s) as (t & Hrun & _). eexists. exact Hrun. Qed.

Lemma performance_test_some e s : exists r, Diag.testPerformance e s = Some r.
Proof.
  unfold Diag.testPerformance.
  destruct (capture_loop_core (Diag.perf_frames e) 10 0%nat 0 s) as (core & Hrun & _).
  rewrite (dbind_run _ _ s tt s [say "=== Testing Performance ==="]) by reflexivity.
  rewrite (dbind_run _ _ s _ s (map Sketch core) Hrun).
  eexists. reflexivity.
Qed.

(** The WiFi test under an advancing clock: it returns, and has slept at
    most ten seconds. *)
Lemma wifi_test_bounded e s :
  advancing 500 (ulong (Diag.wifi_start e)) (map snd (Diag.wifi_rounds e)) ->
  (21 <= List.length (Diag.wifi_rounds e))%nat ->
  exists t,
    Diag.testWiFiConnection e s = Some (Diag.wifi_final e, s, t) /\
    slept (sketch_calls t) <= 10000.
Proof.
  intros Hadv Hlen.
  destruct (Diag.wifi_rounds e) as [|[associated now] rest] eqn:Hrounds;
    [cbn in Hlen; lia|].
  cbn [map snd advancing] in Hadv. destruct Hadv as [Hfirst Hsp].
  pose proof (ulong_range (Diag.wifi_start e)) as Hstart.
  cbn [List.length] in Hlen.
  destruct (wifi_wait_run (ulong (Diag.wifi_start e)) rest associated now s)
    as (k & core & Hrun & Hd & _ & Hlo & Hhi); try lia; try exact Hsp.
  assert (Hk : (k <= 20)%nat).
  { destruct (Z_lt_ge_dec (now - ulong (Diag.wifi_start e)) 10000) as [Hin|Hout].
    - specialize (Hlo Hin). lia.
    - rewrite (Hhi ltac:(lia)). lia. }
  exists ([say "=== Testing WiFi Connection ==="] ++ [WifiBegin] ++ map Sketch core ++
          (if Diag.wifi_final e
           then [say "\nWiFi connected successfully!"; say "IP address: "; SerialPrintIP;
                 say "Signal strength: "; SerialPrintRSSI]
           else [say "\nWiFi connection failed!"])).
  split.
  - unfold Diag.testWiFiConnection. rewrite Hrounds.
    rewrite (dbind_run _ _ s tt s [say "=== Testing WiFi Connection ==="]) by reflexivity.
    rewrite (dbind_run _ _ s tt s [WifiBegin]) by reflexivity.
    rewrite (dbind_run _ _ s tt s (map Sketch core) Hrun).
    destruct (Diag.wifi_final e); reflexivity.
  - unfold slept. rewrite !sketch_calls_app, sketch_calls_map, !delays_app, Hd.
    destruct (Diag.wifi_final e); cbn; rewrite app_nil_r, slept_repeat; lia.
Qed.

(** The authentication test on a connected session under an advancing
    clock: it returns, and has slept at most five seconds. *)
Lemma auth_test_bounded e s :
  Diag.test_connected s = true ->
  advancing 100 (ulong (Diag.auth_start e)) (map fst (Diag.auth_rounds e)) ->
  (51 <= List.length (Diag.auth_rounds e))%nat ->
  exists a s' t,
    Diag.testAuthentication e s = Some (a, s', t) /\
    slept (sketch_calls t) <= 5000.
Proof.
  intros Hc Hadv Hlen.
  destruct (Diag.auth_rounds e) as [|[now events] rest] eqn:Hrounds;
    [cbn in Hlen; lia|].
  cbn [map fst advancing] in Hadv. destruct Hadv as [Hfirst Hsp].
  pose proof (ulong_range (Diag.auth_start e)) as Hstart.
  cbn [List.length] in Hlen.
  destruct (auth_wait_run (ulong (Diag.auth_start e)) rest now events s)
    as (k & s' & core & Hrun & _ & Hd & _ & Hlo & Hhi); try lia; try exact Hsp.
  assert (Hk : (k <= 50)%nat).
  { destruct (Z_lt_ge_dec (now - ulong (Diag.auth_start e)) 5000) as [Hin|Hout].
    - specialize (Hlo Hin). lia.
    - rewrite (Hhi ltac:(lia)). lia. }
  exists (Diag.test_authenticated s'), s'.
  exists ([say "=== Testing Authentication ==="] ++ [] ++
          [WsSendTest (Diag.auth_send_ok e)] ++ map Sketch core ++ [] ++
          [say (if Diag.test_authenticated s' then "Authentication successful!"
                else "Authentication failed!")]).
  split.
  - unfold Diag.testAuthentication. rewrite Hrounds.
    rewrite (dbind_run _ _ s tt s [say "=== Testing Authentication ==="]) by reflexivity.
    rewrite (dbind_run _ _ s true s []) by (unfold Diag.read; now rewrite Hc).
    cbn [negb].
    rewrite (dbind_run _ _ s tt s [WsSendTest (Diag.auth_send_ok e)]) by reflexivity.
    rewrite (dbind_run _ _ s tt s' (map Sketch core) Hrun).
    rewrite (dbind_run _ _ s' (Diag.test_authenticated s') s' []) by reflexivity.
    destruct (Diag.test_authenticated s'); reflexivity.
  - unfold slept. rewrite !sketch_calls_app, sketch_calls_map, !delays_app. cbn.
    rewrite app_nil_r, Hd, slept_repeat. lia.
Qed.


(** The tests that follow the authentication test. *)
Lemma setup_rest_run e passed s :
  exists t,
    Diag.dbind (Diag.testCamera e)
      (fun camera =>
         Diag.dbind (Diag.testMemory e)
           (fun _ =>
              Diag.dbind (Diag.testPerformance e)
                (fun _ =>
                   Diag.dbind (Diag.println "=== Test Results ===")
                     (fun _ =>
                        Diag.dbind
                          (if (if negb camera then false else passed)
                           then Diag.println
                                  "ALL TESTS PASSED! ESP32CAM is ready for production."
                           else Diag.println
                                  "SOME TESTS FAILED! Please check the issues above.")
                          (fun _ =>
                             Diag.dbind (Diag.read Diag.test_connected)
                               (fun connected =>
                                  if connected then Diag.call WsClose
                                  else Diag.dret tt)))))) s =
    Some (tt, s, t) /\
    slept (sketch_calls t) = 1000.
Proof.
  destruct (camera_test_some e s) as (rc & Hc).
  destruct (camera_test_inv _ _ _ Hc) as (tc & -> & _ & _ & _ & _ & Hdc).
  destruct (memory_test_some e s) as (rm & Hm).
  destruct (memory_test_inv _ _ _ Hm) as (tm & -> & _ & _ & _ & _ & Hdm).
  destruct (performance_test_some e s) as (rp & Hp).
  destruct (performance_test_inv _ _ _ Hp) as (tp & -> & _ & _ & _ & _ & _ & Hsp).
  rewrite (dbind_run _ _ s _ s tc Hc).
  rewrite (dbind_run _ _ s _ s tm Hm).
  rewrite (dbind_run _ _ s _ s tp Hp).
  rewrite verdict_run.
  eexists. split; [reflexivity|].
  rewrite !slept_sketch_app, Hsp, (slept_no_delays _ Hdc), (slept_no_delays _ Hdm).
  destruct (if negb _ then false else passed), (Diag.test_connected s); reflexivity.
Qed.

(** X24. The diagnostic sketch terminates.  If the clock advances by at
    least the delay of the loop body between two evaluations of the test of
    each waiting loop (500 ms while waiting for WiFi, 100 ms while waiting
    for the reply), [setup] returns, and all its delays together come to at
    most 16000 ms: up to ten seconds for WiFi, up to five for the reply and
    one for the ten captures. *)
Theorem diagnostic_run_completes :
  forall e,
    advancing 500 (ulong (Diag.wifi_start e)) (map snd (Diag.wifi_rounds e)) ->
    (21 <= List.length (Diag.wifi_rounds e))%nat ->
    advancing 100 (ulong (Diag.auth_start e)) (map fst (Diag.auth_rounds e)) ->
    (51 <= List.length (Diag.auth_rounds e))%nat ->
    exists s' t,
      Diag.setup e Diag.initial = Some (tt, s', t) /\
      slept (sketch_calls t) <= 16000.
Proof.
  intros e Hwadv Hwlen Haadv Halen.
  destruct (wifi_test_bounded e Diag.initial Hwadv Hwlen) as (tw & Hw & Hsw).
  destruct (websocket_test_run e Diag.initial) as (tws & Hws & _).
  pose proof (websocket_test_delays _ _ _ Hws) as Hdws. cbn [snd] in Hdws.
  assert (Hauth : exists a s' ta,
             Diag.testAuthentication e
               (if Diag.ws_connect_ok e then Diag.set_connected true Diag.initial
                else Diag.initial) = Some (a, s', ta) /\
             slept (sketch_calls ta) <= 5000).
  { destruct (Diag.ws_connect_ok e).
    - apply (auth_test_bounded e (Diag.set_connected true Diag.initial));
        [reflexivity | exact Haadv | exact Halen].
    - exists false, Diag.initial. eexists. split.
      + apply auth_test_off. reflexivity.
      + cbn. lia. }
  destruct Hauth as (a & s' & ta & Ha & Hsa).
  unfold Diag.setup.
  rewrite (dbind_run _ _ Diag.initial tt Diag.initial [SerialBegin 115200])
    by reflexivity.
  rewrite (dbind_run _ _ Diag.initial tt Diag.initial
             [say "ESP32CAM Connection Test Starting..."]) by reflexivity.
  rewrite (dbind_run _ _ Diag.initial tt Diag.initial [WsOnEvent]) by reflexivity.
  rewrite (dbind_run _ _ Diag.initial _ Diag.initial tw Hw). cbv beta zeta.
  rewrite (dbind_run _ _ Diag.initial _ _ tws Hws). cbv beta zeta.
  rewrite (dbind_run _ _ _ _ s' ta Ha). cbv beta zeta.
  match goal with
  | |- context [Diag.dbind (Diag.testCamera e) ?k s'] =>
      match k with
      | context [if (if negb _ then false else ?p) then _ else _] =>
          destruct (setup_rest_run e p s') as (tr & Hrest & Hsr)
      end
  end.
  rewrite Hrest.
  exists s'. eexists. split; [reflexivity|].
  rewrite !slept_sketch_app, Hsr, (slept_no_delays _ Hdws).
  cbn [sketch_calls flat_map sketch_of say slept delays delay_of fold_right app].
  lia.
Qed.

Lemma diagnostic_run_completes_witness :
  exists s' t,
    Diag.setup diag_patient Diag.initial = Some (tt, s', t) /\
    slept (sketch_calls t) <= 16000.
Proof.
  apply (diagnostic_run_completes diag_patient).
  - unfold ULONG_MODULUS. cbn. lia.
  - cbn. lia.
  - unfold ULONG_MODULUS. cbn. lia.
  - cbn. lia.
Defined.
